(** * Verification of src/components/data_transformation.py

  A shallow embedding of the data-transformation component: the
    preprocessing object built by [get_data_transformer_object] and the
    driver [initiate_data_transformation], together with models of the
    pandas, numpy and scikit-learn operations the two methods call. *)

From stdpp Require Import base option list gmap strings sorting.
From Stdlib Require Import ZArith QArith.

Open Scope string_scope.
Open Scope list_scope.
Open Scope nat_scope.

(** ** Floating-point numbers

  The arrays hold float64 numbers.  The arithmetic itself is kept
    abstract: the development is parametric in the carrier and its
    operations, so that nothing below depends on how rounding behaves.
    A missing value (NaN) is never an element of the carrier; it is
    [None] in an [option]. *)

Class Numeric (F : Type) := {
  F_eq_dec :: EqDecision F;
  Fof_nat : nat → F;
  Fadd : F → F → F;
  Fsub : F → F → F;
  Fmul : F → F → F;
  Fdiv : F → F → F;
  Fsqrt : F → F;
  Fleb : F → F → bool
}.

(** *** Rational numbers

  A carrier to run the model on concrete tables: rational numbers kept in
    lowest terms, so that two of them are equal when their numerators and
    denominators are.  Addition, subtraction, multiplication and division are
    exact.  The square root is exact on the square of a rational; on any other
    number it is the root cut after twenty decimal places.  What float64
    rounds, this carrier does not, so a value computed here and the value the
    program computes differ by rounding only.  A division by zero gives 0
    and the root of a negative number is 0, where float64 has [inf] and
    [nan]; the component divides by a number of rows, which input validation
    keeps positive, by 2, and by a scale, which is never zero, and takes the
    root of a variance. *)

Definition Q_eq_dec : EqDecision Q.
Proof. solve_decision. Defined.

Definition Qsqrt (x : Q) : Q :=
  Qred (Z.sqrt (Qnum x * Zpos (Qden x) * 10 ^ 40) # (Qden x * 10 ^ 20)).

Definition Q_numeric : Numeric Q := {|
  F_eq_dec := Q_eq_dec;
  Fof_nat n := inject_Z (Z.of_nat n);
  Fadd x y := Qred (x + y);
  Fsub x y := Qred (x - y);
  Fmul x y := Qred (x * y);
  Fdiv x y := Qred (x / y);
  Fsqrt := Qsqrt;
  Fleb := Qle_bool
|}.

(** ** Exceptions and results *)

(** Python exceptions raised by the modelled calls.  [FileNotFoundError]
    stands for every error of [pd.read_csv] (a missing, unreadable, empty or
    malformed file): the model has one way for a read to fail.  Exceptions
    that need data the tables of this model cannot hold (the [TypeError]
    of scikit-learn on an object column that mixes numbers and text) have no
    constructor.

  Modelled from the spec: [CustomException] (src/exception.py is not part
    of the sources) is the single wrapped error kind; it carries the
    original cause and the execution context captured at the point of
    failure, modelled here as the line of the statement that failed. *)
Inductive exn :=
| FileNotFoundError (path : string)
| KeyError (key : string)
| ValueError (msg : string)
| NotFittedError
| OSError (path : string)
| CustomException (cause : exn) (lineno : nat).

Inductive result (A : Type) :=
| Ok (a : A)
| Raise (e : exn).
Arguments Ok {A} a.
Arguments Raise {A} e.

#[export] Instance result_ret : MRet result := λ A a, Ok a.
#[export] Instance result_bind : MBind result := λ A B f m,
  match m with
| Ok a => f a
| Raise e => Raise e
  end.

Definition is_Ok {A} (r : result A) : bool :=
  match r with Ok _ => true | Raise _ => false end.

(** Apply a fallible function to every element, left to right. *)
Fixpoint mapR {A B} (f : A → result B) (l : list A) : result (list B) :=
  match l with
| [] => Ok []
| x :: l' => y ← f x; ys ← mapR f l'; Ok (y :: ys)
  end.

(** ** Tables *)

Section DataModel.
Context {F : Type}.

(** A non-missing entry of a table or of an object array. *)
Inductive scalar :=
| Num (x : F)
| Str (s : string).

(** A pandas column as [pd.read_csv] makes it of a column of a CSV file:
    float64 data, or object data whose entries are text; a missing entry is
    [None].  Columns that [pd.read_csv] does not produce from a CSV file of
    the schema, such as an object column that holds numbers next to text, are
    outside the model. *)
Inductive Column :=
| NumCol (xs : list (option F))
| ObjCol (xs : list (option string)).

Definition column_length (c : Column) : nat :=
  match c with
  | NumCol xs => length xs
  | ObjCol xs => length xs
  end.

(** The entries of a column as an array; a missing entry (NaN) is [None]. *)
Definition column_cells (c : Column) : list (option scalar) :=
  match c with
  | NumCol xs => map (option_map Num) xs
  | ObjCol xs => map (option_map Str) xs
  end.

(** A DataFrame with [n] rows: every column has [n] entries. *)
Definition has_rows (n : nat) (df : gmap string Column) : Prop :=
  map_Forall (λ _ c, column_length c = n) df.

(** The non-missing entries of a column. *)
Definition observed {A} (col : list (option A)) : list A := omap id col.

End DataModel.
Arguments scalar F : clear implicits.
Arguments Column F : clear implicits.

#[export] Instance scalar_eq_dec `{Numeric F} : EqDecision (scalar F).
Proof. solve_decision. Defined.

(** ** pandas *)

Module pd.
Section pd.
Context {F : Type}.

(** [DataFrame.drop(columns=[c])] raises KeyError when [c] is absent. *)
Definition drop (df : gmap string (Column F)) (c : string)
  : result (gmap string (Column F)) :=
  match df !! c with
  | Some _ => Ok (delete c df)
  | None => Raise (KeyError c)
  end.

(** [df[c]] raises KeyError when [c] is absent. *)
Definition getitem (df : gmap string (Column F)) (c : string)
  : result (Column F) :=
  match df !! c with
  | Some col => Ok col
  | None => Raise (KeyError c)
  end.

End pd.
End pd.

(** ** numpy *)

(** The result of [ColumnTransformer]: a dense ndarray or a scipy CSR
    matrix, held row by row. *)
Inductive features (F : Type) :=
| NdArray (rows : list (list F))
| CsrMatrix (rows : list (list F)).
Arguments NdArray {F} rows.
Arguments CsrMatrix {F} rows.

(** A two-dimensional array as [np.c_] builds it: rows of entries, or, when
    an operand is a sparse matrix, a 1 x 2 object array that holds the matrix
    itself next to the single entry of the other operand. *)
Inductive ndarray (F : Type) :=
| Array2D (rows : list (list (option (scalar F))))
| ObjectArray1x2 (m : list (list F)) (y : option (scalar F)).
Arguments Array2D {F} rows.
Arguments ObjectArray1x2 {F} m y.

Module np.
Section np.
Context `{Numeric F}.

Definition F0 : F := Fof_nat 0.
Definition F1 : F := Fof_nat 1.

Definition sum (xs : list F) : F := foldl Fadd F0 xs.

Definition mean (xs : list F) : F := Fdiv (sum xs) (Fof_nat (length xs)).

(** Population variance (ddof = 0). *)
Definition var (xs : list F) : F :=
  let m := mean xs in
  mean ((λ x, Fmul (Fsub x m) (Fsub x m)) <$> xs).

Definition sort (xs : list F) : list F :=
  merge_sort (λ x y, Is_true (Fleb x y)) xs.

(** Median: the middle element of the sorted data, or the mean of the
      two middle elements. *)
Definition median (xs : list F) : F :=
  let s := sort xs in
  let n := length s in
  if Nat.even n
  then Fdiv (Fadd (nth (n / 2 - 1) s F0) (nth (n / 2) s F0)) (Fof_nat 2)
  else nth (n / 2) s F0.

(** [np.array(series)] *)
Definition array (c : Column F) : list (option (scalar F)) := column_cells c.

(** [np.c_[X, y]] for a feature matrix [X] and a one-dimensional [y]: [y]
    becomes the last column.  A sparse matrix is not an array: it is wrapped
    as a single object, and the concatenation then needs [y] to have exactly
    one entry. *)
Definition c_ (X : features F) (y : list (option (scalar F))) : result (ndarray F) :=
  match X with
  | NdArray rows =>
      if decide (length rows = length y)
      then Ok (Array2D (zip_with (λ r t, ((λ x, Some (Num x)) <$> r) ++ [t]) rows y))
      else Raise (ValueError "all the input array dimensions except for the concatenation axis must match exactly")
  | CsrMatrix m =>
      match y with
      | [t] => Ok (ObjectArray1x2 m t)
      | _ => Raise (ValueError "all the input array dimensions except for the concatenation axis must match exactly")
      end
  end.

End np.
End np.

(** ** scikit-learn

    The estimators the component configures, with the behaviour their
    documentation gives for the constructor arguments used in the source
    (all other arguments at their defaults).  Matrices are held column by
    column while they pass through a pipeline. *)

(** The estimator interface: [fit] learns parameters [P] from an input,
    [transform] applies learned parameters to an input. *)
Record Estimator (X P Y : Type) := {
  fit : X → result P;
  transform : P → X → result Y
}.
Arguments fit {X P Y} e x.
Arguments transform {X P Y} e p x.

Definition fit_transform {X P Y} (e : Estimator X P Y) (x : X) : result (P * Y) :=
  p ← fit e x; y ← transform e p x; Ok (p, y).

(** [Pipeline(steps=[a, b])]: [a] is fitted and applied, then [b] is fitted on
    what [a] produced.  A pipeline of three steps is [Pipeline a (Pipeline b c)]. *)
Definition Pipeline {X P Y Q Z} (a : Estimator X P Y) (b : Estimator Y Q Z)
  : Estimator X (P * Q) Z := {|
  fit x := '(p, y) ← fit_transform a x; q ← fit b y; Ok (p, q);
  transform pq x := y ← transform a pq.1 x; transform b pq.2 y
|}.

(** A feature matrix: a dense array, or a sparse matrix whose entries that
    are not stored ([None]) are zero. *)
Inductive array (F : Type) :=
| Dense (cols : list (list F))
| Sparse (cols : list (list (option F))).
Arguments Dense {F} cols.
Arguments Sparse {F} cols.

(** Input validation shared by the estimators: at least one feature and at
    least one sample. *)
Definition check_array {A} (X : list (list A)) : result unit :=
  match X with
  | [] => Raise (ValueError "Found array with 0 feature(s)")
  | [] :: _ => Raise (ValueError "Found array with 0 sample(s)")
  | _ => Ok ()
  end.

Module SimpleImputer.
Section SimpleImputer.
Context `{Numeric F}.

(** The statistic learned for one feature; [None] (NaN) when the feature
    has no observed value at fit. *)
Definition statistic {A} (strategy : list A → A) (col : list (option A)) : option A :=
  match observed col with
  | [] => None
  | xs => Some (strategy xs)
  end.

Definition fit_cols {A} (strategy : list A → A) (X : list (list (option A)))
  : result (list (option A)) :=
  _ ← check_array X; Ok (statistic strategy <$> X).

(** A feature whose statistic is NaN is discarded; in the others every
    missing entry is replaced by the statistic. *)
Definition impute {A} (st : option A) (col : list (option A)) : option (list A) :=
  match st with
  | Some v => Some (default v <$> col)
  | None => None
  end.

Definition transform_cols {A} (statistics_ : list (option A)) (X : list (list (option A)))
  : result (list (list A)) :=
  _ ← check_array X;
  if decide (length statistics_ = length X)
  then Ok (omap id (zip_with impute statistics_ X))
  else Raise (ValueError "X has a different number of features than seen in fit").

(** The median strategy needs numeric data. *)
Definition as_float (c : Column F) : result (list (option F)) :=
  match c with
  | NumCol xs => Ok xs
  | ObjCol xs =>
      if forallb (λ x, bool_decide (x = None)) xs
      then Ok ((λ _, None) <$> xs)
      else Raise (ValueError "Cannot use median strategy with non-numeric data")
  end.

(** [SimpleImputer(strategy="median")] *)
Definition median : Estimator (list (Column F)) (list (option F)) (array F) := {|
  fit X := Xf ← mapR as_float X; fit_cols np.median Xf;
  transform statistics_ X :=
    Xf ← mapR as_float X; Y ← transform_cols statistics_ Xf; Ok (Dense Y)
|}.

Definition count (x : scalar F) (xs : list (scalar F)) : nat :=
  length (filter (x =.) xs).

(** The order in which values of one column compare; a column holds numbers
    only or text only. *)
Definition scalar_leb (a b : scalar F) : bool :=
  match a, b with
  | Num x, Num y => Fleb x y
  | Str s, Str t => String.leb s t
  | Num _, Str _ => true
  | Str _, Num _ => false
  end.

(** The most frequent value; the smallest one when several are. *)
Definition mode (xs : list (scalar F)) : scalar F :=
  let best := max_list ((λ x, count x xs) <$> xs) in
  match filter (λ x, count x xs = best) xs with
  | [] => Str ""
  | c :: cs => foldl (λ m y, if scalar_leb m y then m else y) c cs
  end.

(** [SimpleImputer(strategy="most_frequent")] *)
Definition most_frequent
  : Estimator (list (Column F)) (list (option (scalar F))) (list (list (scalar F))) := {|
  fit X := fit_cols mode (column_cells <$> X);
  transform statistics_ X := transform_cols statistics_ (column_cells <$> X)
|}.

End SimpleImputer.
End SimpleImputer.

Module StandardScaler.
Section StandardScaler.
Context `{Numeric F}.

Definition to_dense (X : array F) : list (list F) :=
  match X with
  | Dense cols => cols
  | Sparse cols => map (default np.F0) <$> cols
  end.

(** The scale of a feature is its standard deviation, and 1 for a constant
    feature. *)
Definition scale_of (xs : list F) : F :=
  let s := Fsqrt (np.var xs) in
  if decide (s = np.F0) then np.F1 else s.

(** The learned parameters: [(mean_, scale_)] per feature. *)
Definition fit_array (with_mean : bool) (X : array F) : result (list (F * F)) :=
  _ ← check_array (to_dense X);
  match X with
  | Sparse _ =>
      if with_mean
      then Raise (ValueError "Cannot center sparse matrices: pass `with_mean=False`")
      else Ok ((λ col, (np.mean col, scale_of col)) <$> to_dense X)
  | Dense _ => Ok ((λ col, (np.mean col, scale_of col)) <$> to_dense X)
  end.

Definition transform_array (with_mean : bool) (params : list (F * F)) (X : array F)
  : result (array F) :=
  _ ← check_array (to_dense X);
  if decide (length params = length (to_dense X)) then
    match X with
    | Dense cols =>
        Ok (Dense (zip_with (λ '(m, s) col,
                     (λ x, if with_mean then Fdiv (Fsub x m) s else Fdiv x s) <$> col)
                   params cols))
    | Sparse cols =>
        if with_mean
        then Raise (ValueError "Cannot center sparse matrices: pass `with_mean=False`")
        else Ok (Sparse (zip_with (λ '(_, s) col,
                           option_map (λ x, Fmul x (Fdiv np.F1 s)) <$> col)
                         params cols))
    end
  else Raise (ValueError "X has a different number of features than seen in fit").

(** [StandardScaler(with_mean=...)] *)
Definition make (with_mean : bool) : Estimator (array F) (list (F * F)) (array F) := {|
  fit := fit_array with_mean;
  transform := transform_array with_mean
|}.

End StandardScaler.
End StandardScaler.

Module OneHotEncoder.
Section OneHotEncoder.
Context `{Numeric F}.

(** The categories of a feature: its distinct values, sorted. *)
Definition categories (col : list (scalar F)) : list (scalar F) :=
  merge_sort (λ a b, Is_true (SimpleImputer.scalar_leb a b)) (remove_dups col).

Definition fit_cols (X : list (list (scalar F))) : result (list (list (scalar F))) :=
  _ ← check_array X; Ok (categories <$> X).

Definition known (cats col : list (scalar F)) : bool :=
  forallb (λ v, bool_decide (v ∈ cats)) col.

(** One output column per category, with a stored 1 where the value is that
    category. *)
Definition one_hot (cats col : list (scalar F)) : list (list (option F)) :=
  (λ c, (λ v, if decide (v = c) then Some np.F1 else None) <$> col) <$> cats.

(** The default [handle_unknown="error"]: a value that is not a category
    learned at fit is an error. *)
Definition transform_cols (categories_ : list (list (scalar F))) (X : list (list (scalar F)))
  : result (array F) :=
  _ ← check_array X;
  if decide (length categories_ = length X) then
    if forallb id (zip_with known categories_ X)
    then Ok (Sparse (concat (zip_with one_hot categories_ X)))
    else Raise (ValueError "Found unknown categories")
  else Raise (ValueError "X has a different number of features than seen in fit").

(** [OneHotEncoder()] *)
Definition make : Estimator (list (list (scalar F))) (list (list (scalar F))) (array F) := {|
  fit := fit_cols;
  transform := transform_cols
|}.

End OneHotEncoder.
End OneHotEncoder.

Module ColumnTransformer.
Section ColumnTransformer.
Context `{Numeric F}.
Context {P Q : Type}.

(** [ColumnTransformer([(_, num_pipeline, numerical_columns),
    (_, cat_pipeline, categorical_columns)])] with the default
    [remainder="drop"]; [fitted_] is [None] until the object is fitted and
    then holds the fitted pipelines together with [sparse_output_]. *)
Record t := {
  num_pipeline : Estimator (list (Column F)) P (array F);
  numerical_columns : list string;
  cat_pipeline : Estimator (list (Column F)) Q (array F);
  categorical_columns : list string;
  fitted_ : option (P * Q * bool)
}.

(** The default [sparse_threshold=0.3], as the fraction 3/10. *)
Definition sparse_threshold : nat * nat := (3, 10).

(** Columns are selected by name; a name that is not in the frame is an error. *)
Definition select (df : gmap string (Column F)) (cols : list string)
  : result (list (Column F)) :=
  mapR (λ c, match df !! c with
             | Some col => Ok col
             | None => Raise (ValueError "A given column is not a column of the dataframe")
             end) cols.

Definition size (X : array F) : nat := sum_list (length <$> StandardScaler.to_dense X).

(** Stored entries of a block: all entries of a dense block. *)
Definition nnz (X : array F) : nat :=
  match X with
  | Dense cols => sum_list (length <$> cols)
  | Sparse cols => sum_list ((λ c, length (observed c)) <$> cols)
  end.

Definition issparse (X : array F) : bool :=
  match X with Sparse _ => true | Dense _ => false end.

(** [sparse_output_]: some block is sparse and the overall density is below
    the threshold. *)
Definition sparse_output (Xs : list (array F)) : bool :=
  existsb issparse Xs &&
  Nat.ltb (sum_list (nnz <$> Xs) * sparse_threshold.2)
          (sparse_threshold.1 * sum_list (size <$> Xs)).

Definition rows_of (cols : list (list F)) : list (list F) :=
  match cols with
  | [] => []
  | c :: _ => foldr (zip_with cons) (replicate (length c) []) cols
  end.

(** The blocks side by side, in the order of the transformers. *)
Definition hstack (sparse : bool) (Xs : list (array F)) : features F :=
  let rows := rows_of (concat (StandardScaler.to_dense <$> Xs)) in
  if sparse then CsrMatrix rows else NdArray rows.

(** [fit_transform] fits both pipelines on the frame, records the fitted
    state in the object, and returns the object with the transformed frame. *)
Definition fit_transform (ct : t) (df : gmap string (Column F)) : result (t * features F) :=
  Xn ← select df (numerical_columns ct);
  Xc ← select df (categorical_columns ct);
  '(p, A) ← fit_transform (num_pipeline ct) Xn;
  '(q, B) ← fit_transform (cat_pipeline ct) Xc;
  let s := sparse_output [A; B] in
  Ok ({| num_pipeline := num_pipeline ct;
         numerical_columns := numerical_columns ct;
         cat_pipeline := cat_pipeline ct;
         categorical_columns := categorical_columns ct;
         fitted_ := Some (p, q, s) |},
      hstack s [A; B]).

(** [transform] reads the fitted state and leaves the object as it is. *)
Definition transform (ct : t) (df : gmap string (Column F)) : result (features F) :=
  match fitted_ ct with
  | None => Raise NotFittedError
  | Some (p, q, s) =>
      Xn ← select df (numerical_columns ct);
      Xc ← select df (categorical_columns ct);
      A ← transform (num_pipeline ct) p Xn;
      B ← transform (cat_pipeline ct) q Xc;
      Ok (hstack s [A; B])
  end.

End ColumnTransformer.
Arguments t F P Q : clear implicits.
End ColumnTransformer.

(** ** The file system *)

(** The files the component touches: tables that [pd.read_csv] can load,
    pickled objects, and the paths that cannot be written. *)
Record World (F O : Type) := {
  csv_files : gmap string (gmap string (Column F));
  artifacts : gmap string O;
  read_only : gset string
}.
Arguments csv_files {F O} w.
Arguments artifacts {F O} w.
Arguments read_only {F O} w.

Module os_path.

Definition ends_with_sep (s : string) : bool :=
  match String.rev s with
  | String c _ => Ascii.eqb c (Ascii.ascii_of_nat 47)
  | EmptyString => false
  end.

(** [os.path.join(a, b)] with the POSIX separator. *)
Definition join (a b : string) : string :=
  if String.prefix "/" b then b
  else if bool_decide (a = "") || ends_with_sep a then String.append a b
  else String.append a (String.append "/" b).

End os_path.

Section Effects.
Context {F O : Type}.

(** [pd.read_csv(path)]: a path that holds no table stands for any file that
    is missing, unreadable or malformed, and the read then raises the one
    read error of the model. *)
Definition read_csv (path : string) (w : World F O)
  : result (gmap string (Column F)) * World F O :=
  match csv_files w !! path with
  | Some df => (Ok df, w)
  | None => (Raise (FileNotFoundError path), w)
  end.

(** Modelled from the spec: [save_object] (src/utils.py is not part of the
    sources) writes the serialized object to the file at [file_path],
    replacing what the file held; the write can fail. *)
Definition save_object (file_path : string) (obj : O) (w : World F O)
  : result unit * World F O :=
  if decide (file_path ∈ read_only w)
  then (Raise (OSError file_path), w)
  else (Ok (), {| csv_files := delete file_path (csv_files w);
                  artifacts := <[file_path := obj]> (artifacts w);
                  read_only := read_only w |}).

(** *** Method bodies

    A statement of a method body either completes with a value or raises an
    exception at its line; both may change the files. *)
Inductive outcome (A : Type) :=
| Done (a : A)
| Raised (e : exn) (lineno : nat).

Definition body (A : Type) : Type := World F O → outcome A * World F O.

Definition body_ret {A} (a : A) : body A := λ w, (Done _ a, w).

Definition body_bind {A B} (f : A → body B) (m : body A) : body B := λ w,
  match m w with
  | (Done _ a, w') => f a w'
  | (Raised _ e n, w') => (Raised _ e n, w')
  end.

(** A call on line [lineno] to an operation that uses the files. *)
Definition call {A} (lineno : nat) (f : World F O → result A * World F O) : body A := λ w,
  match f w with
  | (Ok a, w') => (Done _ a, w')
  | (Raise e, w') => (Raised _ e lineno, w')
  end.

(** A call on line [lineno] to an operation that does not. *)
Definition call_pure {A} (lineno : nat) (r : result A) : body A :=
  call lineno (λ w, (r, w)).

(** [try: body except Exception as e: raise CustomException(e, sys)] *)
Definition try_except {A} (b : body A) (w : World F O) : result A * World F O :=
  match b w with
  | (Done _ a, w') => (Ok a, w')
  | (Raised _ e n, w') => (Raise (CustomException e n), w')
  end.

End Effects.
Arguments Done {A} a.
Arguments Raised {A} e lineno.
Arguments body F O A : clear implicits.

#[export] Instance body_mret {F O} : MRet (body F O) := λ A, body_ret.
#[export] Instance body_mbind {F O} : MBind (body F O) := λ A B, body_bind.

(** ** The component

    The two methods of [DataTransformation], statement by statement.  The
    [logging.info] calls between the statements (src/logger.py is not part of
    the sources) only append lines to a log file that no statement reads;
    they are left out. *)

Module DataTransformationConfig.

Definition preprocessor_obj_file_path : string :=
  os_path.join "artifacts" "preprocessor.pkl".

End DataTransformationConfig.

Module DataTransformation.

(** What the numeric pipeline learns: the medians, then [(mean_, scale_)]. *)
Definition num_params (F : Type) : Type := list (option F) * list (F * F).

(** What the categorical pipeline learns: the modes, the categories, then
    [(mean_, scale_)] of the one-hot columns. *)
Definition cat_params (F : Type) : Type :=
  list (option (scalar F)) * (list (list (scalar F)) * list (F * F)).

Abbreviation preprocessor F := (ColumnTransformer.t F (num_params F) (cat_params F)).

Abbreviation world F := (World F (preprocessor F)).

Section DataTransformation.
Context `{Numeric F}.

Definition numerical_columns : list string := ["writing_score"; "reading_score"].

Definition categorical_columns : list string :=
  ["gender"; "race_ethnicity"; "parental_level_of_education"; "lunch";
   "test_preparation_course"].

Definition num_pipeline : Estimator (list (Column F)) (num_params F) (array F) :=
  Pipeline SimpleImputer.median (StandardScaler.make true).

Definition cat_pipeline : Estimator (list (Column F)) (cat_params F) (array F) :=
  Pipeline SimpleImputer.most_frequent
    (Pipeline OneHotEncoder.make (StandardScaler.make false)).

Definition get_data_transformer_object : world F → result (preprocessor F) * world F :=
  try_except (
    let preprocessor := {|
      ColumnTransformer.num_pipeline := num_pipeline;
      ColumnTransformer.numerical_columns := numerical_columns;
      ColumnTransformer.cat_pipeline := cat_pipeline;
      ColumnTransformer.categorical_columns := categorical_columns;
      ColumnTransformer.fitted_ := None
    |} in
    mret preprocessor).

Definition target_column_name : string := "math_score".

(** Each statement carries the line of the source on which it starts. *)
Definition initiate_data_transformation (train_path test_path : string)
  : world F → result (ndarray F * ndarray F * string) * world F :=
  try_except (
    train_df ← call 76 (read_csv train_path);
    test_df ← call 77 (read_csv test_path);
    preprocessor_obj ← call 83 get_data_transformer_object;
    input_feature_train_df ← call_pure 88 (pd.drop train_df target_column_name);
    target_feature_train_df ← call_pure 89 (pd.getitem train_df target_column_name);
    input_feature_test_df ← call_pure 91 (pd.drop test_df target_column_name);
    target_feature_test_df ← call_pure 92 (pd.getitem test_df target_column_name);
    '(preprocessor_obj, input_feature_train_arr) ←
      call_pure 96 (ColumnTransformer.fit_transform preprocessor_obj input_feature_train_df);
    input_feature_test_arr ←
      call_pure 97 (ColumnTransformer.transform preprocessor_obj input_feature_test_df);
    train_arr ← call_pure 99 (np.c_ input_feature_train_arr (np.array target_feature_train_df));
    test_arr ← call_pure 103 (np.c_ input_feature_test_arr (np.array target_feature_test_df));
    _ ← call 107 (save_object DataTransformationConfig.preprocessor_obj_file_path
                    preprocessor_obj);
    mret (train_arr, test_arr, DataTransformationConfig.preprocessor_obj_file_path)).

End DataTransformation.
End DataTransformation.

Import DataTransformation.

(** * Vocabulary of the statements *)

Section Vocabulary.
Context `{Numeric F}.

Definition cols_len {A} (n : nat) (X : list (list A)) : Prop :=
  Forall (λ c, length c = n) X.

(** The number of features an imputer keeps. *)
Definition n_kept {A} (statistics_ : list (option A)) : nat :=
  length (filter is_Some statistics_).

(** A training column with at least one value that is not missing. *)
Definition has_observation (c : Column F) : Prop := observed (column_cells c) ≠ [].

(** The number of distinct values, missing entries apart, of a column. *)
Definition n_distinct (c : Column F) : nat :=
  length (remove_dups (observed (column_cells c))).

Definition frame_cols_len (n : nat) (X : list (Column F)) : Prop :=
  Forall (λ c, column_length c = n) X.

(** The columns the most-frequent imputer hands to the encoder. *)
Definition imputed (cells : list (list (option (scalar F)))) : list (list (scalar F)) :=
  omap id (zip_with SimpleImputer.impute
             (SimpleImputer.statistic SimpleImputer.mode <$> cells) cells).

(** Stored entries of the columns of a sparse matrix. *)
Definition stored (cols : list (list (option F))) : nat :=
  sum_list ((λ c, length (observed c)) <$> cols).

(** The object [get_data_transformer_object] builds. *)
Definition new_preprocessor : preprocessor F := {|
  ColumnTransformer.num_pipeline := num_pipeline;
  ColumnTransformer.numerical_columns := numerical_columns;
  ColumnTransformer.cat_pipeline := cat_pipeline;
  ColumnTransformer.categorical_columns := categorical_columns;
  ColumnTransformer.fitted_ := None
|}.

(** The same object once fitted. *)
Definition fitted_preprocessor (p : num_params F) (q : cat_params F) (s : bool)
  : preprocessor F := {|
  ColumnTransformer.num_pipeline := num_pipeline;
  ColumnTransformer.numerical_columns := numerical_columns;
  ColumnTransformer.cat_pipeline := cat_pipeline;
  ColumnTransformer.categorical_columns := categorical_columns;
  ColumnTransformer.fitted_ := Some (p, q, s)
|}.

Definition features_rows (X : features F) : list (list F) :=
  match X with NdArray rows => rows | CsrMatrix rows => rows end.

Definition is_csr (X : features F) : bool :=
  match X with NdArray _ => false | CsrMatrix _ => true end.

(** The column of a frame, if any, seen as a list of entries. *)
Definition column_of (df : gmap string (Column F)) (c : string) : Column F :=
  default (NumCol []) (df !! c).

(** Numeric columns of the schema with an observed value in [df]. *)
Definition numeric_kept (df : gmap string (Column F)) : nat :=
  length (filter has_observation (column_of df <$> numerical_columns)).

(** Categorical columns of the schema with an observed value in [df]. *)
Definition categorical_kept (df : gmap string (Column F)) : nat :=
  length (filter has_observation (column_of df <$> categorical_columns)).

(** Distinct observed categories of [df], summed over the categorical columns. *)
Definition distinct_total (df : gmap string (Column F)) : nat :=
  sum_list (n_distinct <$> (column_of df <$> categorical_columns)).

Definition artifact_path : string := DataTransformationConfig.preprocessor_obj_file_path.

(** The files after the fitted object [pre] has been saved. *)
Definition saved (pre : preprocessor F) (w : world F) : world F := {|
  csv_files := delete artifact_path (csv_files w);
  artifacts := <[artifact_path := pre]> (artifacts w);
  read_only := read_only w
|}.

(** The statements of [initiate_data_transformation] that can fail, each
    with the exception it raises and the line it is on. *)
Inductive failure (train_path test_path : string) (w : world F) : exn → nat → Prop :=
| fail_read_train :
    csv_files w !! train_path = None →
    failure train_path test_path w (FileNotFoundError train_path) 76
| fail_read_test train :
    csv_files w !! train_path = Some train →
    csv_files w !! test_path = None →
    failure train_path test_path w (FileNotFoundError test_path) 77
| fail_target_train train test :
    csv_files w !! train_path = Some train →
    csv_files w !! test_path = Some test →
    train !! target_column_name = None →
    failure train_path test_path w (KeyError target_column_name) 88
| fail_target_test train test ytr :
    csv_files w !! train_path = Some train →
    csv_files w !! test_path = Some test →
    train !! target_column_name = Some ytr →
    test !! target_column_name = None →
    failure train_path test_path w (KeyError target_column_name) 91
| fail_fit train test ytr yte e :
    csv_files w !! train_path = Some train →
    csv_files w !! test_path = Some test →
    train !! target_column_name = Some ytr →
    test !! target_column_name = Some yte →
    ColumnTransformer.fit_transform new_preprocessor (delete target_column_name train)
      = Raise e →
    failure train_path test_path w e 96
| fail_transform train test ytr yte pre Xtr e :
    csv_files w !! train_path = Some train →
    csv_files w !! test_path = Some test →
    train !! target_column_name = Some ytr →
    test !! target_column_name = Some yte →
    ColumnTransformer.fit_transform new_preprocessor (delete target_column_name train)
      = Ok (pre, Xtr) →
    ColumnTransformer.transform pre (delete target_column_name test) = Raise e →
    failure train_path test_path w e 97
| fail_concat_train train test ytr yte pre Xtr Xte e :
    csv_files w !! train_path = Some train →
    csv_files w !! test_path = Some test →
    train !! target_column_name = Some ytr →
    test !! target_column_name = Some yte →
    ColumnTransformer.fit_transform new_preprocessor (delete target_column_name train)
      = Ok (pre, Xtr) →
    ColumnTransformer.transform pre (delete target_column_name test) = Ok Xte →
    np.c_ Xtr (np.array ytr) = Raise e →
    failure train_path test_path w e 99
| fail_concat_test train test ytr yte pre Xtr Xte train_arr e :
    csv_files w !! train_path = Some train →
    csv_files w !! test_path = Some test →
    train !! target_column_name = Some ytr →
    test !! target_column_name = Some yte →
    ColumnTransformer.fit_transform new_preprocessor (delete target_column_name train)
      = Ok (pre, Xtr) →
    ColumnTransformer.transform pre (delete target_column_name test) = Ok Xte →
    np.c_ Xtr (np.array ytr) = Ok train_arr →
    np.c_ Xte (np.array yte) = Raise e →
    failure train_path test_path w e 103
| fail_save train test ytr yte pre Xtr Xte train_arr test_arr :
    csv_files w !! train_path = Some train →
    csv_files w !! test_path = Some test →
    train !! target_column_name = Some ytr →
    test !! target_column_name = Some yte →
    ColumnTransformer.fit_transform new_preprocessor (delete target_column_name train)
      = Ok (pre, Xtr) →
    ColumnTransformer.transform pre (delete target_column_name test) = Ok Xte →
    np.c_ Xtr (np.array ytr) = Ok train_arr →
    np.c_ Xte (np.array yte) = Ok test_arr →
    artifact_path ∈ read_only w →
    failure train_path test_path w (OSError artifact_path) 107.

(** A run that completes every statement. *)
Inductive success (train_path test_path : string) (w : world F)
    (r : ndarray F * ndarray F * string) (w' : world F) : Prop :=
| success_intro train test ytr yte pre Xtr Xte :
    csv_files w !! train_path = Some train →
    csv_files w !! test_path = Some test →
    train !! target_column_name = Some ytr →
    test !! target_column_name = Some yte →
    ColumnTransformer.fit_transform new_preprocessor (delete target_column_name train)
      = Ok (pre, Xtr) →
    ColumnTransformer.transform pre (delete target_column_name test) = Ok Xte →
    np.c_ Xtr (np.array ytr) = Ok r.1.1 →
    np.c_ Xte (np.array yte) = Ok r.1.2 →
    r.2 = artifact_path →
    artifact_path ∉ read_only w →
    w' = saved pre w →
    success train_path test_path w r w'.

(** [np.c_] on a dense matrix puts entry [i] of the second operand at the
    end of row [i]. *)
Definition with_target (rows : list (list F)) (y : list (option (scalar F)))
  : list (list (option (scalar F))) :=
  zip_with (λ r t, ((λ x, Some (Num x)) <$> r) ++ [t]) rows y.

(** What the spec asks of one entry [x] of a numeric column: fill a missing
    entry with the median of the observed training values, then subtract the
    training mean and divide by the training scale, both taken from the
    training column after it has been filled in the same way. *)
Definition standardized (train_col : list (option F)) (x : option F) : F :=
  let med := np.median (observed train_col) in
  let filled := default med <$> train_col in
  Fdiv (Fsub (default med x) (np.mean filled)) (StandardScaler.scale_of filled).

(** The 0/1 column of category [c] over a column without missing entries. *)
Definition indicator (c : scalar F) (filled : list (scalar F)) : list F :=
  (λ v, if decide (v = c) then np.F1 else np.F0) <$> filled.

(** A training column with its missing entries replaced by its mode. *)
Definition filled_with_mode (train_col : list (option (scalar F))) : list (scalar F) :=
  default (SimpleImputer.mode (observed train_col)) <$> train_col.

(** What the spec asks of one entry [x] of a categorical column, in the
    output column of the training category [c]: fill a missing entry with the
    training mode, write 1 if the entry is [c] and 0 otherwise, and scale by
    the scale of that 0/1 column over the training data, without centring. *)
Definition encoded (train_col : list (option (scalar F))) (c : scalar F)
    (x : option (scalar F)) : F :=
  if decide (default (SimpleImputer.mode (observed train_col)) x = c)
  then Fmul np.F1 (Fdiv np.F1 (StandardScaler.scale_of (indicator c (filled_with_mode train_col))))
  else np.F0.

(** The output columns of one categorical column: one per training category. *)
Definition encoded_block (train_col input_col : list (option (scalar F))) : list (list F) :=
  (λ c, encoded train_col c <$> input_col)
    <$> OneHotEncoder.categories (filled_with_mode train_col).

Definition scale_sparse (params : list (F * F)) (cols : list (list (option F)))
  : list (list (option F)) :=
  zip_with (λ '(_, s) col, option_map (λ x, Fmul x (Fdiv np.F1 s)) <$> col) params cols.

Definition learn (cols : list (list F)) : list (F * F) :=
  (λ col, (np.mean col, StandardScaler.scale_of col)) <$> cols.

(** A table with the columns of the schema: numeric columns hold numbers. *)
Definition conforms (df : gmap string (Column F)) : Prop :=
  (∀ c, c ∈ numerical_columns → ∃ xs, df !! c = Some (NumCol xs)) ∧
  (∀ c, c ∈ categorical_columns → is_Some (df !! c)) ∧
  is_Some (df !! target_column_name).

(** Every feature column of the schema has an observed value. *)
Definition fully_observed (df : gmap string (Column F)) : Prop :=
  ∀ c, c ∈ numerical_columns ++ categorical_columns → has_observation (column_of df c).

(** Every observed categorical value of [test] is an observed value of the
    same column of [train]. *)
Definition categories_seen (train test : gmap string (Column F)) : Prop :=
  ∀ c v, c ∈ categorical_columns →
    v ∈ observed (column_cells (column_of test c)) →
    v ∈ observed (column_cells (column_of train c)).

(** The seven feature columns of the schema are columns of [df]. *)
Definition has_features (df : gmap string (Column F)) : Prop :=
  ∀ c, c ∈ numerical_columns ++ categorical_columns → is_Some (df !! c).

(** The message of the column selection of [ColumnTransformer]. *)
Definition not_a_column : string := "A given column is not a column of the dataframe".

Definition no_samples : string := "Found array with 0 sample(s)".

Definition no_features : string := "Found array with 0 feature(s)".



(** Two tables hold the same data in the columns [cols]. *)
Definition agree_on (cols : list string) (df1 df2 : gmap string (Column F)) : Prop :=
  ∀ c, c ∈ cols → df1 !! c = df2 !! c.

(** The entries of a numeric column. *)
Definition num_cells (c : Column F) : list (option F) :=
  match c with
  | NumCol xs => xs
  | ObjCol xs => (λ _, None) <$> xs
  end.

(** The output columns of the numeric branch fitted on [train], for the
    table [df]: one per numeric column of the schema. *)
Definition numeric_block (train df : gmap string (Column F)) : list (list F) :=
  (λ c, standardized (num_cells (column_of train c)) <$> num_cells (column_of df c))
    <$> numerical_columns.

(** The output columns of the categorical branch fitted on [train], for the
    table [df]: for each categorical column of the schema, one per category
    of the training column. *)
Definition categorical_block (train df : gmap string (Column F)) : list (list F) :=
  concat ((λ c, encoded_block (column_cells (column_of train c))
                  (column_cells (column_of df c))) <$> categorical_columns).

(** Entry [i] of a column; a missing entry is [None]. *)
Definition entry {A} (col : list (option A)) (i : nat) : option A := mjoin (col !! i).

(** Row [i] of the features of [df], as the preprocessor fitted on [train]
    computes it: the standardized scores, then for each categorical column
    the encodings of its entry against the categories of the training
    column. *)
Definition feature_row (train df : gmap string (Column F)) (i : nat) : list F :=
  ((λ c, standardized (num_cells (column_of train c))
           (entry (num_cells (column_of df c)) i)) <$> numerical_columns)
  ++ concat ((λ c, (λ cat, encoded (column_cells (column_of train c)) cat
                             (entry (column_cells (column_of df c)) i))
                     <$> OneHotEncoder.categories
                           (filled_with_mode (column_cells (column_of train c))))
               <$> categorical_columns).

(** The transformer output is sparse when fewer than three in ten of its
    entries are stored: with the two numeric and five categorical columns all
    kept, when [7 / (2 + d) < 3 / 10] for [d] distinct categories. *)
Definition sparse_for (n d : nat) : bool :=
  Nat.ltb ((2 * n + 5 * n) * 10) (3 * (2 * n + d * n)).

(** What a branch fitted on the columns [trains] gives for the columns
    [inputs]: a training column without an observed value has no statistic
    and its input column is discarded; every other input column [c], with
    training column [t], gives [f t c]. *)
Definition kept_with {A B} (f : list (option A) → list (option A) → B)
    (trains inputs : list (list (option A))) : list B :=
  omap id (zip_with (λ t c, match observed t with
                            | [] => None
                            | _ :: _ => Some (f t c)
                            end) trains inputs).

(** A column with its missing entries replaced by the statistic of its
    training column. *)
Definition filled_by {A} (strategy : list A → A) (t c : list (option A)) : list A :=
  default (strategy (observed t)) <$> c.

(** Every observed value of an input column is an observed value of its
    training column, for the columns training observed. *)
Definition seen_where_observed (trains inputs : list (list (option (scalar F)))) : Prop :=
  Forall2 (λ t c, observed t ≠ [] → ∀ v, v ∈ observed c → v ∈ observed t) trains inputs.

(** The entries of a list at the positions [idx], in the order of [idx]. *)
Definition pick {A} (idx : list nat) (l : list A) : list A := omap (l !!.) idx.

Definition pick_column (idx : list nat) (c : Column F) : Column F :=
  match c with
  | NumCol xs => NumCol (pick idx xs)
  | ObjCol xs => ObjCol (pick idx xs)
  end.

(** The table made of the rows [idx] of a table, in the order of [idx]. *)
Definition pick_rows (idx : list nat) (df : gmap string (Column F))
  : gmap string (Column F) :=
  pick_column idx <$> df.

Definition pick_array (idx : list nat) (X : array F) : array F :=
  match X with
  | Dense cols => Dense (pick idx <$> cols)
  | Sparse cols => Sparse (pick idx <$> cols)
  end.

(** The rows [idx] of a feature matrix. *)
Definition pick_features (idx : list nat) (X : features F) : features F :=
  match X with
  | NdArray rows => NdArray (pick idx rows)
  | CsrMatrix rows => CsrMatrix (pick idx rows)
  end.





(** Every observed value of a categorical column of [test] is an observed
    value of the same column of [train], for the columns in which [train]
    has an observed value at all. *)
Definition seen_in_training (train test : gmap string (Column F)) : Prop :=
  ∀ c, c ∈ categorical_columns → has_observation (column_of train c) →
    ∀ v, v ∈ observed (column_cells (column_of test c)) →
         v ∈ observed (column_cells (column_of train c)).

(** The tables the preprocessor can be fitted on and applied to, with a
    dense result: a score column and a categorical column of [train] have an
    observed value, the categorical values of [test] were seen in training,
    and the stored entries (one per kept column and row) are at least 3/10
    of all entries. *)
Definition transformable (train test : gmap string (Column F)) : Prop :=
  0 < numeric_kept train ∧ 0 < categorical_kept train ∧
  seen_in_training train test ∧
  3 * (numeric_kept train + distinct_total train)
    ≤ 10 * (numeric_kept train + categorical_kept train).

End Vocabulary.

(** ** Sample tables *)

Module Sample.

(** A table with the eight columns of the schema. *)
Definition table (gender race_ethnicity parental_level_of_education lunch
    test_preparation_course : list (option string))
    (writing_score reading_score math_score : list (option Q)) : gmap string (Column Q) :=
  list_to_map
    [("gender", ObjCol gender);
     ("race_ethnicity", ObjCol race_ethnicity);
     ("parental_level_of_education", ObjCol parental_level_of_education);
     ("lunch", ObjCol lunch);
     ("test_preparation_course", ObjCol test_preparation_course);
     ("writing_score", NumCol writing_score);
     ("reading_score", NumCol reading_score);
     ("math_score", NumCol math_score)].

(** The files of a run: a training table and a test table. *)
Definition files (train test : gmap string (Column Q)) : world Q := {|
  csv_files := list_to_map [("train.csv", train); ("test.csv", test)];
  artifacts := ∅;
  read_only := ∅
|}.

Definition train3 : gmap string (Column Q) :=
  table [Some "female"; Some "male"; None]
        [Some "group A"; Some "group B"; Some "group A"]
        [Some "high school"; Some "high school"; Some "bachelor"]
        [Some "standard"; Some "free"; Some "standard"]
        [Some "none"; Some "none"; Some "completed"]
        [Some 10; None; Some 30]%Q [Some 50; Some 70; Some 90]%Q
        [Some 1; Some 2; Some 3]%Q.

Definition test2 : gmap string (Column Q) :=
  table [Some "female"; None] [Some "group A"; Some "group B"]
        [Some "high school"; Some "high school"] [Some "standard"; Some "free"]
        [Some "none"; Some "completed"]
        [Some 10; None]%Q [Some 50; Some 70]%Q [Some 1; None]%Q.

(** Other test rows: different scores and categories, all seen in training. *)
Definition test2' : gmap string (Column Q) :=
  table [Some "male"; Some "male"] [Some "group B"; Some "group B"]
        [Some "bachelor"; Some "high school"] [Some "free"; Some "free"]
        [Some "completed"; Some "completed"]
        [Some 990; Some 2]%Q [None; Some 7000]%Q [Some 5; Some 6]%Q.

(** A training table in which no writing score was recorded. *)
Definition train_no_writing : gmap string (Column Q) :=
  table [Some "female"; Some "male"; None]
        [Some "group A"; Some "group B"; Some "group A"]
        [Some "high school"; Some "high school"; Some "bachelor"]
        [Some "standard"; Some "free"; Some "standard"]
        [Some "none"; Some "none"; Some "completed"]
        [None; None; None] [Some 50; Some 70; Some 90]%Q
        [Some 1; Some 2; Some 3]%Q.

(** A training table in which no gender was recorded. *)
Definition train_no_gender : gmap string (Column Q) :=
  <["gender" := NumCol [None; None; None]]> train3.

(** A test table with a category that training never saw. *)
Definition test2_unseen : gmap string (Column Q) :=
  table [Some "female"; Some "male"] [Some "group A"; Some "group E"]
        [Some "high school"; Some "high school"] [Some "standard"; Some "free"]
        [Some "none"; Some "completed"]
        [Some 10; None]%Q [Some 50; Some 70]%Q [Some 1; None]%Q.

(** Tables of 100 and 20 rows. *)
Definition train100 : gmap string (Column Q) :=
  table (replicate 50 (Some "female") ++ replicate 50 (Some "male"))
        (replicate 100 (Some "group A"))
        (replicate 99 (Some "high school") ++ [None])
        (replicate 30 (Some "standard") ++ replicate 70 (Some "free"))
        (replicate 100 (Some "none"))
        (replicate 100 (Some 60%Q)) (replicate 40 (Some 55%Q) ++ replicate 60 None)
        (replicate 100 (Some 70%Q)).

Definition test20 : gmap string (Column Q) :=
  table (replicate 20 (Some "male")) (replicate 20 (Some "group A"))
        (replicate 20 None) (replicate 20 (Some "free")) (replicate 20 (Some "none"))
        (replicate 20 (Some 61%Q)) (replicate 20 (Some 54%Q)) (replicate 20 (Some 71%Q)).

Definition test20_unseen : gmap string (Column Q) :=
  table (replicate 20 (Some "male")) (replicate 19 (Some "group A") ++ [Some "group B"])
        (replicate 20 None) (replicate 20 (Some "free")) (replicate 20 (Some "none"))
        (replicate 20 (Some 61%Q)) (replicate 20 (Some 54%Q)) (replicate 20 (Some 71%Q)).

End Sample.

Section SampleRuns.
Import Sample.
#[local] Existing Instance Q_numeric.

(** The run of the component on sample files. *)
Definition run (train test : gmap string (Column Q))
  : result (ndarray Q * ndarray Q * string) * world Q :=
  initiate_data_transformation "train.csv" "test.csv" (files train test).

End SampleRuns.

(** ** Further sample tables *)

Module Edge.
Import Sample.

(** Tables that lack a column of the schema. *)
Definition train_no_target : gmap string (Column Q) := delete "math_score" train3.

Definition train_no_lunch : gmap string (Column Q) := delete "lunch" train3.

Definition test_no_lunch : gmap string (Column Q) := delete "lunch" test2.

(** A table with the columns of the schema and no rows. *)
Definition no_rows : gmap string (Column Q) := table [] [] [] [] [] [] [] [].

(** A training table in which no score was recorded. *)
Definition train_no_scores : gmap string (Column Q) :=
  table [Some "female"; Some "male"; None]
        [Some "group A"; Some "group B"; Some "group A"]
        [Some "high school"; Some "high school"; Some "bachelor"]
        [Some "standard"; Some "free"; Some "standard"]
        [Some "none"; Some "none"; Some "completed"]
        [None; None; None] [None; None; None]
        [Some 1; Some 2; Some 3]%Q.

(** The sample tables with a ninth column. *)
Definition train3_with_id : gmap string (Column Q) :=
  <["student_id" := NumCol [Some 7; Some 8; Some 9]%Q]> train3.

Definition test2_with_id : gmap string (Column Q) :=
  <["student_id" := ObjCol [Some "a"; Some "b"]]> test2.

(** The sample tables with other targets. *)
Definition train3_other_target : gmap string (Column Q) :=
  <["math_score" := NumCol [Some 9; None; Some 7]%Q]> train3.

Definition test2_other_target : gmap string (Column Q) :=
  <["math_score" := ObjCol [Some "pass"; Some "fail"]]> test2.

(** A training table with 25 distinct categories, and a test row. *)
Definition train5_distinct : gmap string (Column Q) :=
  table [Some "a1"; Some "a2"; Some "a3"; Some "a4"; Some "a5"]
        [Some "b1"; Some "b2"; Some "b3"; Some "b4"; Some "b5"]
        [Some "c1"; Some "c2"; Some "c3"; Some "c4"; Some "c5"]
        [Some "d1"; Some "d2"; Some "d3"; Some "d4"; Some "d5"]
        [Some "e1"; Some "e2"; Some "e3"; Some "e4"; Some "e5"]
        [Some 1; Some 2; Some 3; Some 4; Some 5]%Q
        [Some 5; Some 4; Some 3; Some 2; Some 1]%Q
        [Some 10; Some 20; Some 30; Some 40; Some 50]%Q.

Definition test1 : gmap string (Column Q) :=
  table [Some "a1"] [Some "b2"] [Some "c3"] [Some "d4"] [Some "e5"]
        [Some 3%Q] [None] [Some 30%Q].

(** The sample test table with other genders, and files holding both. *)
Definition test2_other_gender : gmap string (Column Q) :=
  table [Some "other"; Some "unknown"] [Some "group A"; Some "group B"]
        [Some "high school"; Some "high school"] [Some "standard"; Some "free"]
        [Some "none"; Some "completed"]
        [Some 10; None]%Q [Some 50; Some 70]%Q [Some 1; None]%Q.

Definition files3 (train test other : gmap string (Column Q)) : world Q := {|
  csv_files := list_to_map [("train.csv", train); ("test.csv", test); ("other.csv", other)];
  artifacts := ∅;
  read_only := ∅
|}.

(** Training columns and input columns of the numeric branch; in the
    second training table no value of the first column was recorded. *)
Definition score_trains : list (list (option Q)) :=
  [[Some 2; Some 2; None; Some 6; Some 2]; [Some 10; Some 10; Some 10; Some 10; Some 60]]%Q.

Definition score_trains_unobserved : list (list (option Q)) :=
  [[None; None; None; None; None]; [Some 10; Some 10; Some 10; Some 10; Some 60]]%Q.

Definition score_inputs : list (list (option Q)) :=
  [[None; Some 6]; [Some 40; None]]%Q.

(** Training columns and input columns of the categorical branch; in the
    second training table no value of the first column was recorded. *)
Definition cat_trains : list (Column Q) :=
  [ObjCol [Some "female"; Some "male"; None; Some "female"; Some "female"];
   ObjCol [Some "free"; Some "standard"; Some "standard"; Some "standard"; Some "standard"]].

Definition cat_trains_unobserved : list (Column Q) :=
  [ObjCol [None; None; None; None; None];
   ObjCol [Some "free"; Some "standard"; Some "standard"; Some "standard"; Some "standard"]].

Definition cat_inputs : list (Column Q) :=
  [ObjCol [None; Some "male"]; ObjCol [Some "free"; None]].

(** An input with a value of the second column that training never saw. *)
Definition cat_inputs_unseen : list (Column Q) :=
  [ObjCol [None; Some "male"]; ObjCol [Some "reduced"; None]].

(** The table of 100 rows without a writing score. *)
Definition train100_no_writing : gmap string (Column Q) :=
  <["writing_score" := NumCol (replicate 100 None)]> train100.

End Edge.

(** * Properties *)

(** ** Results *)

Lemma bind_Ok_inv {A B} (f : A → result B) (m : result A) (b : B) :
  m ≫= f = Ok b → ∃ a, m = Ok a ∧ f a = Ok b.
Proof. destruct m as [a|e]; simpl; [eauto | discriminate]. Qed.

Lemma bind_Ok {A B} (f : A → result B) (m : result A) (a : A) :
  m = Ok a → m ≫= f = f a.
Proof. by intros ->. Qed.

(** Split a successful sequence of fallible steps into its steps. *)
Ltac inv_result :=
  repeat match goal with
  | H : Ok _ = Ok _ |- _ => injection H as H; subst
  | H : Raise _ = Ok _ |- _ => discriminate H
  | H : (if ?c then _ else _) = Ok _ |- _ => destruct c eqn:?; [|try discriminate H]
  | H : ?m ≫= ?f = Ok _ |- _ =>
      let a := fresh "a" in let Ha := fresh "Ha" in
      apply bind_Ok_inv in H as (a & Ha & H); cbn beta in H
  | H : (let '(_, _) := ?p in _) = Ok _ |- _ => destruct p as [? ?]
  end.

Lemma mapR_Ok_Forall2 {A B} (f : A → result B) (l : list A) (l' : list B) :
  mapR f l = Ok l' ↔ Forall2 (λ x y, f x = Ok y) l l'.
Proof.
  revert l'. induction l as [|x l IH]; intros l'; simpl.
  - split; [intros [= <-]; constructor | by inversion 1].
  - split.
    + intros Hm. inv_result. constructor; [done | by apply IH].
    + inversion 1 as [|? y ? ys Hy Hys]; subst.
      rewrite Hy; simpl. apply IH in Hys. by rewrite Hys.
Qed.

Lemma mapR_Ok_length {A B} (f : A → result B) (l : list A) (l' : list B) :
  mapR f l = Ok l' → length l' = length l.
Proof. intros Hm%mapR_Ok_Forall2. symmetry. by eapply Forall2_length. Qed.

Lemma check_array_Ok {A} (X : list (list A)) :
  check_array X = Ok () ↔ ∃ c X', X = c :: X' ∧ c ≠ [].
Proof.
  destruct X as [|[|x c] X']; simpl; split; try done.
  - by intros (? & ? & ? & ?).
  - intros (? & ? & [= <- <-] & ?). done.
  - eauto.
Qed.

(** ** Matrices held by columns *)

Lemma check_array_cols_len {A} (n : nat) (X : list (list A)) :
  X ≠ [] → cols_len n X → 0 < n → check_array X = Ok ().
Proof.
  intros HX Hn Hpos. apply check_array_Ok. destruct X as [|c X']; [done|].
  exists c, X'. split; [done|]. apply Forall_cons in Hn as [Hc _].
  intros ->. simpl in Hc. lia.
Qed.

Section Rows.
Context `{Numeric F}.

Lemma rows_of_width (cols : list (list F)) :
  Forall (λ r, length r = length cols) (ColumnTransformer.rows_of cols).
Proof.
  unfold ColumnTransformer.rows_of. destruct cols as [|c0 cols0]; [constructor|].
  generalize (length c0) as n. generalize (c0 :: cols0) as cols. clear.
  induction cols as [|c cols IH]; intros n; simpl.
  - apply Forall_forall. intros r Hr. by apply elem_of_replicate in Hr as [-> _].
  - specialize (IH n). revert IH.
    generalize (foldr (zip_with cons) (replicate n []) cols) as rows.
    intros rows. revert c. induction rows as [|r rows IHr]; intros [|x c] Hall; simpl;
      try constructor.
    + simpl. f_equal. by apply Forall_cons in Hall as [? _].
    + apply IHr. by apply Forall_cons in Hall as [_ ?].
Qed.

Lemma rows_of_length (n : nat) (cols : list (list F)) :
  cols ≠ [] → cols_len n cols → length (ColumnTransformer.rows_of cols) = n.
Proof.
  unfold ColumnTransformer.rows_of. destruct cols as [|c0 cols0]; [done|]. intros _ Hn.
  assert (length c0 = n) as -> by (by apply Forall_cons in Hn as [? _]).
  revert Hn. generalize (c0 :: cols0) as cols. clear.
  induction cols as [|c cols IH]; intros Hn; simpl.
  - by rewrite length_replicate.
  - apply Forall_cons in Hn as [Hc Hn]. rewrite length_zip_with, Hc, IH by done. lia.
Qed.

End Rows.

Lemma fit_transform_Ok_inv {X P Y} (e : Estimator X P Y) (x : X) (p : P) (y : Y) :
  fit_transform e x = Ok (p, y) ↔ fit e x = Ok p ∧ transform e p x = Ok y.
Proof.
  unfold fit_transform. split.
  - intros Hf. inv_result. done.
  - intros [-> Ht]. simpl. by rewrite Ht.
Qed.

Lemma Pipeline_fit_transform {X P Y Q Z} (a : Estimator X P Y) (b : Estimator Y Q Z)
    (x : X) (pq : P * Q) (z : Z) :
  fit_transform (Pipeline a b) x = Ok (pq, z) ↔
  ∃ y, fit a x = Ok pq.1 ∧ transform a pq.1 x = Ok y ∧
       fit b y = Ok pq.2 ∧ transform b pq.2 y = Ok z.
Proof.
  rewrite fit_transform_Ok_inv. destruct pq as [p q]. simpl. split.
  - intros [Hf Ht]. inv_result.
    match goal with H : fit_transform a x = Ok _ |- _ =>
      apply fit_transform_Ok_inv in H as [Hfa Hta] end.
    rewrite Hta in Ha. inv_result. eauto.
  - intros (y & Hfa & Hta & Hfb & Htb). split.
    + unfold fit_transform. rewrite Hfa. simpl. rewrite Hta. simpl. by rewrite Hfb.
    + by rewrite Hta.
Qed.

Lemma Pipeline_transform {X P Y Q Z} (a : Estimator X P Y) (b : Estimator Y Q Z)
    (x : X) (pq : P * Q) (z : Z) :
  transform (Pipeline a b) pq x = Ok z ↔
  ∃ y, transform a pq.1 x = Ok y ∧ transform b pq.2 y = Ok z.
Proof.
  simpl. split.
  - intros Ht. inv_result. eauto.
  - intros (y & -> & Hb). done.
Qed.

Section Imputer.
Context `{Numeric F}.

Lemma n_kept_cons {A} (st : option A) (stats : list (option A)) :
  n_kept (st :: stats) = (match st with Some _ => 1 | None => 0 end) + n_kept stats.
Proof.
  unfold n_kept. destruct st.
  - by rewrite filter_cons_True by eauto.
  - by rewrite filter_cons_False by (intros [? ?]; done).
Qed.

Lemma impute_shape {A} (n : nat) (stats : list (option A)) (X : list (list (option A))) :
  length stats = length X → cols_len n X →
  length (omap id (zip_with SimpleImputer.impute stats X)) = n_kept stats ∧
  cols_len n (omap id (zip_with SimpleImputer.impute stats X)).
Proof.
  revert X. induction stats as [|st stats IH]; intros [|c X] Hlen Hn; try done.
  - split; [done | constructor].
  - apply Forall_cons in Hn as [Hc Hn]. destruct (IH X) as [IH1 IH2]; [simpl in *; lia | done |].
    rewrite n_kept_cons. destruct st as [v|]; simpl.
    + split; [by f_equal|]. constructor; [by rewrite length_fmap | done].
    + done.
Qed.

Lemma transform_cols_shape {A} (n : nat) (stats : list (option A))
    (X : list (list (option A))) (Y : list (list A)) :
  SimpleImputer.transform_cols stats X = Ok Y → cols_len n X →
  length stats = length X ∧ length Y = n_kept stats ∧ cols_len n Y.
Proof.
  unfold SimpleImputer.transform_cols. intros Ht Hn. inv_result.
  match goal with H : decide _ = left ?e |- _ => clear H; rename e into Hlen end.
  split; [done|]. by apply impute_shape.
Qed.

Lemma n_kept_statistics {A} (strategy : list A → A) (X : list (list (option A))) :
  n_kept (SimpleImputer.statistic strategy <$> X)
  = length (filter (λ c, observed c ≠ []) X).
Proof.
  induction X as [|c X IH]; [done|]. rewrite fmap_cons, n_kept_cons, IH.
  unfold SimpleImputer.statistic. destruct (observed c) eqn:Hc.
  - rewrite filter_cons_False by (rewrite Hc; intros Hx; by apply Hx). done.
  - rewrite filter_cons_True by (by rewrite Hc). done.
Qed.

End Imputer.

Section Scaler.
Context `{Numeric F}.

Lemma to_dense_cols_len (n : nat) (X : array F) :
  cols_len n (StandardScaler.to_dense X) ↔
  match X with Dense cols => cols_len n cols | Sparse cols => cols_len n cols end.
Proof.
  destruct X as [cols|cols]; simpl; [done|]. unfold cols_len.
  rewrite Forall_fmap. apply Forall_iff. intros c. simpl. by rewrite length_fmap.
Qed.

Lemma scaler_transform_shape (n : nat) (with_mean : bool) (params : list (F * F))
    (X Z : array F) :
  StandardScaler.transform_array with_mean params X = Ok Z →
  cols_len n (StandardScaler.to_dense X) →
  length params = length (StandardScaler.to_dense X) ∧
  length (StandardScaler.to_dense Z) = length (StandardScaler.to_dense X) ∧
  cols_len n (StandardScaler.to_dense Z) ∧
  ColumnTransformer.issparse Z = ColumnTransformer.issparse X ∧
  0 < length (StandardScaler.to_dense X) ∧ 0 < n.
Proof.
  unfold StandardScaler.transform_array. intros Ht Hn.
  apply bind_Ok_inv in Ht as ([] & Hchk & Ht).
  destruct (decide _) as [Hlen|]; [|done].
  assert (0 < length (StandardScaler.to_dense X) ∧ 0 < n) as Hpos.
  { apply check_array_Ok in Hchk as (c & X' & HX & Hc). rewrite HX in Hn |- *.
    apply Forall_cons in Hn as [<- _]. split; [simpl; lia|]. destruct c; [done | simpl; lia]. }
  split; [done|]. destruct X as [cols|cols]; simpl in *.
  - injection Ht as <-. simpl. rewrite length_zip_with. split; [lia|]. split; [|done].
    clear Hchk Hpos. revert params Hlen.
    induction Hn as [|c cols Hc Hn IH]; intros [|[m s] params] Hlen;
      simpl in *; try done; try constructor.
    + by rewrite length_fmap.
    + apply IH. lia.
  - destruct with_mean; [done|]. injection Ht as <-. simpl.
    rewrite length_fmap, length_zip_with, length_fmap in *. split; [lia|]. split; [|done].
    clear Hchk Hpos. unfold cols_len in *. rewrite Forall_fmap in *.
    revert params Hlen. induction Hn as [|c cols Hc Hn IH]; intros [|[m s] params] Hlen;
      simpl in *; try done; try constructor.
    + simpl. rewrite !length_fmap in *. done.
    + apply IH. lia.
Qed.

End Scaler.

Section Categories.
Context `{Numeric F}.

Lemma elem_of_observed {A} (x : A) (col : list (option A)) :
  x ∈ observed col ↔ Some x ∈ col.
Proof.
  unfold observed. rewrite list_elem_of_omap. split.
  - intros (o & Ho & Hx). simpl in Hx. by subst.
  - intros Hx. by exists (Some x).
Qed.

Lemma elem_of_imputed {A} (v x : A) (col : list (option A)) :
  x ∈ default v <$> col ↔ x ∈ observed col ∨ (x = v ∧ None ∈ col).
Proof.
  rewrite list_elem_of_fmap, elem_of_observed. split.
  - intros ([y|] & -> & Hy); simpl; eauto.
  - intros [Hx | [-> Hn]]; [by exists (Some x) | by exists None].
Qed.

Lemma foldl_min_elem_of (c : scalar F) (cs : list (scalar F)) :
  foldl (λ m y, if SimpleImputer.scalar_leb m y then m else y) c cs ∈ c :: cs.
Proof.
  revert c. induction cs as [|y cs IH]; intros c; simpl; [by apply list_elem_of_singleton|].
  destruct (SimpleImputer.scalar_leb c y).
  - destruct (proj1 (elem_of_cons _ _ _) (IH c)) as [->|?].
    + apply elem_of_cons; by left.
    + apply elem_of_cons; right. apply elem_of_cons; by right.
  - apply elem_of_cons; right. apply IH.
Qed.

Lemma mode_elem_of (xs : list (scalar F)) :
  xs ≠ [] → SimpleImputer.mode xs ∈ xs.
Proof.
  intros Hxs. unfold SimpleImputer.mode.
  set (best := max_list _).
  destruct (filter (λ x, SimpleImputer.count x xs = best) xs) as [|c cs] eqn:Hf.
  - exfalso. assert (best ∈ (λ x, SimpleImputer.count x xs) <$> xs) as Hb.
    { apply max_list_elem_of. by destruct xs. }
    apply list_elem_of_fmap in Hb as (x & Hx & Hin).
    assert (x ∈ filter (λ x, SimpleImputer.count x xs = best) xs) as Hx'
      by (by apply list_elem_of_filter).
    rewrite Hf in Hx'. by apply elem_of_nil in Hx'.
  - pose proof (foldl_min_elem_of c cs) as Hm. rewrite <- Hf in Hm.
    by apply list_elem_of_filter in Hm as [_ ?].
Qed.

Lemma statistic_mode_elem_of (col : list (option (scalar F))) (v : scalar F) :
  SimpleImputer.statistic SimpleImputer.mode col = Some v → v ∈ observed col.
Proof.
  unfold SimpleImputer.statistic. destruct (observed col) as [|x xs] eqn:Hc; [done|].
  intros [= <-]. by apply mode_elem_of.
Qed.

Lemma statistic_Some {A} (strategy : list A → A) (col : list (option A)) :
  is_Some (SimpleImputer.statistic strategy col) ↔ observed col ≠ [].
Proof.
  unfold SimpleImputer.statistic. destruct (observed col); split; try done; eauto.
Qed.

Lemma statistic_None {A} (strategy : list A → A) (col : list (option A)) :
  SimpleImputer.statistic strategy col = None ↔ observed col = [].
Proof. unfold SimpleImputer.statistic. by destruct (observed col). Qed.

(** The number of distinct values depends on the set of values only. *)
Lemma length_remove_dups_proper {A} `{EqDecision A} (l k : list A) :
  (∀ x, x ∈ l ↔ x ∈ k) → length (remove_dups l) = length (remove_dups k).
Proof.
  intros Hlk. apply Permutation_length, NoDup_Permutation; try apply NoDup_remove_dups.
  intros x. by rewrite !elem_of_remove_dups.
Qed.

Lemma categories_length (col : list (scalar F)) :
  length (OneHotEncoder.categories col) = length (remove_dups col).
Proof. unfold OneHotEncoder.categories. by rewrite merge_sort_Permutation. Qed.

Lemma elem_of_categories (v : scalar F) (col : list (scalar F)) :
  v ∈ OneHotEncoder.categories col ↔ v ∈ col.
Proof.
  unfold OneHotEncoder.categories. by rewrite merge_sort_Permutation, elem_of_remove_dups.
Qed.

Lemma NoDup_categories (col : list (scalar F)) : NoDup (OneHotEncoder.categories col).
Proof.
  unfold OneHotEncoder.categories. rewrite merge_sort_Permutation. apply NoDup_remove_dups.
Qed.

(** Imputing with the mode adds no category. *)
Lemma categories_imputed (col : list (option (scalar F))) (v : scalar F) :
  SimpleImputer.statistic SimpleImputer.mode col = Some v →
  length (OneHotEncoder.categories (default v <$> col)) = length (remove_dups (observed col)).
Proof.
  intros Hv%statistic_mode_elem_of. rewrite categories_length.
  apply length_remove_dups_proper. intros x. rewrite elem_of_imputed.
  split; [intros [?|[-> _]]; done | by left].
Qed.

Lemma one_hot_shape (n : nat) (cats col : list (scalar F)) :
  length col = n →
  length (OneHotEncoder.one_hot cats col) = length cats ∧
  cols_len n (OneHotEncoder.one_hot cats col).
Proof.
  intros Hn. unfold OneHotEncoder.one_hot. rewrite length_fmap. split; [done|].
  unfold cols_len. rewrite Forall_fmap. apply Forall_forall. intros c _. simpl.
  by rewrite length_fmap.
Qed.

Lemma one_hot_all_shape (n : nat) (cats X : list (list (scalar F))) :
  length cats = length X → cols_len n X →
  length (concat (zip_with OneHotEncoder.one_hot cats X)) = sum_list (length <$> cats) ∧
  cols_len n (concat (zip_with OneHotEncoder.one_hot cats X)).
Proof.
  revert X. induction cats as [|c cats IH]; intros [|col X] Hlen Hn; try done.
  - split; [done | constructor].
  - apply Forall_cons in Hn as [Hc Hn]. destruct (IH X) as [IH1 IH2]; [simpl in *; lia | done |].
    destruct (one_hot_shape n c col Hc) as [H1 H2]. simpl.
    rewrite length_app, H1, IH1. split; [done|]. by apply Forall_app.
Qed.

Lemma encoder_transform_shape (n : nat) (cats X : list (list (scalar F))) (Z : array F) :
  OneHotEncoder.transform_cols cats X = Ok Z → cols_len n X →
  length cats = length X ∧
  Forall2 (λ c col, ∀ v, v ∈ col → v ∈ c) cats X ∧
  Z = Sparse (concat (zip_with OneHotEncoder.one_hot cats X)) ∧
  length (StandardScaler.to_dense Z) = sum_list (length <$> cats) ∧
  cols_len n (StandardScaler.to_dense Z).
Proof.
  unfold OneHotEncoder.transform_cols. intros Ht Hn. inv_result.
  match goal with H : decide _ = left ?e |- _ => clear H; rename e into Hlen end.
  destruct (one_hot_all_shape n cats X Hlen Hn) as [H1 H2].
  split; [done|]. split; [|split; [done|]].
  - match goal with H : forallb id _ = true |- _ => rename H into Hk end.
    clear -Hk Hlen. revert X Hlen Hk. induction cats as [|c cats IH]; intros [|col X] Hlen Hk;
      try done.
    simpl in Hk. apply andb_prop in Hk as [Hc Hk]. constructor; [|apply IH; [simpl in *; lia|done]].
    intros v Hv. unfold OneHotEncoder.known in Hc. rewrite forallb_forall in Hc.
    apply list_elem_of_In, Hc in Hv. by apply bool_decide_eq_true in Hv.
  - rewrite to_dense_cols_len. simpl. rewrite length_fmap. done.
Qed.

End Categories.

Section Pipelines.
Context `{Numeric F}.

Lemma observed_fmap_Some {A B} (f : A → B) (xs : list (option A)) :
  observed (map (option_map f) xs) = f <$> observed xs.
Proof.
  unfold observed. induction xs as [|[x|] xs IH]; simpl in *; [done| |done].
  f_equal. exact IH.
Qed.

Lemma as_float_Ok (c : Column F) (xs : list (option F)) :
  SimpleImputer.as_float c = Ok xs →
  length xs = column_length c ∧ (observed xs ≠ [] ↔ has_observation c).
Proof.
  unfold has_observation. destruct c as [ys|ys]; simpl.
  - intros [= ->]. split; [done|]. rewrite observed_fmap_Some.
    by destruct (observed xs).
  - destruct (forallb _ ys) eqn:Hall; [|done]. intros [= <-].
    rewrite length_fmap. split; [done|]. rewrite observed_fmap_Some.
    rewrite forallb_forall in Hall.
    assert (observed ys = []) as ->.
    { unfold observed. induction ys as [|y ys IH]; [done|]. simpl.
      assert (y = None) as ->.
      { specialize (Hall y (or_introl eq_refl)). by apply bool_decide_eq_true in Hall. }
      simpl. apply IH. intros x Hx. apply Hall. by right. }
    assert (observed ((λ _ : option string, @None F) <$> ys) = []) as ->.
    { unfold observed. clear. induction ys; [done|]. simpl. done. }
    done.
Qed.

Lemma as_float_all (n : nat) (X : list (Column F)) (Xf : list (list (option F))) :
  mapR SimpleImputer.as_float X = Ok Xf → frame_cols_len n X →
  cols_len n Xf ∧ length Xf = length X ∧
  length (filter (λ c, observed c ≠ []) Xf) = length (filter has_observation X).
Proof.
  intros Hm%mapR_Ok_Forall2 Hn. induction Hm as [|c xs X Xf Hc Hm IH].
  - split; [constructor | done].
  - apply Forall_cons in Hn as [Hcn Hn]. destruct (IH Hn) as (IH1 & IH2 & IH3).
    apply as_float_Ok in Hc as [Hl Hobs]. split; [|split].
    + constructor; [congruence | done].
    + simpl. by rewrite IH2.
    + destruct (decide (has_observation c)) as [Hy|Hno].
      * rewrite (filter_cons_True _ c) by done.
        rewrite filter_cons_True by (by apply Hobs). simpl. by rewrite IH3.
      * rewrite (filter_cons_False _ c) by done.
        rewrite filter_cons_False by (by rewrite Hobs). done.
Qed.

Lemma column_cells_length (c : Column F) : length (column_cells c) = column_length c.
Proof. destruct c; simpl; by rewrite length_map. Qed.

Lemma column_cells_cols_len (n : nat) (X : list (Column F)) :
  frame_cols_len n X → cols_len n (column_cells <$> X).
Proof.
  unfold frame_cols_len, cols_len. rewrite Forall_fmap. intros HX.
  eapply Forall_impl; [exact HX|]. intros c. simpl. by rewrite column_cells_length.
Qed.

(** *** The numeric pipeline *)

Lemma num_fit_transform_shape (n : nat) (X : list (Column F)) (p : num_params F) (A : array F) :
  fit_transform num_pipeline X = Ok (p, A) → frame_cols_len n X →
  0 < n ∧ length p.1 = length X ∧ n_kept p.1 = length (filter has_observation X) ∧
  ColumnTransformer.issparse A = false ∧
  length (StandardScaler.to_dense A) = length (filter has_observation X) ∧
  cols_len n (StandardScaler.to_dense A).
Proof.
  intros Hf Hn. apply Pipeline_fit_transform in Hf as (Y & Hfit & Htr & Hsfit & Hstr).
  destruct p as [st sc]. simpl in *.
  apply bind_Ok_inv in Hfit as (Xf & HXf & Hfit).
  rewrite HXf in Htr. simpl in Htr.
  apply bind_Ok_inv in Htr as (Yc & Htr & [= <-]).
  destruct (as_float_all n X Xf) as (HXn & HlenXf & Hobs); [done..|].
  unfold SimpleImputer.fit_cols in Hfit.
  apply bind_Ok_inv in Hfit as ([] & Hchk & [= <-]).
  assert (0 < n) as Hpos.
  { apply check_array_Ok in Hchk as (c & X' & -> & Hc).
    apply Forall_cons in HXn as [<- _]. destruct c; [done | simpl; lia]. }
  apply (transform_cols_shape n) in Htr as (Hl & Hk & HY); [|done].
  rewrite n_kept_statistics in Hk. rewrite length_fmap in Hl.
  apply (scaler_transform_shape n) in Hstr as (_ & Hlz & Hnz & Hsp & _ & _); [|done].
  rewrite length_fmap, n_kept_statistics. cbn [StandardScaler.to_dense] in *.
  repeat split; try done; congruence.
Qed.

Lemma num_transform_shape (n : nat) (X : list (Column F)) (p : num_params F) (A : array F) :
  transform num_pipeline p X = Ok A → frame_cols_len n X →
  0 < n ∧ 0 < n_kept p.1 ∧
  ColumnTransformer.issparse A = false ∧
  length (StandardScaler.to_dense A) = n_kept p.1 ∧
  cols_len n (StandardScaler.to_dense A).
Proof.
  intros Hf Hn. apply Pipeline_transform in Hf as (Y & Htr & Hstr).
  destruct p as [st sc]. simpl in *.
  apply bind_Ok_inv in Htr as (Xf & HXf & Htr).
  apply bind_Ok_inv in Htr as (Yc & Htr & [= <-]).
  destruct (as_float_all n X Xf) as (HXn & HlenXf & Hobs); [done..|].
  apply (transform_cols_shape n) in Htr as (Hl & Hk & HY); [|done].
  apply (scaler_transform_shape n) in Hstr as (_ & Hlz & Hnz & Hsp & Hpos & Hposn); [|done].
  cbn [StandardScaler.to_dense] in *. repeat split; try done; try congruence; lia.
Qed.

End Pipelines.

Lemma Pipeline_fit {X P Y Q Z} (a : Estimator X P Y) (b : Estimator Y Q Z)
    (x : X) (pq : P * Q) :
  fit (Pipeline a b) x = Ok pq ↔
  ∃ y, fit a x = Ok pq.1 ∧ transform a pq.1 x = Ok y ∧ fit b y = Ok pq.2.
Proof.
  destruct pq as [p q]. simpl. split.
  - intros Hf. apply bind_Ok_inv in Hf as ([p' y] & Hft & Hf).
    apply bind_Ok_inv in Hf as (q' & Hq & [= <- <-]).
    apply fit_transform_Ok_inv in Hft as [? ?]. eauto.
  - intros (y & Hfa & Hta & Hfb).
    unfold fit_transform. rewrite Hfa. simpl. rewrite Hta. simpl. by rewrite Hfb.
Qed.

Section CatPipeline.
Context `{Numeric F}.

Lemma imputed_cons (c : list (option (scalar F))) (cells : list (list (option (scalar F)))) :
  imputed (c :: cells) =
  match SimpleImputer.statistic SimpleImputer.mode c with
  | Some v => (default v <$> c) :: imputed cells
  | None => imputed cells
  end.
Proof.
  unfold imputed. rewrite fmap_cons. cbn [zip_with].
  by destruct (SimpleImputer.statistic SimpleImputer.mode c).
Qed.

Lemma categories_total (cells : list (list (option (scalar F)))) :
  sum_list (length <$> (OneHotEncoder.categories <$> imputed cells))
  = sum_list ((λ c, length (remove_dups (observed c))) <$> cells).
Proof.
  induction cells as [|c cells IH]; [done|]. rewrite imputed_cons, (fmap_cons _ c).
  destruct (SimpleImputer.statistic SimpleImputer.mode c) as [v|] eqn:Hst.
  - rewrite !fmap_cons. cbn [sum_list_with id]. rewrite IH. f_equal. by apply categories_imputed.
  - apply statistic_None in Hst. rewrite Hst. cbn [sum_list_with id remove_dups length]. by rewrite IH.
Qed.

Lemma cat_fit_inv (X : list (Column F)) (q : cat_params F) (B : array F) :
  fit_transform cat_pipeline X = Ok (q, B) →
  check_array (column_cells <$> X) = Ok () ∧
  q.1 = SimpleImputer.statistic SimpleImputer.mode <$> (column_cells <$> X) ∧
  check_array (imputed (column_cells <$> X)) = Ok () ∧
  q.2.1 = OneHotEncoder.categories <$> imputed (column_cells <$> X) ∧
  transform cat_pipeline q X = Ok B.
Proof.
  intros Hf. pose proof Hf as Hf'. apply fit_transform_Ok_inv in Hf' as [_ Htr].
  apply Pipeline_fit_transform in Hf as (Y & Hfit & Hty & Hfit2 & _).
  apply Pipeline_fit in Hfit2 as (Z & Hfe & _ & _).
  destruct q as [st [cats sc]]. simpl in *.
  unfold SimpleImputer.fit_cols in Hfit.
  apply bind_Ok_inv in Hfit as ([] & Hchk & [= <-]).
  unfold SimpleImputer.transform_cols in Hty. rewrite Hchk in Hty. simpl in Hty.
  rewrite decide_True in Hty by (by rewrite length_fmap).
  injection Hty as <-. fold (imputed (column_cells <$> X)) in Hfe.
  unfold OneHotEncoder.fit_cols in Hfe.
  apply bind_Ok_inv in Hfe as ([] & Hchk2 & [= <-]). done.
Qed.

Lemma imputer_transform_length (n : nat) (st : list (option (scalar F)))
    (cells : list (list (option (scalar F)))) (Y : list (list (scalar F))) :
  SimpleImputer.transform_cols st cells = Ok Y → cols_len n cells → cols_len n Y.
Proof. intros Ht Hn. by apply (transform_cols_shape n) in Ht as (_ & _ & ?). Qed.

Lemma cat_transform_shape (n : nat) (X : list (Column F)) (q : cat_params F) (B : array F) :
  transform cat_pipeline q X = Ok B → frame_cols_len n X →
  length (StandardScaler.to_dense B) = sum_list (length <$> q.2.1) ∧
  cols_len n (StandardScaler.to_dense B).
Proof.
  intros Ht Hn. apply Pipeline_transform in Ht as (Y & Hty & Ht).
  apply Pipeline_transform in Ht as (Z & Hte & Hts).
  destruct q as [st [cats sc]]. cbn [fst snd] in *. simpl in Hty, Hte, Hts.
  apply (imputer_transform_length n) in Hty; [|by apply column_cells_cols_len].
  apply (encoder_transform_shape n) in Hte as (_ & _ & _ & Hlen & HZ); [|done].
  apply (scaler_transform_shape n) in Hts as (_ & Hlz & Hnz & _ & _ & _); [|done].
  split; [congruence | done].
Qed.

Lemma cat_fit_transform_shape (n : nat) (X : list (Column F)) (q : cat_params F) (B : array F) :
  fit_transform cat_pipeline X = Ok (q, B) → frame_cols_len n X →
  sum_list (length <$> q.2.1) = sum_list (n_distinct <$> X) ∧
  length (StandardScaler.to_dense B) = sum_list (n_distinct <$> X) ∧
  cols_len n (StandardScaler.to_dense B).
Proof.
  intros Hf Hn. apply cat_fit_inv in Hf as (_ & _ & _ & Hcats & Ht).
  apply (cat_transform_shape n) in Ht as [Hlen HB]; [|done].
  assert (sum_list (length <$> q.2.1) = sum_list (n_distinct <$> X)) as Hsum.
  { rewrite Hcats, categories_total. by rewrite <- list_fmap_compose. }
  split; [done|]. split; [congruence | done].
Qed.

End CatPipeline.

Section Counting.
Context `{Numeric F}.

Lemma length_remove_dups_le {A} `{EqDecision A} (l : list A) :
  length (remove_dups l) ≤ length l.
Proof.
  induction l as [|x l IH]; simpl; [done|]. destruct (decide_rel _ x l); simpl; lia.
Qed.

Lemma sum_list_cols_len {A} (n : nat) (X : list (list A)) :
  cols_len n X → sum_list (length <$> X) = length X * n.
Proof. intros Hn. by apply sum_list_fmap_same. Qed.

Lemma sum_list_fmap_add {A} (f g : A → nat) (l : list A) :
  sum_list ((λ x, f x + g x) <$> l) = sum_list (f <$> l) + sum_list (g <$> l).
Proof.
  induction l as [|x l IH]; [done|]. rewrite !fmap_cons. cbn [sum_list_with id]. rewrite IH. lia.
Qed.

Lemma stored_app (X Y : list (list (option F))) : stored (X ++ Y) = stored X + stored Y.
Proof. unfold stored. by rewrite fmap_app, sum_list_with_app. Qed.

Lemma indicator_sum (v : scalar F) (cats : list (scalar F)) :
  NoDup cats → v ∈ cats →
  sum_list ((λ c, if decide (v = c) then 1 else 0) <$> cats) = 1.
Proof.
  induction 1 as [|c cats Hc Hnd IH]; intros Hv; [by apply elem_of_nil in Hv|].
  rewrite fmap_cons. cbn [sum_list_with id]. destruct (decide (v = c)) as [->|Hne].
  - rewrite (sum_list_fmap_same 0); [lia|].
    apply Forall_forall. intros c' Hc'. destruct (decide (c = c')) as [->|]; done.
  - apply elem_of_cons in Hv as [?|Hv]; [done|]. by rewrite IH.
Qed.

(** Every row stores exactly one entry among the columns of one feature. *)
Lemma one_hot_stored (cats col : list (scalar F)) :
  NoDup cats → (∀ v, v ∈ col → v ∈ cats) →
  stored (OneHotEncoder.one_hot cats col) = length col.
Proof.
  intros Hnd. unfold stored, OneHotEncoder.one_hot. rewrite <- list_fmap_compose.
  induction col as [|v col IH]; intros Hin.
  - simpl. by rewrite (sum_list_fmap_same 0) by (by apply Forall_forall).
  - erewrite (list_fmap_ext _
      (λ c, (if decide (v = c) then 1 else 0)
            + length (observed ((λ v, if decide (v = c) then Some np.F1 else None) <$> col)))).
    + rewrite sum_list_fmap_add, indicator_sum; [|done|apply Hin; by left].
      simpl. f_equal. apply IH. intros v' Hv'. apply Hin. by right.
    + intros i c _. simpl. unfold observed. simpl. by destruct (decide (v = c)).
Qed.

Lemma one_hot_all_stored (n : nat) (cats X : list (list (scalar F))) :
  Forall (λ c, NoDup c) cats →
  Forall2 (λ c col, ∀ v, v ∈ col → v ∈ c) cats X → cols_len n X →
  stored (concat (zip_with OneHotEncoder.one_hot cats X)) = length X * n.
Proof.
  intros Hnd Hk. revert Hnd. induction Hk as [|c col cats X Hc Hk IH]; intros Hnd Hn; [done|].
  apply Forall_cons in Hnd as [Hndc Hnd]. apply Forall_cons in Hn as [Hcn Hn].
  cbn [zip_with concat]. rewrite stored_app, one_hot_stored, IH by done. simpl. lia.
Qed.

Lemma stored_scaled (params : list (F * F)) (cols : list (list (option F))) :
  length params = length cols →
  stored (zip_with (λ '(_, s) col, option_map (λ x, Fmul x (Fdiv np.F1 s)) <$> col)
            params cols) = stored cols.
Proof.
  revert cols. induction params as [|[m s] params IH]; intros [|c cols] Hlen; try done.
  cbn [zip_with]. unfold stored in *. rewrite !fmap_cons. cbn [sum_list_with id].
  rewrite IH by (simpl in *; lia). f_equal.
  unfold observed. clear. induction c as [|[x|] c IHc]; simpl in *;
    [done | f_equal; exact IHc | exact IHc].
Qed.

End Counting.

Section CatSparse.
Context `{Numeric F}.

Lemma imputed_length (cells : list (list (option (scalar F)))) :
  length (imputed cells) = length (filter (λ c, observed c ≠ []) cells).
Proof.
  induction cells as [|c cells IH]; [done|]. rewrite imputed_cons.
  destruct (SimpleImputer.statistic SimpleImputer.mode c) as [v|] eqn:Hst.
  - assert (observed c ≠ []) as Hc.
    { unfold SimpleImputer.statistic in Hst. destruct (observed c); [discriminate Hst | done]. }
    rewrite filter_cons_True by done. simpl. by rewrite IH.
  - apply statistic_None in Hst. rewrite filter_cons_False by (rewrite Hst; intros Hx; by apply Hx). done.
Qed.

Lemma filter_has_observation (X : list (Column F)) :
  length (filter (λ c, observed c ≠ []) (column_cells <$> X))
  = length (filter has_observation X).
Proof.
  induction X as [|c X IH]; [done|]. rewrite fmap_cons.
  destruct (decide (has_observation c)) as [Hy|Hno].
  - rewrite !filter_cons_True by done. simpl. by rewrite IH.
  - rewrite !filter_cons_False by done. done.
Qed.

(** The sparse block the categorical pipeline produces at fit: one stored
    entry per row and kept feature. *)
Lemma cat_fit_transform_sparse (n : nat) (X : list (Column F)) (q : cat_params F) (B : array F) :
  fit_transform cat_pipeline X = Ok (q, B) → frame_cols_len n X →
  ∃ cols, B = Sparse cols ∧ stored cols = length (filter has_observation X) * n.
Proof.
  intros Hf Hn. apply cat_fit_inv in Hf as (Hchk & Hst & Hchk2 & Hcats & Ht).
  apply Pipeline_transform in Ht as (Y & Hty & Ht).
  apply Pipeline_transform in Ht as (Z & Hte & Hts).
  destruct q as [st [cats sc]]. cbn [fst snd] in *. simpl in Hty, Hte, Hts. subst st cats.
  unfold SimpleImputer.transform_cols in Hty. rewrite Hchk in Hty. simpl in Hty.
  rewrite decide_True in Hty by (by rewrite length_fmap). injection Hty as <-.
  fold (imputed (column_cells <$> X)) in *.
  assert (cols_len n (imputed (column_cells <$> X))) as HY.
  { apply impute_shape; [by rewrite length_fmap | by apply column_cells_cols_len]. }
  apply (encoder_transform_shape n) in Hte as (Hlen & Hk & -> & _ & _); [|done].
  unfold StandardScaler.transform_array in Hts.
  apply bind_Ok_inv in Hts as ([] & _ & Hts). destruct (decide _) as [Hl|]; [|done].
  injection Hts as <-. eexists. split; [done|]. simpl in Hl. rewrite length_fmap in Hl.
  rewrite stored_scaled by done.
  rewrite (one_hot_all_stored n); [| |done..].
  - by rewrite imputed_length, filter_has_observation.
  - apply Forall_fmap, Forall_forall. intros c _. apply NoDup_categories.
Qed.

End CatSparse.

Section Transformer.
Context `{Numeric F}.

Lemma select_Ok (df : gmap string (Column F)) (cols : list string) (X : list (Column F)) :
  ColumnTransformer.select df cols = Ok X ↔ Forall2 (λ c col, df !! c = Some col) cols X.
Proof.
  unfold ColumnTransformer.select. rewrite mapR_Ok_Forall2.
  split; intros HX; eapply Forall2_impl; try exact HX; simpl;
    intros c col; destruct (df !! c); intros; simplify_eq; done.
Qed.

Lemma select_column_of (df : gmap string (Column F)) (cols : list string) (X : list (Column F)) :
  ColumnTransformer.select df cols = Ok X → X = column_of df <$> cols.
Proof.
  rewrite select_Ok. induction 1 as [|c col cols X Hc _ IH]; [done|].
  rewrite fmap_cons, <- IH. unfold column_of. by rewrite Hc.
Qed.

Lemma select_cols_len (n : nat) (df : gmap string (Column F)) (cols : list string)
    (X : list (Column F)) :
  ColumnTransformer.select df cols = Ok X → has_rows n df → frame_cols_len n X.
Proof.
  rewrite select_Ok. intros HX Hn. induction HX as [|c col cols X Hc _ IH]; constructor; [|done].
  exact (map_Forall_lookup_1 _ df c col Hn Hc).
Qed.

Lemma select_delete (df : gmap string (Column F)) (t : string) (cols : list string) :
  t ∉ cols → ColumnTransformer.select (delete t df) cols = ColumnTransformer.select df cols.
Proof.
  intros Ht. unfold ColumnTransformer.select. induction cols as [|c cols IH]; [done|].
  apply not_elem_of_cons in Ht as [Hne Ht]. simpl.
  rewrite lookup_delete_ne by done. by rewrite IH.
Qed.

Lemma has_rows_delete (n : nat) (df : gmap string (Column F)) (t : string) :
  has_rows n df → has_rows n (delete t df).
Proof.
  unfold has_rows. rewrite !map_Forall_lookup. intros Hn c col Hc.
  apply lookup_delete_Some in Hc as [_ Hc]. eauto.
Qed.

Lemma get_data_transformer_object_eq (w : world F) :
  get_data_transformer_object w = (Ok new_preprocessor, w).
Proof. done. Qed.

Lemma ct_fit_transform_inv (df : gmap string (Column F)) (pre : preprocessor F)
    (X : features F) :
  ColumnTransformer.fit_transform new_preprocessor df = Ok (pre, X) ↔
  ∃ p q A B,
    ColumnTransformer.select df categorical_columns = Ok (column_of df <$> categorical_columns) ∧
    ColumnTransformer.select df numerical_columns = Ok (column_of df <$> numerical_columns) ∧
    fit_transform num_pipeline (column_of df <$> numerical_columns) = Ok (p, A) ∧
    fit_transform cat_pipeline (column_of df <$> categorical_columns) = Ok (q, B) ∧
    pre = fitted_preprocessor p q (ColumnTransformer.sparse_output [A; B]) ∧
    X = ColumnTransformer.hstack (ColumnTransformer.sparse_output [A; B]) [A; B].
Proof.
  unfold ColumnTransformer.fit_transform. cbn [new_preprocessor
    ColumnTransformer.num_pipeline ColumnTransformer.numerical_columns
    ColumnTransformer.cat_pipeline ColumnTransformer.categorical_columns]. split.
  - intros Hf. apply bind_Ok_inv in Hf as (Xn & HXn & Hf).
    apply bind_Ok_inv in Hf as (Xc & HXc & Hf).
    apply bind_Ok_inv in Hf as ([p A] & Hnum & Hf).
    apply bind_Ok_inv in Hf as ([q B] & Hcat & [= <- <-]).
    pose proof (select_column_of _ _ _ HXn) as ->.
    pose proof (select_column_of _ _ _ HXc) as ->.
    exists p, q, A, B. done.
  - intros (p & q & A & B & Hc & Hn & Hnum & Hcat & -> & ->).
    rewrite (bind_Ok _ _ _ Hn). cbn beta. rewrite (bind_Ok _ _ _ Hc). cbn beta.
    rewrite (bind_Ok _ _ _ Hnum). cbn beta iota. rewrite (bind_Ok _ _ _ Hcat). done.
Qed.

End Transformer.

Section TransformerShape.
Context `{Numeric F}.

Lemma hstack_shape (n : nat) (s : bool) (A B : array F) :
  cols_len n (StandardScaler.to_dense A) → cols_len n (StandardScaler.to_dense B) →
  0 < length (StandardScaler.to_dense A) →
  is_csr (ColumnTransformer.hstack s [A; B]) = s ∧
  length (features_rows (ColumnTransformer.hstack s [A; B])) = n ∧
  Forall (λ r, length r = length (StandardScaler.to_dense A) + length (StandardScaler.to_dense B))
    (features_rows (ColumnTransformer.hstack s [A; B])).
Proof.
  intros HA HB Hpos. unfold ColumnTransformer.hstack.
  rewrite !fmap_cons, fmap_nil. cbn [concat]. rewrite app_nil_r.
  assert (features_rows (if s then CsrMatrix (ColumnTransformer.rows_of
            (StandardScaler.to_dense A ++ StandardScaler.to_dense B))
          else NdArray (ColumnTransformer.rows_of
            (StandardScaler.to_dense A ++ StandardScaler.to_dense B)))
          = ColumnTransformer.rows_of (StandardScaler.to_dense A ++ StandardScaler.to_dense B))
    as -> by (by destruct s).
  split; [by destruct s|]. split.
  - apply rows_of_length; [|by apply Forall_app].
    destruct (StandardScaler.to_dense A); [simpl in Hpos; lia | done].
  - rewrite <- length_app. apply rows_of_width.
Qed.

Lemma ct_transform_inv (p : num_params F) (q : cat_params F) (s : bool)
    (df : gmap string (Column F)) (X : features F) :
  ColumnTransformer.transform (fitted_preprocessor p q s) df = Ok X ↔
  ∃ A B,
    ColumnTransformer.select df numerical_columns = Ok (column_of df <$> numerical_columns) ∧
    ColumnTransformer.select df categorical_columns = Ok (column_of df <$> categorical_columns) ∧
    transform num_pipeline p (column_of df <$> numerical_columns) = Ok A ∧
    transform cat_pipeline q (column_of df <$> categorical_columns) = Ok B ∧
    X = ColumnTransformer.hstack s [A; B].
Proof.
  unfold ColumnTransformer.transform. cbn [fitted_preprocessor ColumnTransformer.fitted_
    ColumnTransformer.num_pipeline ColumnTransformer.numerical_columns
    ColumnTransformer.cat_pipeline ColumnTransformer.categorical_columns]. split.
  - intros Hf. apply bind_Ok_inv in Hf as (Xn & HXn & Hf).
    apply bind_Ok_inv in Hf as (Xc & HXc & Hf).
    apply bind_Ok_inv in Hf as (A & Hnum & Hf).
    apply bind_Ok_inv in Hf as (B & Hcat & [= <-]).
    pose proof (select_column_of _ _ _ HXn) as ->.
    pose proof (select_column_of _ _ _ HXc) as ->.
    exists A, B. done.
  - intros (A & B & Hn & Hc & Hnum & Hcat & ->).
    rewrite (bind_Ok _ _ _ Hn). cbn beta. rewrite (bind_Ok _ _ _ Hc). cbn beta.
    rewrite (bind_Ok _ _ _ Hnum). cbn beta. rewrite (bind_Ok _ _ _ Hcat). done.
Qed.

Lemma ct_transform_shape (n : nat) (p : num_params F) (q : cat_params F) (s : bool)
    (df : gmap string (Column F)) (X : features F) :
  ColumnTransformer.transform (fitted_preprocessor p q s) df = Ok X → has_rows n df →
  0 < n ∧ is_csr X = s ∧ length (features_rows X) = n ∧
  Forall (λ r, length r = n_kept p.1 + sum_list (length <$> q.2.1)) (features_rows X).
Proof.
  intros Ht Hn. apply ct_transform_inv in Ht as (A & B & HXn & HXc & Hnum & Hcat & ->).
  apply (num_transform_shape n) in Hnum as (Hpos & Hk & _ & HlA & HA);
    [|by eapply select_cols_len].
  apply (cat_transform_shape n) in Hcat as (HlB & HB); [|by eapply select_cols_len].
  destruct (hstack_shape n s A B) as (Hs & Hl & Hw); [done | done | lia |].
  rewrite HlA, HlB in Hw. done.
Qed.

Lemma ct_fit_transform_shape (n : nat) (df : gmap string (Column F))
    (pre : preprocessor F) (X : features F) :
  ColumnTransformer.fit_transform new_preprocessor df = Ok (pre, X) → has_rows n df →
  ∃ p q s, pre = fitted_preprocessor p q s ∧
    0 < n ∧ 0 < numeric_kept df ∧
    length p.1 = length numerical_columns ∧
    n_kept p.1 = numeric_kept df ∧
    sum_list (length <$> q.2.1) = distinct_total df ∧
    is_csr X = s ∧ length (features_rows X) = n ∧
    Forall (λ r, length r = numeric_kept df + distinct_total df) (features_rows X) ∧
    s = Nat.ltb ((numeric_kept df * n + categorical_kept df * n) * 10)
                (3 * (numeric_kept df * n + distinct_total df * n)).
Proof.
  intros Hf Hn. apply ct_fit_transform_inv in Hf as (p & q & A & B & HXc & HXn & Hnum & Hcat & -> & ->).
  exists p, q, (ColumnTransformer.sparse_output [A; B]). split; [done|].
  pose proof (select_cols_len n _ _ _ HXn Hn) as Hnn.
  pose proof (select_cols_len n _ _ _ HXc Hn) as Hnc.
  pose proof Hnum as Hnum'. apply fit_transform_Ok_inv in Hnum' as [_ Hnt].
  apply (num_transform_shape n) in Hnt as (_ & Hkpos & _ & _ & _); [|done].
  pose proof Hcat as Hsp. apply (cat_fit_transform_sparse n) in Hsp as (colsB & -> & Hst); [|done].
  apply (num_fit_transform_shape n) in Hnum as (Hpos & Hlp & Hk & HspA & HlA & HA); [|done].
  apply (cat_fit_transform_shape n) in Hcat as (Hsum & HlB & HB); [|done].
  rewrite length_fmap in Hlp.
  fold (numeric_kept df) in Hk, HlA. fold (distinct_total df) in Hsum, HlB.
  fold (categorical_kept df) in Hst.
  destruct (hstack_shape n (ColumnTransformer.sparse_output [A; Sparse colsB]) A (Sparse colsB))
    as (Hs & Hl & Hw); [done | done | lia |].
  rewrite HlA, HlB in Hw.
  repeat split; try done; try lia.
  unfold ColumnTransformer.sparse_output. rewrite !fmap_cons, !fmap_nil.
  cbn [existsb ColumnTransformer.issparse sum_list_with id ColumnTransformer.sparse_threshold fst snd].
  rewrite orb_true_r, andb_true_l. rewrite !Nat.add_0_r.
  assert (ColumnTransformer.nnz A = numeric_kept df * n) as ->.
  { destruct A as [cols|cols]; [|done]. simpl in *. rewrite (sum_list_cols_len n) by done. lia. }
  assert (ColumnTransformer.size A = numeric_kept df * n) as ->.
  { unfold ColumnTransformer.size. rewrite (sum_list_cols_len n) by done. lia. }
  assert (ColumnTransformer.size (Sparse colsB) = distinct_total df * n) as ->.
  { unfold ColumnTransformer.size. rewrite (sum_list_cols_len n) by done. lia. }
  cbn [ColumnTransformer.nnz]. fold (stored colsB). by rewrite Hst.
Qed.

End TransformerShape.

Section Driver.
Context `{Numeric F}.

(** Every run is a success or one of the failures, wrapped. *)
Lemma initiate_data_transformation_cases (train_path test_path : string) (w : world F) :
  (∃ r w', initiate_data_transformation train_path test_path w = (Ok r, w')
           ∧ success train_path test_path w r w')
  ∨ (∃ e n, initiate_data_transformation train_path test_path w
            = (Raise (CustomException e n), w)
            ∧ failure train_path test_path w e n).
Proof.
  unfold initiate_data_transformation, try_except, mbind, body_mbind, body_bind,
    call_pure, call, read_csv, mret, body_mret, body_ret.
  destruct (csv_files w !! train_path) as [train|] eqn:Htrain;
    [|right; eexists _, _; split; [done | by constructor]].
  destruct (csv_files w !! test_path) as [test|] eqn:Htest;
    [|right; eexists _, _; split; [done | by econstructor]].
  rewrite get_data_transformer_object_eq. unfold pd.drop, pd.getitem.
  destruct (train !! target_column_name) as [ytr|] eqn:Hytr;
    [|right; eexists _, _; split; [done | by econstructor]].
  destruct (test !! target_column_name) as [yte|] eqn:Hyte;
    [|right; eexists _, _; split; [done | by econstructor]].
  destruct (ColumnTransformer.fit_transform new_preprocessor _) as [[pre Xtr]|e] eqn:Hfit;
    [|right; eexists _, _; split; [done | by econstructor]].
  destruct (ColumnTransformer.transform pre _) as [Xte|e] eqn:Htr;
    [|right; eexists _, _; split; [done | by econstructor]].
  destruct (np.c_ Xtr _) as [train_arr|e] eqn:Hctr;
    [|right; eexists _, _; split; [done | by econstructor]].
  destruct (np.c_ Xte _) as [test_arr|e] eqn:Hcte;
    [|right; eexists _, _; split; [done | by econstructor]].
  unfold save_object. destruct (decide _) as [Hro|Hw];
    [right; eexists _, _; split; [done | by econstructor]|].
  left. eexists _, _. split; [done|]. by econstructor.
Qed.

Lemma initiate_data_transformation_Ok (train_path test_path : string) (w w' : world F)
    (r : ndarray F * ndarray F * string) :
  initiate_data_transformation train_path test_path w = (Ok r, w') →
  success train_path test_path w r w'.
Proof.
  intros Hrun. destruct (initiate_data_transformation_cases train_path test_path w)
    as [(r' & w'' & Hrun' & Hs) | (e & n & Hrun' & _)]; rewrite Hrun' in Hrun.
  - by injection Hrun as <- <-.
  - discriminate Hrun.
Qed.

Lemma success_run (train_path test_path : string) (w w' : world F)
    (r : ndarray F * ndarray F * string) :
  success train_path test_path w r w' →
  initiate_data_transformation train_path test_path w = (Ok r, w').
Proof.
  intros [train test ytr yte pre Xtr Xte Htrain Htest Hytr Hyte Hfit Htr Hctr Hcte Hp Hw ->].
  destruct r as [[train_arr test_arr] path]. simpl in *. subst path.
  unfold initiate_data_transformation, try_except, mbind, body_mbind, body_bind,
    call_pure, call, read_csv, mret, body_mret, body_ret.
  rewrite Htrain, Htest, get_data_transformer_object_eq. unfold pd.drop, pd.getitem.
  rewrite Hytr, Hyte, Hfit, Htr, Hctr, Hcte. unfold save_object.
  by rewrite decide_False by done.
Qed.

End Driver.

Section Dense.
Context `{Numeric F}.

Lemma column_of_delete (df : gmap string (Column F)) (t c : string) :
  c ≠ t → column_of (delete t df) c = column_of df c.
Proof. intros Hne. unfold column_of. by rewrite lookup_delete_ne. Qed.

Lemma numeric_kept_delete (df : gmap string (Column F)) :
  numeric_kept (delete target_column_name df) = numeric_kept df.
Proof.
  unfold numeric_kept, numerical_columns. rewrite !fmap_cons, !fmap_nil.
  by rewrite !column_of_delete by done.
Qed.

Lemma categorical_kept_delete (df : gmap string (Column F)) :
  categorical_kept (delete target_column_name df) = categorical_kept df.
Proof.
  unfold categorical_kept, categorical_columns. rewrite !fmap_cons, !fmap_nil.
  by rewrite !column_of_delete by done.
Qed.

Lemma distinct_total_delete (df : gmap string (Column F)) :
  distinct_total (delete target_column_name df) = distinct_total df.
Proof.
  unfold distinct_total, categorical_columns. rewrite !fmap_cons, !fmap_nil.
  by rewrite !column_of_delete by done.
Qed.

Lemma observed_length_le {A} (col : list (option A)) : length (observed col) ≤ length col.
Proof.
  unfold observed. induction col as [|[x|] col IH]; [done | |];
    cbn [omap list_omap id length] in *; lia.
Qed.

Lemma n_distinct_le (n : nat) (X : list (Column F)) :
  frame_cols_len n X →
  sum_list (n_distinct <$> X) ≤ length (filter has_observation X) * n.
Proof.
  induction 1 as [|c X Hc Hn IH]; [done|]. rewrite fmap_cons. cbn [sum_list_with id].
  unfold n_distinct at 1. destruct (decide (has_observation c)) as [Hy|Hno].
  - rewrite filter_cons_True by done. cbn [length].
    pose proof (length_remove_dups_le (observed (column_cells c))).
    pose proof (observed_length_le (column_cells c)).
    rewrite column_cells_length in *. lia.
  - rewrite filter_cons_False by done. unfold has_observation in Hno.
    destruct (observed (column_cells c)); [simpl; lia|]. by destruct Hno.
Qed.

(** A sparse result needs more than one row: with a single row every
    one-hot block has exactly one column. *)
Lemma single_row_dense (df : gmap string (Column F)) (pre : preprocessor F) (X : features F) :
  ColumnTransformer.fit_transform new_preprocessor df = Ok (pre, X) → has_rows 1 df →
  is_csr X = false.
Proof.
  intros Hf Hn. pose proof Hf as Hf'.
  apply (ct_fit_transform_shape 1) in Hf' as (p & q & s & -> & _ & _ & _ & _ & _ & -> & _ & _ & ->);
    [|done].
  apply ct_fit_transform_inv in Hf as (_ & _ & _ & _ & HXc & _).
  pose proof (n_distinct_le 1 _ (select_cols_len 1 _ _ _ HXc Hn)) as Hle.
  fold (distinct_total df) (categorical_kept df) in Hle.
  apply Nat.ltb_ge. lia.
Qed.

(** Whenever both concatenations succeed the two feature matrices are
    dense arrays. *)
Lemma returned_dense (n : nat) (train : gmap string (Column F)) (ytr : Column F)
    (pre : preprocessor F) (Xtr : features F) (train_arr : ndarray F) :
  has_rows n train → train !! target_column_name = Some ytr →
  ColumnTransformer.fit_transform new_preprocessor (delete target_column_name train)
    = Ok (pre, Xtr) →
  np.c_ Xtr (np.array ytr) = Ok train_arr →
  ∃ p q rows, pre = fitted_preprocessor p q false ∧ Xtr = NdArray rows ∧
    0 < n ∧ length rows = n ∧
    n_kept p.1 = numeric_kept train ∧
    sum_list (length <$> q.2.1) = distinct_total train ∧
    Forall (λ r, length r = numeric_kept train + distinct_total train) rows ∧
    train_arr = Array2D (zip_with (λ r t, ((λ x, Some (Num x)) <$> r) ++ [t]) rows
                           (column_cells ytr)).
Proof.
  intros Hn Hytr Hf Hc.
  assert (column_length ytr = n) as Hylen by exact (map_Forall_lookup_1 _ _ _ _ Hn Hytr).
  pose proof (has_rows_delete n train target_column_name Hn) as Hn'.
  pose proof Hf as Hf'.
  apply (ct_fit_transform_shape n) in Hf'
    as (p & q & s & -> & Hpos & _ & _ & Hk & Hsum & Hs & Hl & Hw & _); [|done].
  rewrite numeric_kept_delete in Hk, Hw. rewrite distinct_total_delete in Hsum, Hw.
  destruct Xtr as [rows|m]; simpl in *.
  - subst s. exists p, q, rows. repeat split; try done.
    destruct (decide _); [|done]. by injection Hc as <-.
  - exfalso. unfold np.array in Hc.
    destruct (column_cells ytr) as [|t [|t' cells]] eqn:Hy; try done.
    assert (n = 1) as -> by (rewrite <- Hylen, <- column_cells_length, Hy; done).
    by pose proof (single_row_dense _ _ _ Hf Hn').
Qed.

End Dense.

Section DriverProperties.
Context `{Numeric F}.

Lemma artifact_path_eq : artifact_path = "artifacts/preprocessor.pkl".
Proof. reflexivity. Qed.

Lemma saved_artifact (pre : preprocessor F) (w : world F) :
  artifacts (saved pre w) !! artifact_path = Some pre.
Proof. unfold saved. simpl. apply lookup_insert_eq. Qed.

Lemma with_target_lookup (rows : list (list F)) (y : list (option (scalar F)))
    (i : nat) (r : list F) (t : option (scalar F)) :
  rows !! i = Some r → y !! i = Some t →
  with_target rows y !! i = Some (((λ x, Some (Num x)) <$> r) ++ [t]).
Proof. intros Hr Ht. unfold with_target. rewrite lookup_zip_with, Hr. simpl. by rewrite Ht. Qed.

Lemma with_target_width (k : nat) (rows : list (list F)) (y : list (option (scalar F))) :
  Forall (λ r, length r = k) rows → Forall (λ r, length r = k + 1) (with_target rows y).
Proof.
  intros Hrows. unfold with_target. revert y.
  induction Hrows as [|r rows Hr _ IH]; intros [|t y]; simpl; constructor; [|done].
  rewrite length_app, length_fmap. simpl. lia.
Qed.

(** C1. The fitted state of the preprocessor and the returned training
    matrix depend on the training table only: in two runs that read the same
    training table, whatever the test tables hold, the saved preprocessor and
    the training matrix are the same, and the saved preprocessor is the one
    fitted on the training features. *)
Theorem fit_uses_training_table_only
    (train_path test_path1 test_path2 : string) (w1 w2 w1' w2' : world F)
    (r1 r2 : ndarray F * ndarray F * string) :
  csv_files w1 !! train_path = csv_files w2 !! train_path →
  initiate_data_transformation train_path test_path1 w1 = (Ok r1, w1') →
  initiate_data_transformation train_path test_path2 w2 = (Ok r2, w2') →
  r1.1.1 = r2.1.1 ∧
  artifacts w1' !! artifact_path = artifacts w2' !! artifact_path ∧
  ∃ train pre Xtr,
    csv_files w1 !! train_path = Some train ∧
    ColumnTransformer.fit_transform new_preprocessor (delete target_column_name train)
      = Ok (pre, Xtr) ∧
    artifacts w1' !! artifact_path = Some pre.
Proof.
  intros Hsame Hrun1 Hrun2.
  apply initiate_data_transformation_Ok in Hrun1
    as [train1 test1 ytr1 yte1 pre1 Xtr1 Xte1 Htrain1 _ Hytr1 _ Hfit1 _ Hc1 _ _ _ ->].
  apply initiate_data_transformation_Ok in Hrun2
    as [train2 test2 ytr2 yte2 pre2 Xtr2 Xte2 Htrain2 _ Hytr2 _ Hfit2 _ Hc2 _ _ _ ->].
  rewrite Htrain1, Htrain2 in Hsame. injection Hsame as <-.
  rewrite Hytr1 in Hytr2. injection Hytr2 as <-.
  rewrite Hfit1 in Hfit2. injection Hfit2 as <- <-.
  rewrite Hc1 in Hc2. injection Hc2 as Hc2.
  rewrite !saved_artifact. split; [done|]. split; [done|].
  exists train1, pre1, Xtr1. done.
Qed.

(** C2, as the code has it.  Both returned matrices have as many columns as
    there are numeric columns with an observed training value, plus the
    distinct categories observed in training over the categorical columns,
    plus one for the target. *)
Theorem output_width
    (train_path test_path : string) (w w' : world F) (n m : nat)
    (train test : gmap string (Column F)) (train_arr test_arr : ndarray F) (path : string) :
  csv_files w !! train_path = Some train → csv_files w !! test_path = Some test →
  has_rows n train → has_rows m test →
  initiate_data_transformation train_path test_path w
    = (Ok (train_arr, test_arr, path), w') →
  ∃ tr te, train_arr = Array2D tr ∧ test_arr = Array2D te ∧
    Forall (λ row, length row = numeric_kept train + distinct_total train + 1) tr ∧
    Forall (λ row, length row = numeric_kept train + distinct_total train + 1) te.
Proof.
  intros Htrain Htest Hn Hm Hrun.
  apply initiate_data_transformation_Ok in Hrun
    as [train' test' ytr yte pre Xtr Xte Htrain' Htest' Hytr Hyte Hfit Htr Hctr Hcte _ _ _].
  simpl in Hctr, Hcte.
  rewrite Htrain in Htrain'. injection Htrain' as <-.
  rewrite Htest in Htest'. injection Htest' as <-.
  destruct (returned_dense n train ytr pre Xtr train_arr Hn Hytr Hfit Hctr)
    as (p & q & rows & -> & -> & _ & _ & Hk & Hsum & Hw & ->).
  apply (ct_transform_shape m) in Htr as (_ & Hs & _ & Hw'); [|by apply has_rows_delete].
  destruct Xte as [rows'|?]; [|done]. simpl in Hw', Hcte.
  destruct (decide _); [|done]. injection Hcte as <-.
  rewrite Hk, Hsum in Hw'.
  eexists _, _. split; [done|]. split; [done|]. split; by apply with_target_width.
Qed.

(** C6. A successful call returns the triple of the training matrix, the
    test matrix and the path [artifacts/preprocessor.pkl], and by then the
    preprocessor fitted on the training features is stored at that path. *)
Theorem returns_triple_and_saves
    (train_path test_path : string) (w w' : world F) (r : ndarray F * ndarray F * string) :
  initiate_data_transformation train_path test_path w = (Ok r, w') →
  ∃ train test ytr yte pre Xtr Xte,
    csv_files w !! train_path = Some train ∧ csv_files w !! test_path = Some test ∧
    train !! "math_score" = Some ytr ∧ test !! "math_score" = Some yte ∧
    ColumnTransformer.fit_transform new_preprocessor (delete "math_score" train)
      = Ok (pre, Xtr) ∧
    ColumnTransformer.transform pre (delete "math_score" test) = Ok Xte ∧
    np.c_ Xtr (np.array ytr) = Ok r.1.1 ∧
    np.c_ Xte (np.array yte) = Ok r.1.2 ∧
    r.2 = "artifacts/preprocessor.pkl" ∧
    artifacts w' !! "artifacts/preprocessor.pkl" = Some pre ∧
    is_Some (ColumnTransformer.fitted_ pre).
Proof.
  intros Hrun. apply initiate_data_transformation_Ok in Hrun
    as [train test ytr yte pre Xtr Xte Htrain Htest Hytr Hyte Hfit Htr Hctr Hcte Hp _ ->].
  exists train, test, ytr, yte, pre, Xtr, Xte. repeat split; try done.
  - apply saved_artifact.
  - apply ct_fit_transform_inv in Hfit as (p & q & A & B & _ & _ & _ & _ & -> & _). by eexists.
Qed.

End DriverProperties.

Section Forward.
Context `{Numeric F}.

Lemma as_float_NumCol (Xf : list (list (option F))) :
  mapR SimpleImputer.as_float (NumCol <$> Xf) = Ok Xf.
Proof. induction Xf as [|c Xf IH]; [done|]. rewrite fmap_cons. simpl. by rewrite IH. Qed.

Lemma transform_cols_Ok {A} (stats : list (option A)) (X : list (list (option A))) :
  check_array X = Ok () → length stats = length X →
  SimpleImputer.transform_cols stats X = Ok (omap id (zip_with SimpleImputer.impute stats X)).
Proof.
  intros Hchk Hlen. unfold SimpleImputer.transform_cols. rewrite Hchk. simpl.
  by rewrite decide_True.
Qed.

(** With every statistic defined, imputation keeps every column. *)
Lemma impute_all {A} (strategy : list A → A) (trains inputs : list (list (option A))) :
  Forall (λ t, observed t ≠ []) trains → length inputs = length trains →
  omap id (zip_with SimpleImputer.impute (SimpleImputer.statistic strategy <$> trains) inputs)
  = zip_with (λ t c, default (strategy (observed t)) <$> c) trains inputs.
Proof.
  intros Hobs. revert inputs. induction Hobs as [|t trains Ht _ IH]; intros [|c inputs] Hlen;
    try done.
  rewrite fmap_cons. cbn [zip_with]. unfold SimpleImputer.statistic at 1.
  destruct (observed t) eqn:Hot; [done|]. cbn [SimpleImputer.impute omap list_omap id].
  rewrite <- IH by (simpl in Hlen; lia). done.
Qed.

(** *** The numeric branch, entry by entry *)

Lemma num_fit_inv (X : list (Column F)) (p : num_params F) :
  fit num_pipeline X = Ok p →
  ∃ Xf, mapR SimpleImputer.as_float X = Ok Xf ∧ check_array Xf = Ok () ∧
    p.1 = SimpleImputer.statistic np.median <$> Xf ∧
    check_array (omap id (zip_with SimpleImputer.impute p.1 Xf)) = Ok () ∧
    p.2 = (λ col, (np.mean col, StandardScaler.scale_of col))
            <$> omap id (zip_with SimpleImputer.impute p.1 Xf).
Proof.
  intros Hf. apply Pipeline_fit in Hf as (Y & Hfit & Htr & Hsfit).
  destruct p as [st sc]. simpl in *.
  apply bind_Ok_inv in Hfit as (Xf & HXf & Hfit).
  rewrite HXf in Htr. simpl in Htr.
  apply bind_Ok_inv in Htr as (Yc & Htr & [= <-]).
  unfold SimpleImputer.fit_cols in Hfit.
  apply bind_Ok_inv in Hfit as ([] & Hchk & [= <-]).
  rewrite transform_cols_Ok in Htr by (by rewrite ?length_fmap). injection Htr as <-.
  unfold StandardScaler.fit_array in Hsfit. cbn [StandardScaler.to_dense] in Hsfit.
  apply bind_Ok_inv in Hsfit as ([] & Hchk2 & [= <-]).
  exists Xf. done.
Qed.

Lemma zip_with_standardize (trains inputs : list (list (option F))) :
  zip_with (λ '(m, s) col, (λ x, Fdiv (Fsub x m) s) <$> col)
    ((λ col, (np.mean col, StandardScaler.scale_of col))
       <$> zip_with (λ t c, default (np.median (observed t)) <$> c) trains trains)
    (zip_with (λ t c, default (np.median (observed t)) <$> c) trains inputs)
  = zip_with (λ t c, standardized t <$> c) trains inputs.
Proof.
  revert inputs. induction trains as [|t trains IH]; intros [|c inputs]; try done.
  cbn [zip_with]. rewrite fmap_cons. cbn [zip_with]. rewrite IH. f_equal.
  rewrite <- list_fmap_compose. done.
Qed.

End Forward.

Section NumericBranch.
Context `{Numeric F}.

(** The fitted numeric branch computes [standardized], entry by entry. *)
Lemma num_pipeline_entries (trains inputs : list (list (option F))) (p : num_params F) :
  fit num_pipeline (NumCol <$> trains) = Ok p →
  Forall (λ t, observed t ≠ []) trains →
  length inputs = length trains →
  check_array inputs = Ok () →
  p.1 = (λ t, Some (np.median (observed t))) <$> trains ∧
  transform num_pipeline p (NumCol <$> inputs)
    = Ok (Dense (zip_with (λ t c, standardized t <$> c) trains inputs)).
Proof.
  intros Hfit Hobs Hlen Hchk.
  apply num_fit_inv in Hfit as (Xf & HXf & _ & Hst & _ & Hsc).
  rewrite as_float_NumCol in HXf. injection HXf as <-.
  destruct p as [st sc]. cbn [fst snd] in *. subst st.
  rewrite impute_all in Hsc by done. subst sc. split.
  - clear -Hobs. induction Hobs as [|t trains Ht _ IH]; [done|].
    rewrite !fmap_cons, IH. unfold SimpleImputer.statistic. by destruct (observed t).
  - unfold num_pipeline. apply Pipeline_transform. cbn [fst snd].
    exists (Dense (zip_with (λ t c, default (np.median (observed t)) <$> c) trains inputs)).
    split.
    + simpl. rewrite as_float_NumCol. simpl.
      rewrite transform_cols_Ok by (by rewrite ?length_fmap). simpl.
      by rewrite impute_all.
    + simpl. unfold StandardScaler.transform_array. cbn [StandardScaler.to_dense].
      assert (check_array (zip_with (λ t c, default (np.median (observed t)) <$> c)
                trains inputs) = Ok ()) as ->.
      { apply check_array_Ok in Hchk as (c & X' & -> & Hc).
        destruct trains as [|t trains]; [done|]. simpl. destruct c; done. }
      simpl. rewrite decide_True by (rewrite length_fmap, !length_zip_with; lia).
      by rewrite zip_with_standardize.
Qed.

End NumericBranch.

Section CatEntries.
Context `{Numeric F}.

(** *** The categorical branch, entry by entry *)

Lemma one_hot_dense (cats filled : list (scalar F)) :
  (map (default np.F0) <$> OneHotEncoder.one_hot cats filled)
  = (λ c, indicator c filled) <$> cats.
Proof.
  unfold OneHotEncoder.one_hot, indicator. rewrite <- list_fmap_compose.
  apply list_fmap_ext. intros _ c _. simpl. rewrite <- list_fmap_compose.
  apply list_fmap_ext. intros _ v _. simpl. by destruct (decide (v = c)).
Qed.

Lemma scale_block (cats filled filled' : list (scalar F)) :
  (map (default np.F0) <$>
     scale_sparse (learn ((λ c, indicator c filled) <$> cats))
       (OneHotEncoder.one_hot cats filled'))
  = (λ c, (λ v, if decide (v = c)
                then Fmul np.F1 (Fdiv np.F1 (StandardScaler.scale_of (indicator c filled)))
                else np.F0) <$> filled') <$> cats.
Proof.
  unfold scale_sparse, learn, OneHotEncoder.one_hot.
  induction cats as [|c cats IH]; [done|]. rewrite !fmap_cons. cbn [zip_with].
  rewrite fmap_cons. rewrite IH. f_equal.
  rewrite <- !list_fmap_compose. apply list_fmap_ext. intros _ v _. simpl.
  by destruct (decide (v = c)).
Qed.

Lemma scale_sparse_app (p1 p2 : list (F * F)) (c1 c2 : list (list (option F))) :
  length p1 = length c1 →
  scale_sparse (p1 ++ p2) (c1 ++ c2) = scale_sparse p1 c1 ++ scale_sparse p2 c2.
Proof. intros Hlen. unfold scale_sparse. by rewrite zip_with_app. Qed.

Lemma scale_blocks (cats fills fills' : list (list (scalar F))) :
  length fills = length cats → length fills' = length cats →
  (map (default np.F0) <$>
     scale_sparse
       (learn (map (default np.F0) <$> concat (zip_with OneHotEncoder.one_hot cats fills)))
       (concat (zip_with OneHotEncoder.one_hot cats fills')))
  = concat (zip_with (λ '(c, f) f',
              (λ cat, (λ v, if decide (v = cat)
                 then Fmul np.F1 (Fdiv np.F1 (StandardScaler.scale_of (indicator cat f)))
                 else np.F0) <$> f') <$> c) (zip cats fills) fills').
Proof.
  revert fills fills'. induction cats as [|c cats IH]; intros [|f fills] [|f' fills'] Hl Hl';
    try done.
  cbn [zip_with zip concat]. rewrite fmap_app. unfold learn at 1. rewrite fmap_app.
  fold (learn (map (default np.F0) <$> OneHotEncoder.one_hot c f)).
  fold (learn (map (default np.F0) <$> concat (zip_with OneHotEncoder.one_hot cats fills))).
  rewrite scale_sparse_app.
  - rewrite fmap_app, IH by (simpl in *; lia). f_equal.
    rewrite one_hot_dense. apply scale_block.
  - unfold learn, OneHotEncoder.one_hot. by rewrite !length_fmap.
Qed.

End CatEntries.

Section CategoricalBranch.
Context `{Numeric F}.

Lemma encoder_transform_eq (cats X : list (list (scalar F))) (Z : array F) :
  OneHotEncoder.transform_cols cats X = Ok Z →
  Z = Sparse (concat (zip_with OneHotEncoder.one_hot cats X)).
Proof.
  unfold OneHotEncoder.transform_cols. intros Ht.
  apply bind_Ok_inv in Ht as ([] & _ & Ht).
  destruct (decide _); [|done]. destruct (forallb _ _); [|done]. by injection Ht as <-.
Qed.

Lemma encoder_transform_Ok (cats X : list (list (scalar F))) :
  check_array X = Ok () → length cats = length X →
  Forall2 (λ c col, ∀ v, v ∈ col → v ∈ c) cats X →
  OneHotEncoder.transform_cols cats X
  = Ok (Sparse (concat (zip_with OneHotEncoder.one_hot cats X))).
Proof.
  intros Hchk Hlen Hk. unfold OneHotEncoder.transform_cols. rewrite Hchk. simpl.
  rewrite decide_True by done.
  assert (forallb id (zip_with OneHotEncoder.known cats X) = true) as ->; [|done].
  clear Hchk Hlen. induction Hk as [|c col cats X Hc _ IH]; [done|].
  simpl. rewrite IH, andb_true_r. unfold OneHotEncoder.known.
  apply forallb_forall. intros v Hv. apply bool_decide_eq_true. apply Hc.
  by apply list_elem_of_In.
Qed.

Lemma one_hot_concat_length (cats X X' : list (list (scalar F))) :
  length X = length X' →
  length (concat (zip_with OneHotEncoder.one_hot cats X))
  = length (concat (zip_with OneHotEncoder.one_hot cats X')).
Proof.
  revert X X'. induction cats as [|c cats IH]; intros [|x X] [|x' X'] Hlen; try done.
  cbn [zip_with concat]. rewrite !length_app, (IH X X') by (simpl in *; lia).
  unfold OneHotEncoder.one_hot. by rewrite !length_fmap.
Qed.

Lemma cat_fit_full (X : list (Column F)) (q : cat_params F) :
  fit cat_pipeline X = Ok q →
  check_array (column_cells <$> X) = Ok () ∧
  q.1 = SimpleImputer.statistic SimpleImputer.mode <$> (column_cells <$> X) ∧
  check_array (imputed (column_cells <$> X)) = Ok () ∧
  q.2.1 = OneHotEncoder.categories <$> imputed (column_cells <$> X) ∧
  q.2.2 = learn (map (default np.F0) <$>
            concat (zip_with OneHotEncoder.one_hot q.2.1 (imputed (column_cells <$> X)))).
Proof.
  intros Hf. apply Pipeline_fit in Hf as (Y & Hfit & Hty & Hfit2).
  apply Pipeline_fit in Hfit2 as (Z & Hfe & Hte & Hfs).
  destruct q as [st [cats sc]]. cbn [fst snd] in *. simpl in Hfit, Hty, Hfe, Hte, Hfs.
  unfold SimpleImputer.fit_cols in Hfit.
  apply bind_Ok_inv in Hfit as ([] & Hchk & [= <-]).
  rewrite transform_cols_Ok in Hty by (by rewrite ?length_fmap). injection Hty as <-.
  fold (imputed (column_cells <$> X)) in *.
  unfold OneHotEncoder.fit_cols in Hfe.
  apply bind_Ok_inv in Hfe as ([] & Hchk2 & [= <-]).
  apply encoder_transform_eq in Hte as ->.
  unfold StandardScaler.fit_array in Hfs.
  apply bind_Ok_inv in Hfs as ([] & _ & [= <-]). done.
Qed.

Lemma imputed_all_observed (cells : list (list (option (scalar F)))) :
  Forall (λ t, observed t ≠ []) cells → imputed cells = filled_with_mode <$> cells.
Proof.
  intros Hobs. unfold imputed. rewrite impute_all by done.
  clear. induction cells as [|t cells IH]; [done|]. simpl. by rewrite IH.
Qed.

Lemma Forall_has_observation (X : list (Column F)) :
  Forall has_observation X → Forall (λ t, observed t ≠ []) (column_cells <$> X).
Proof. intros HX. by apply Forall_fmap. Qed.

Lemma check_array_nonempty {A} (X : list (list A)) :
  X ≠ [] → Forall (λ c, c ≠ []) X → check_array X = Ok ().
Proof. intros HX Hall. destruct X as [|[|x c] X]; try done. by apply Forall_cons in Hall as [? _]. Qed.

(** The fitted categorical branch computes [encoded_block], column by column. *)
Lemma cat_pipeline_entries (trains inputs : list (Column F)) (q : cat_params F) :
  fit cat_pipeline trains = Ok q →
  Forall has_observation trains →
  check_array (column_cells <$> inputs) = Ok () →
  Forall2 (λ t c, ∀ v, v ∈ observed (column_cells c) → v ∈ observed (column_cells t))
    trains inputs →
  q.1 = (λ t, Some (SimpleImputer.mode (observed (column_cells t)))) <$> trains ∧
  q.2.1 = (λ t, OneHotEncoder.categories (filled_with_mode (column_cells t))) <$> trains ∧
  Forall (λ t, length (OneHotEncoder.categories (filled_with_mode (column_cells t)))
               = n_distinct t) trains ∧
  ∃ B, transform cat_pipeline q inputs = Ok B ∧
       StandardScaler.to_dense B
       = concat (zip_with encoded_block (column_cells <$> trains) (column_cells <$> inputs)).
Proof.
  intros Hfit Hobs Hchk Hseen.
  apply cat_fit_full in Hfit as (Hchk0 & Hst & Hchk1 & Hcats & Hsc).
  destruct q as [st [cats sc]]. cbn [fst snd] in *.
  pose proof (Forall_has_observation _ Hobs) as Hobs'.
  rewrite imputed_all_observed in Hchk1, Hcats, Hsc by done.
  pose proof (Forall2_length _ _ _ Hseen) as Hlen.
  split; [|split; [|split]].
  - rewrite Hst. clear -Hobs. induction Hobs as [|t trains Ht _ IH]; [done|].
    rewrite !fmap_cons, IH. unfold SimpleImputer.statistic. unfold has_observation in Ht.
    by destruct (observed (column_cells t)).
  - rewrite Hcats, <- !list_fmap_compose. done.
  - eapply Forall_impl; [exact Hobs|]. intros t Ht. simpl.
    unfold filled_with_mode, n_distinct. apply categories_imputed.
    unfold SimpleImputer.statistic. unfold has_observation in Ht.
    by destruct (observed (column_cells t)).
  - set (fills' := zip_with
                     (λ t c : list (option (scalar F)),
                        default (SimpleImputer.mode (observed t)) <$> c)
                     (column_cells <$> trains) (column_cells <$> inputs)).
    assert (transform SimpleImputer.most_frequent st inputs = Ok fills') as Himp.
    { simpl. rewrite transform_cols_Ok; [|done|subst st; by rewrite !length_fmap].
      subst st. by rewrite impute_all by (by rewrite ?length_fmap). }
    assert (length fills' = length trains) as Hlf.
    { unfold fills'. rewrite length_zip_with, !length_fmap. lia. }
    assert (Forall2 (λ c col, ∀ v, v ∈ col → v ∈ c) cats fills') as Hknown.
    { subst cats fills'. clear -Hseen Hobs.
      induction Hseen as [|t c trains inputs Htc _ IH]; [constructor|].
      apply Forall_cons in Hobs as [Ht Hobs]. rewrite !fmap_cons. cbn [zip_with].
      constructor; [|by apply IH].
      intros v Hv. apply elem_of_categories. unfold filled_with_mode.
      apply elem_of_imputed. left.
      assert (SimpleImputer.mode (observed (column_cells t)) ∈ observed (column_cells t))
        as Hmode by (by apply mode_elem_of).
      apply elem_of_imputed in Hv as [Hv | [-> _]]; [by apply Htc | done]. }
    assert (check_array fills' = Ok ()) as Hchk2.
    { apply check_array_Ok in Hchk as (c & X' & Hin & Hc).
      destruct inputs as [|c0 inputs]; [done|]. destruct trains as [|t trains]; [done|].
      unfold fills'. rewrite !fmap_cons in *. cbn [zip_with]. injection Hin as <- _.
      destruct (column_cells c0); done. }
    eexists. split.
    + unfold cat_pipeline. apply Pipeline_transform. exists fills'. split; [done|].
      apply Pipeline_transform. cbn [fst snd]. eexists. split.
      * simpl. apply encoder_transform_Ok; [done| |done].
        subst cats. rewrite !length_fmap. lia.
      * simpl. unfold StandardScaler.transform_array. cbn [StandardScaler.to_dense].
        assert (check_array (map (default np.F0) <$>
                  concat (zip_with OneHotEncoder.one_hot cats fills')) = Ok ()) as ->.
        { apply check_array_Ok in Hchk2 as (c & X' & Hf' & Hc). rewrite Hf'.
          destruct cats as [|cat0 cats']; [by destruct trains|].
          cbn [zip_with concat]. destruct trains as [|t trains]; [done|].
          rewrite fmap_cons in Hcats. injection Hcats as -> _.
          apply Forall_cons in Hobs' as [Ht _].
          destruct (OneHotEncoder.categories (filled_with_mode (column_cells t)))
            as [|k ks] eqn:Hk.
          - exfalso. assert (SimpleImputer.mode (observed (column_cells t))
                             ∈ OneHotEncoder.categories (filled_with_mode (column_cells t))) as Hm.
            { apply elem_of_categories, elem_of_imputed. left. by apply mode_elem_of. }
            rewrite Hk in Hm. by apply elem_of_nil in Hm.
          - simpl. by destruct c. }
        simpl. rewrite decide_True; [done|]. subst sc.
        unfold learn. rewrite !length_fmap.
        apply one_hot_concat_length. by rewrite !length_fmap.
    + cbn [StandardScaler.to_dense]. subst sc. fold (scale_sparse
        (learn (map (default np.F0) <$> concat (zip_with OneHotEncoder.one_hot cats
           (filled_with_mode <$> (column_cells <$> trains)))))
        (concat (zip_with OneHotEncoder.one_hot cats fills'))).
      rewrite scale_blocks by (subst cats; rewrite ?length_fmap; lia).
      subst cats fills'. f_equal. clear.
      generalize (column_cells <$> inputs) as ins. generalize (column_cells <$> trains) as trs.
      induction trs as [|t trs IH]; intros [|c ins]; try done.
      rewrite !fmap_cons. cbn [zip_with zip concat]. rewrite IH. f_equal.
      unfold encoded_block. apply list_fmap_ext. intros _ cat _. simpl.
      rewrite <- list_fmap_compose. apply list_fmap_ext. intros _ x _. simpl.
      unfold encoded. done.
Qed.

End CategoricalBranch.

Section Success.
Context `{Numeric F}.

Lemma conforms_numeric (df : gmap string (Column F)) :
  conforms df →
  ∃ Xf, column_of (delete target_column_name df) <$> numerical_columns = NumCol <$> Xf ∧
    ColumnTransformer.select (delete target_column_name df) numerical_columns
      = Ok (NumCol <$> Xf) ∧
    length Xf = 2.
Proof.
  intros (Hnum & _ & _).
  destruct (Hnum "writing_score") as [w Hw]; [repeat constructor|].
  destruct (Hnum "reading_score") as [r Hr]; [repeat constructor|].
  exists [w; r]. unfold numerical_columns, ColumnTransformer.select, column_of.
  simpl. rewrite !lookup_delete_ne by done. rewrite Hw, Hr. done.
Qed.

Lemma conforms_categorical (df : gmap string (Column F)) :
  conforms df →
  ColumnTransformer.select (delete target_column_name df) categorical_columns
    = Ok (column_of (delete target_column_name df) <$> categorical_columns).
Proof.
  intros (_ & Hcat & _).
  destruct (Hcat "gender") as [c1 H1]; [repeat constructor|].
  destruct (Hcat "race_ethnicity") as [c2 H2]; [repeat constructor|].
  destruct (Hcat "parental_level_of_education") as [c3 H3]; [repeat constructor|].
  destruct (Hcat "lunch") as [c4 H4]; [repeat constructor|].
  destruct (Hcat "test_preparation_course") as [c5 H5]; [repeat constructor|].
  unfold categorical_columns, ColumnTransformer.select, column_of.
  simpl. rewrite !lookup_delete_ne by done. rewrite H1, H2, H3, H4, H5. done.
Qed.

Lemma check_array_encoded (cats X : list (list (scalar F))) :
  check_array X = Ok () → length cats = length X → Forall (λ c, c ≠ []) cats →
  check_array (map (default np.F0) <$> concat (zip_with OneHotEncoder.one_hot cats X)) = Ok ().
Proof.
  intros Hchk Hlen Hne. apply check_array_Ok in Hchk as (x & X' & -> & Hx).
  destruct cats as [|[|k c] cats]; [done| |].
  - by apply Forall_cons in Hne as [? _].
  - simpl. by destruct x.
Qed.

Lemma categories_nonempty (col : list (scalar F)) :
  col ≠ [] → OneHotEncoder.categories col ≠ [].
Proof.
  destruct col as [|v col]; [done|]. intros _ Hnil.
  assert (v ∈ OneHotEncoder.categories (v :: col)) as Hv
    by (apply elem_of_categories; by left).
  rewrite Hnil in Hv. by apply elem_of_nil in Hv.
Qed.

Lemma num_fit_Ok (n : nat) (Xf : list (list (option F))) :
  0 < n → cols_len n Xf → Xf ≠ [] → Forall (λ t, observed t ≠ []) Xf →
  ∃ p, fit num_pipeline (NumCol <$> Xf) = Ok p.
Proof.
  intros Hpos Hn Hne Hobs. eexists (_, _). apply Pipeline_fit. cbn [fst snd].
  assert (check_array Xf = Ok ()) as Hchk by (by apply (check_array_cols_len n)).
  eexists. split; [|split].
  - simpl. rewrite as_float_NumCol. simpl. unfold SimpleImputer.fit_cols. by rewrite Hchk.
  - simpl. rewrite as_float_NumCol. simpl.
    rewrite transform_cols_Ok by (by rewrite ?length_fmap). done.
  - simpl. unfold StandardScaler.fit_array. cbn [StandardScaler.to_dense].
    rewrite impute_all by done.
    assert (check_array (zip_with (λ t c : list (option F),
              default (np.median (observed t)) <$> c) Xf Xf) = Ok ()) as ->; [|done].
    apply check_array_Ok in Hchk as (c & X' & -> & Hc). simpl. by destruct c.
Qed.

Lemma cat_fit_Ok (n : nat) (X : list (Column F)) :
  0 < n → frame_cols_len n X → X ≠ [] → Forall has_observation X →
  ∃ q, fit cat_pipeline X = Ok q.
Proof.
  intros Hpos Hn Hne Hobs. eexists (_, (_, _)). apply Pipeline_fit. cbn [fst snd].
  pose proof (Forall_has_observation _ Hobs) as Hobs'.
  assert (check_array (column_cells <$> X) = Ok ()) as Hchk.
  { apply (check_array_cols_len n); [by destruct X | by apply column_cells_cols_len | done]. }
  assert (check_array (filled_with_mode <$> (column_cells <$> X)) = Ok ()) as Hchk2.
  { apply (check_array_cols_len n); [by destruct X | | done].
    apply Forall_fmap. eapply Forall_impl; [by apply column_cells_cols_len|].
    intros c Hc. simpl. unfold filled_with_mode. by rewrite length_fmap. }
  eexists. split; [|split].
  - simpl. unfold SimpleImputer.fit_cols. by rewrite Hchk.
  - simpl. rewrite transform_cols_Ok by (by rewrite ?length_fmap).
    fold (imputed (column_cells <$> X)). by rewrite imputed_all_observed.
  - apply Pipeline_fit. cbn [fst snd]. eexists. split; [|split].
    + simpl. unfold OneHotEncoder.fit_cols. by rewrite Hchk2.
    + simpl. apply encoder_transform_Ok; [done | by rewrite length_fmap |].
      apply Forall2_fmap_l, Forall_Forall2_diag, Forall_forall. intros col _ v Hv.
      by apply elem_of_categories.
    + simpl. unfold StandardScaler.fit_array. cbn [StandardScaler.to_dense].
      rewrite check_array_encoded; [done | done | by rewrite length_fmap |].
      apply Forall_fmap, Forall_forall. intros col Hcol. simpl.
      apply categories_nonempty. intros ->.
      apply check_array_Ok in Hchk2 as (c0 & X' & HX' & Hc0).
      assert (cols_len n (filled_with_mode <$> (column_cells <$> X))) as Hlen.
      { apply Forall_fmap. eapply Forall_impl; [by apply column_cells_cols_len|].
        intros c Hc. simpl. unfold filled_with_mode. by rewrite length_fmap. }
      unfold cols_len in Hlen. rewrite Forall_forall in Hlen.
      specialize (Hlen [] Hcol). simpl in Hlen. lia.
Qed.

End Success.

Section Failure.
Context `{Numeric F}.

Lemma failure_run (train_path test_path : string) (w : world F) (e : exn) (n : nat) :
  failure train_path test_path w e n →
  initiate_data_transformation train_path test_path w = (Raise (CustomException e n), w).
Proof.
  intros Hfail.
  unfold initiate_data_transformation, try_except, mbind, body_mbind, body_bind,
    call_pure, call, read_csv, mret, body_mret, body_ret.
  destruct Hfail;
    repeat match goal with
    | Heq : csv_files w !! _ = _ |- _ => rewrite Heq; clear Heq
    end;
    try done;
    rewrite get_data_transformer_object_eq; unfold pd.drop, pd.getitem;
    repeat match goal with
    | Heq : _ !! target_column_name = _ |- _ => rewrite Heq; clear Heq
    | Heq : ColumnTransformer.fit_transform _ _ = _ |- _ => rewrite Heq; clear Heq
    | Heq : ColumnTransformer.transform _ _ = _ |- _ => rewrite Heq; clear Heq
    | Heq : np.c_ _ _ = _ |- _ => rewrite Heq; clear Heq
    end;
    try done.
  unfold save_object. by rewrite decide_True.
Qed.

Lemma has_observation_NumCol (xs : list (option F)) :
  has_observation (NumCol xs) ↔ observed xs ≠ [].
Proof.
  unfold has_observation. simpl. rewrite observed_fmap_Some. by destruct (observed xs).
Qed.

Lemma frame_cols_len_NumCol (n : nat) (Xf : list (list (option F))) :
  frame_cols_len n (NumCol <$> Xf) ↔ cols_len n Xf.
Proof. unfold frame_cols_len, cols_len. by rewrite Forall_fmap. Qed.

(** The numeric branch of a fitted preprocessor accepts every table with
    numeric columns and at least one row. *)
Lemma num_transform_Ok (n m : nat) (Xf Xf' : list (list (option F))) (p : num_params F) :
  fit num_pipeline (NumCol <$> Xf) = Ok p → cols_len n Xf →
  length Xf' = length Xf → cols_len m Xf' → 0 < m →
  ∃ A, transform num_pipeline p (NumCol <$> Xf') = Ok A.
Proof.
  intros Hfit Hn Hlen Hm Hpos.
  apply num_fit_inv in Hfit as (Xf0 & HXf & Hchk & Hst & Hchk2 & Hsc).
  rewrite as_float_NumCol in HXf. injection HXf as <-.
  destruct p as [st sc]. cbn [fst snd] in *.
  assert (length st = length Xf) as Hlst by (subst st; by rewrite length_fmap).
  destruct (impute_shape n st Xf Hlst Hn) as [Hk _].
  destruct (impute_shape m st Xf') as [Hk' Hm']; [lia | done |].
  assert (0 < n_kept st) as Hkpos.
  { apply check_array_Ok in Hchk2 as (c & X' & HX' & _). rewrite HX' in Hk. simpl in Hk. lia. }
  unfold num_pipeline. eexists. apply Pipeline_transform. cbn [fst snd]. eexists. split.
  - simpl. rewrite as_float_NumCol. simpl. rewrite transform_cols_Ok; [done| |lia].
    apply (check_array_cols_len m); [|done..]. destruct Xf'; [|done].
    simpl in *. subst st. destruct Xf; [|done]. simpl in *. lia.
  - simpl. unfold StandardScaler.transform_array. cbn [StandardScaler.to_dense].
    rewrite (check_array_cols_len m); [| |done..].
    + simpl. rewrite decide_True; [done|]. subst sc. rewrite length_fmap. lia.
    + intros Hnil. rewrite Hnil in Hk'. simpl in Hk'. lia.
Qed.

(** What a successful encoding of a table tells about its values: in every
    column that training kept, each observed value is a training value. *)
Lemma known_seen (cells cells' : list (list (option (scalar F)))) :
  length cells' = length cells →
  Forall2 (λ c col, ∀ v, v ∈ col → v ∈ c)
    (OneHotEncoder.categories <$> imputed cells)
    (omap id (zip_with SimpleImputer.impute
                (SimpleImputer.statistic SimpleImputer.mode <$> cells) cells')) →
  Forall2 (λ t c, observed t ≠ [] → ∀ v, v ∈ observed c → v ∈ observed t) cells cells'.
Proof.
  revert cells'. induction cells as [|t cells IH]; intros [|c cells'] Hlen Hk; try done.
  rewrite imputed_cons, fmap_cons in Hk. cbn [zip_with] in Hk.
  destruct (SimpleImputer.statistic SimpleImputer.mode t) as [mode|] eqn:Hst.
  - cbn [SimpleImputer.impute omap list_omap id] in Hk. rewrite fmap_cons in Hk.
    apply Forall2_cons in Hk as [Hc Hk]. constructor; [|apply IH; [simpl in *; lia | done]].
    intros _ v Hv. specialize (Hc v). rewrite elem_of_categories, !elem_of_imputed in Hc.
    destruct Hc as [Hc | [-> _]]; [by left | done | by apply statistic_mode_elem_of].
  - cbn [SimpleImputer.impute omap list_omap id] in Hk.
    constructor; [|apply IH; [simpl in *; lia | done]].
    apply statistic_None in Hst. by intros [].
Qed.

End Failure.

Section UnknownCategory.
Context `{Numeric F}.

Lemma has_rows_nonempty (m : nat) (df : gmap string (Column F)) (c : string)
    (v : scalar F) :
  has_rows m df → v ∈ observed (column_cells (column_of df c)) → 0 < m.
Proof.
  intros Hm Hv. unfold column_of in Hv. destruct (df !! c) as [col|] eqn:Hc.
  - pose proof (map_Forall_lookup_1 _ _ _ _ Hm Hc) as Hlen. simpl in *.
    rewrite <- Hlen, <- column_cells_length.
    apply elem_of_observed in Hv. destruct (column_cells col); [|simpl; lia].
    by apply elem_of_nil in Hv.
  - simpl in Hv. by apply elem_of_nil in Hv.
Qed.

Lemma Forall2_same_elem {A} (Q : A → A → Prop) (l : list A) :
  Forall2 Q l l → ∀ x, x ∈ l → Q x x.
Proof.
  induction l as [|y l IH]; intros HQ x Hx; [by apply elem_of_nil in Hx|].
  apply Forall2_cons in HQ as [Hy HQ]. apply elem_of_cons in Hx as [->|Hx]; [done|].
  by apply IH.
Qed.

(** C10, as the code has it.  When the fit on the training table has
    succeeded and the test table, which conforms to the schema, holds in a
    categorical column a value that is not among the observed training values
    of that column, while training has observed a value in that column, the
    transform of the test features on line 97 raises the encoder's error and
    the call raises it wrapped, leaving the files as they were. *)
Theorem unseen_category_raises
    (train_path test_path : string) (w : world F) (n m : nat)
    (train test : gmap string (Column F)) (ytr : Column F)
    (pre : preprocessor F) (Xtr : features F) (c : string) (v : scalar F) :
  csv_files w !! train_path = Some train → csv_files w !! test_path = Some test →
  has_rows n train → has_rows m test → conforms train → conforms test →
  train !! target_column_name = Some ytr →
  ColumnTransformer.fit_transform new_preprocessor (delete target_column_name train)
    = Ok (pre, Xtr) →
  c ∈ categorical_columns →
  has_observation (column_of train c) →
  v ∈ observed (column_cells (column_of test c)) →
  v ∉ observed (column_cells (column_of train c)) →
  ColumnTransformer.transform pre (delete target_column_name test)
    = Raise (ValueError "Found unknown categories") ∧
  initiate_data_transformation train_path test_path w
    = (Raise (CustomException (ValueError "Found unknown categories") 97), w).
Proof.
  intros Htrain Htest Hn Hm Hctrain Hctest Hytr Hfit Hc Hobs Hv Hnew.
  assert (0 < m) as Hpos by (by eapply has_rows_nonempty).
  assert (ColumnTransformer.transform pre (delete target_column_name test)
          = Raise (ValueError "Found unknown categories")) as Htr.
  { pose proof (has_rows_delete n train target_column_name Hn) as Hn'.
    pose proof (has_rows_delete m test target_column_name Hm) as Hm'.
    apply ct_fit_transform_inv in Hfit as (p & q & A & B & HXc & HXn & Hnum & Hcat & -> & _).
    destruct (conforms_numeric train Hctrain) as (Xf & HeqXf & _ & _).
    destruct (conforms_numeric test Hctest) as (Xf' & HeqXf' & HselXf' & HlenXf').
    pose proof (conforms_categorical test Hctest) as HselXc'.
    apply fit_transform_Ok_inv in Hnum as [Hnumfit _].
    apply fit_transform_Ok_inv in Hcat as [Hcatfit _].
    rewrite HeqXf in Hnumfit.
    destruct (num_transform_Ok n m Xf Xf' p Hnumfit) as [A' HA'].
    { apply frame_cols_len_NumCol. rewrite <- HeqXf. by eapply select_cols_len. }
    { apply (f_equal length) in HeqXf. rewrite !length_fmap in HeqXf. simpl in HeqXf. lia. }
    { apply frame_cols_len_NumCol. by eapply select_cols_len. }
    { done. }
    unfold ColumnTransformer.transform.
    cbn [fitted_preprocessor ColumnTransformer.fitted_ ColumnTransformer.num_pipeline
         ColumnTransformer.numerical_columns ColumnTransformer.cat_pipeline
         ColumnTransformer.categorical_columns].
    rewrite (bind_Ok _ _ _ HselXf'). cbn beta. rewrite (bind_Ok _ _ _ HselXc'). cbn beta.
    rewrite (bind_Ok _ _ _ HA'). cbn beta.
    assert (transform cat_pipeline q
              (column_of (delete target_column_name test) <$> categorical_columns)
            = Raise (ValueError "Found unknown categories")) as ->; [|done].
    unfold cat_pipeline, Pipeline. cbn [transform].
    apply cat_fit_full in Hcatfit as (Hchk0 & Hst & Hchk1 & Hcats & _).
    destruct q as [st [cats sc]]. cbn [fst snd] in *.
    set (Xc := column_of (delete target_column_name train) <$> categorical_columns) in *.
    set (Xc' := column_of (delete target_column_name test) <$> categorical_columns) in *.
    assert (frame_cols_len m Xc') as HmXc' by (by eapply select_cols_len).
    assert (check_array (column_cells <$> Xc') = Ok ()) as Hchk'.
    { apply (check_array_cols_len m); [done | by apply column_cells_cols_len | done]. }
    cbn [SimpleImputer.most_frequent transform OneHotEncoder.make].
    rewrite transform_cols_Ok; [|done|by rewrite Hst, !length_fmap].
    cbn [mbind result_bind]. unfold OneHotEncoder.transform_cols.
    destruct (impute_shape m st (column_cells <$> Xc')) as [Hk' HmY'];
      [by rewrite Hst, !length_fmap | by apply column_cells_cols_len |].
    assert (0 < n_kept st ∧ length cats = n_kept st) as [Hkpos Hlcats].
    { rewrite Hcats, length_fmap. unfold imputed. rewrite <- Hst.
      destruct (impute_shape n st (column_cells <$> Xc)) as [Hk _];
        [by rewrite Hst, !length_fmap | by apply column_cells_cols_len, (select_cols_len n _ _ _ HXc) |].
      split; [|done]. rewrite <- Hk.
      apply check_array_Ok in Hchk1 as (c0 & X0 & HX0 & _). unfold imputed in HX0.
      rewrite <- Hst in HX0. rewrite HX0. simpl. lia. }
    rewrite (check_array_cols_len m); [| |done..].
    2:{ intros Hnil. rewrite Hnil in Hk'. simpl in Hk'. lia. }
    cbn [mbind result_bind]. rewrite decide_True by lia.
    destruct (forallb id _) eqn:Hknown; [exfalso|done].
    assert (Forall2 (λ c col, ∀ v, v ∈ col → v ∈ c) cats
              (omap id (zip_with SimpleImputer.impute st (column_cells <$> Xc')))) as Hk.
    { assert (OneHotEncoder.transform_cols cats
                (omap id (zip_with SimpleImputer.impute st (column_cells <$> Xc')))
              = Ok (Sparse (concat (zip_with OneHotEncoder.one_hot cats
                  (omap id (zip_with SimpleImputer.impute st (column_cells <$> Xc'))))))) as Hte.
      { unfold OneHotEncoder.transform_cols. rewrite (check_array_cols_len m); [| |done..].
        - cbn [mbind result_bind]. rewrite decide_True by lia. by rewrite Hknown.
        - intros Hnil. rewrite Hnil in Hk'. simpl in Hk'. lia. }
      by apply (encoder_transform_shape m) in Hte as (_ & ? & _). }
    rewrite Hcats, Hst in Hk. apply known_seen in Hk; [|by rewrite !length_fmap].
    unfold Xc, Xc' in Hk. rewrite !Forall2_fmap in Hk.
    pose proof (Forall2_same_elem _ _ Hk c Hc) as Hkc. simpl in Hkc. clear Hk.
    rename Hkc into Hk.
    assert (c ≠ target_column_name) as Hne.
    { intros ->. unfold categorical_columns in Hc.
      repeat (apply elem_of_cons in Hc as [Hc|Hc]; [discriminate Hc|]).
      by apply elem_of_nil in Hc. }
    rewrite !column_of_delete in Hk by done. by apply Hnew, Hk. }
  split; [done|].
  destruct Hctest as (_ & _ & [yte Hyte]).
  apply failure_run. by eapply fail_transform.
Qed.

End UnknownCategory.

Section EndToEnd.
Context `{Numeric F}.

Lemma schema_not_target (c : string) :
  c ∈ numerical_columns ++ categorical_columns → c ≠ target_column_name.
Proof.
  intros Hc ->. unfold numerical_columns, categorical_columns in Hc. simpl in Hc.
  repeat (apply elem_of_cons in Hc as [Hc|Hc]; [discriminate Hc|]).
  by apply elem_of_nil in Hc.
Qed.

Lemma Forall_column_of_delete (P : Column F → Prop) (df : gmap string (Column F))
    (cols : list string) :
  (∀ c, c ∈ cols → c ≠ target_column_name) →
  (∀ c, c ∈ cols → P (column_of df c)) →
  Forall P (column_of (delete target_column_name df) <$> cols).
Proof.
  intros Hne HP. apply Forall_fmap, Forall_forall. intros c Hc. simpl.
  rewrite column_of_delete by auto. auto.
Qed.

Lemma filter_all {A} (P : A → Prop) `{∀ x, Decision (P x)} (l : list A) :
  Forall P l → filter P l = l.
Proof.
  induction 1 as [|x l Hx _ IH]; [done|]. by rewrite filter_cons_True, IH.
Qed.

End EndToEnd.

(** ** The theorems on the sample tables *)

Section Witnesses.
Import Sample.
#[local] Existing Instance Q_numeric.

Lemma has_rows_decide (n : nat) (df : gmap string (Column Q)) :
  bool_decide (has_rows n df) = true → has_rows n df.
Proof. apply bool_decide_eq_true_1. Qed.

Lemma seen_decide (l k : list (scalar Q)) :
  forallb (λ v, bool_decide (v ∈ k)) l = true → ∀ v, v ∈ l → v ∈ k.
Proof.
  intros Hall v Hv. rewrite forallb_forall in Hall.
  apply list_elem_of_In, Hall in Hv. by apply bool_decide_eq_true in Hv.
Qed.

(** A table built by [table] conforms to the schema. *)
Lemma table_conforms (g r p l t : list (option string)) (ws rs ms : list (option Q)) :
  conforms (table g r p l t ws rs ms).
Proof.
  split; [|split].
  - intros c Hc. unfold numerical_columns in Hc.
    repeat (apply elem_of_cons in Hc as [->|Hc]; [by eexists|]). by apply elem_of_nil in Hc.
  - intros c Hc. unfold categorical_columns in Hc.
    repeat (apply elem_of_cons in Hc as [->|Hc]; [by eexists|]). by apply elem_of_nil in Hc.
  - by eexists.
Qed.

Lemma lookup_train (train test : gmap string (Column Q)) :
  csv_files (files train test) !! "train.csv" = Some train.
Proof. reflexivity. Qed.

Lemma lookup_test (train test : gmap string (Column Q)) :
  csv_files (files train test) !! "test.csv" = Some test.
Proof. reflexivity. Qed.

Lemma pair_of_fst {A B} (x : A * B) (a : A) : x.1 = a → x = (a, x.2).
Proof. intros <-. by destruct x. Qed.

Lemma run_result (train test : gmap string (Column Q))
    (r : ndarray Q * ndarray Q * string) :
  (run train test).1 = Ok r →
  initiate_data_transformation "train.csv" "test.csv" (files train test)
  = (Ok r, (run train test).2).
Proof. apply pair_of_fst. Qed.

Lemma fit_uses_training_table_only_witness :
  ∃ r1 r2,
    (run train3 test2).1 = Ok r1 ∧ (run train3 test2').1 = Ok r2 ∧
    r1.1.1 = r2.1.1 ∧
    artifacts (run train3 test2).2 !! artifact_path
      = artifacts (run train3 test2').2 !! artifact_path.
Proof.
  assert (∃ r1, (run train3 test2).1 = Ok r1) as [r1 H1]
    by (eexists; vm_compute; reflexivity).
  assert (∃ r2, (run train3 test2').1 = Ok r2) as [r2 H2]
    by (eexists; vm_compute; reflexivity).
  assert (csv_files (files train3 test2) !! "train.csv"
          = csv_files (files train3 test2') !! "train.csv") as Hsame
    by (by rewrite !lookup_train).
  exists r1, r2. split; [exact H1|]. split; [exact H2|].
  destruct (fit_uses_training_table_only "train.csv" "test.csv" "test.csv"
              (files train3 test2) (files train3 test2') _ _ r1 r2 Hsame
              (run_result _ _ _ H1) (run_result _ _ _ H2)) as (Hr & Ha & _).
  split; [exact Hr | exact Ha].
Defined.

(** C2 as stated fails: with no writing score recorded in training, both
    matrices have 1 + 10 + 1 columns, not 2 + 10 + 1. *)
Lemma output_width_counterexample :
  ∃ tr te,
    (run train_no_writing test2).1
      = Ok (Array2D tr, Array2D te, "artifacts/preprocessor.pkl") ∧
    has_rows 3 train_no_writing ∧ has_rows 2 test2 ∧
    conforms train_no_writing ∧ conforms test2 ∧
    distinct_total train_no_writing = 10 ∧
    Forall (λ row, length row = 12) tr ∧ Forall (λ row, length row = 12) te ∧
    12 ≠ 2 + distinct_total train_no_writing + 1.
Proof.
  eexists _, _. split; [vm_compute; reflexivity|].
  split; [apply has_rows_decide; vm_compute; reflexivity|].
  split; [apply has_rows_decide; vm_compute; reflexivity|].
  split; [apply table_conforms|]. split; [apply table_conforms|].
  split; [vm_compute; reflexivity|].
  split; [repeat constructor|]. split; [repeat constructor|].
  vm_compute. lia.
Qed.

Lemma output_width_witness :
  ∃ tr te,
    (run train_no_writing test2).1
      = Ok (Array2D tr, Array2D te, "artifacts/preprocessor.pkl") ∧
    Forall (λ row, length row
                   = numeric_kept train_no_writing + distinct_total train_no_writing + 1) tr ∧
    Forall (λ row, length row
                   = numeric_kept train_no_writing + distinct_total train_no_writing + 1) te.
Proof.
  assert (∃ tr te, (run train_no_writing test2).1
                   = Ok (Array2D tr, Array2D te, "artifacts/preprocessor.pkl"))
    as (tr & te & Hrun) by (eexists _, _; vm_compute; reflexivity).
  assert (has_rows 3 train_no_writing) as Hn
    by (apply has_rows_decide; vm_compute; reflexivity).
  assert (has_rows 2 test2) as Hm by (apply has_rows_decide; vm_compute; reflexivity).
  exists tr, te. split; [exact Hrun|].
  destruct (output_width "train.csv" "test.csv" (files train_no_writing test2) _ 3 2
              train_no_writing test2 _ _ _ (lookup_train _ _) (lookup_test _ _) Hn Hm
              (run_result _ _ _ Hrun))
    as (tr' & te' & Htr & Hte & Hw & Hw').
  injection Htr as <-. injection Hte as <-. split; [exact Hw | exact Hw'].
Defined.

Lemma returns_triple_and_saves_witness :
  ∃ r pre,
    (run train3 test2).1 = Ok r ∧
    r.2 = "artifacts/preprocessor.pkl" ∧
    artifacts (run train3 test2).2 !! "artifacts/preprocessor.pkl" = Some pre ∧
    is_Some (ColumnTransformer.fitted_ pre).
Proof.
  assert (∃ r, (run train3 test2).1 = Ok r) as [r Hrun]
    by (eexists; vm_compute; reflexivity).
  destruct (returns_triple_and_saves "train.csv" "test.csv" (files train3 test2) _ r
              (run_result _ _ _ Hrun))
    as (train & test & ytr & yte & pre & Xtr & Xte & _ & _ & _ & _ & _ & _ & _ & _ & Hp & Ha & Hf).
  exists r, pre. split; [exact Hrun|]. split; [exact Hp|]. split; [exact Ha | exact Hf].
Defined.

Lemma elem_of_decide (v : scalar Q) (l : list (scalar Q)) :
  bool_decide (v ∈ l) = true → v ∈ l.
Proof. apply bool_decide_eq_true_1. Qed.

Lemma not_elem_of_decide (v : scalar Q) (l : list (scalar Q)) :
  bool_decide (v ∈ l) = false → v ∉ l.
Proof. apply bool_decide_eq_false_1. Qed.

Lemma has_observation_decide (c : Column Q) :
  bool_decide (observed (column_cells c) ≠ []) = true → has_observation c.
Proof. apply bool_decide_eq_true_1. Qed.

(** C10 as stated fails: when training recorded no gender at all, a test
    table with gender values, none of them seen in training, is transformed
    without error. *)
Lemma unseen_category_counterexample :
  has_rows 3 train_no_gender ∧ has_rows 2 test2 ∧
  "gender" ∈ categorical_columns ∧
  Str "female" ∈ observed (column_cells (column_of test2 "gender")) ∧
  (Str "female" ∉ observed (column_cells (column_of train_no_gender "gender"))) ∧
  is_Ok (run train_no_gender test2).1 = true.
Proof.
  split; [apply has_rows_decide; vm_compute; reflexivity|].
  split; [apply has_rows_decide; vm_compute; reflexivity|].
  split; [repeat constructor|].
  split; [apply elem_of_decide; vm_compute; reflexivity|].
  split; [apply not_elem_of_decide; vm_compute; reflexivity|].
  vm_compute. reflexivity.
Qed.

Lemma unseen_category_raises_witness :
  Str "group E" ∈ observed (column_cells (column_of test2_unseen "race_ethnicity")) ∧
  (Str "group E" ∉ observed (column_cells (column_of train3 "race_ethnicity"))) ∧
  initiate_data_transformation "train.csv" "test.csv" (files train3 test2_unseen)
    = (Raise (CustomException (ValueError "Found unknown categories") 97),
       files train3 test2_unseen).
Proof.
  assert (Str "group E" ∈ observed (column_cells (column_of test2_unseen "race_ethnicity")))
    as Hv by (apply elem_of_decide; vm_compute; reflexivity).
  assert (Str "group E" ∉ observed (column_cells (column_of train3 "race_ethnicity")))
    as Hnew by (apply not_elem_of_decide; vm_compute; reflexivity).
  assert (has_rows 3 train3) as Hn by (apply has_rows_decide; vm_compute; reflexivity).
  assert (has_rows 2 test2_unseen) as Hm
    by (apply has_rows_decide; vm_compute; reflexivity).
  assert (train3 !! target_column_name = Some (NumCol [Some 1; Some 2; Some 3]%Q)) as Hytr
    by (vm_compute; reflexivity).
  assert (has_observation (column_of train3 "race_ethnicity")) as Hobs
    by (apply has_observation_decide; vm_compute; reflexivity).
  assert ("race_ethnicity" ∈ categorical_columns) as Hc by (repeat constructor).
  assert (is_Ok (ColumnTransformer.fit_transform new_preprocessor
                   (delete target_column_name train3)) = true) as Hok
    by (vm_compute; reflexivity).
  destruct (ColumnTransformer.fit_transform new_preprocessor
              (delete target_column_name train3)) as [[pre Xtr]|e] eqn:Hfit;
    [|discriminate Hok].
  destruct (unseen_category_raises "train.csv" "test.csv" (files train3 test2_unseen) 3 2
              train3 test2_unseen _ pre Xtr "race_ethnicity" (Str "group E")
              (lookup_train _ _) (lookup_test _ _) Hn Hm
              (table_conforms _ _ _ _ _ _ _ _) (table_conforms _ _ _ _ _ _ _ _)
              Hytr Hfit Hc Hobs Hv Hnew) as [_ Hrun].
  split; [exact Hv|]. split; [exact Hnew | exact Hrun].
Defined.

End Witnesses.

(** * Further properties of the component *)

(** ** Inputs the driver rejects *)

Section Rejected.
Context `{Numeric F}.

Lemma select_present (df : gmap string (Column F)) (cols : list string) :
  (∀ c, c ∈ cols → is_Some (df !! c)) →
  ColumnTransformer.select df cols = Ok (column_of df <$> cols).
Proof.
  intros Hall. apply select_Ok. induction cols as [|c cols IH]; [constructor|].
  rewrite fmap_cons. constructor.
  - destruct (Hall c) as [col Hcol]; [by left|]. unfold column_of. by rewrite Hcol.
  - apply IH. intros c' Hc'. apply Hall. by right.
Qed.

Lemma select_absent (df : gmap string (Column F)) (cols : list string) (c : string) :
  c ∈ cols → df !! c = None →
  ColumnTransformer.select df cols = Raise (ValueError not_a_column).
Proof.
  intros Hc Hnone. unfold ColumnTransformer.select.
  induction cols as [|c0 cols IH]; [by apply elem_of_nil in Hc|].
  cbn [mapR]. destruct (df !! c0) as [col|] eqn:Hc0; [|done].
  apply elem_of_cons in Hc as [->|Hc]; [by rewrite Hc0 in Hnone|].
  cbn [mbind result_bind]. by rewrite (IH Hc).
Qed.

Lemma select_cases (df : gmap string (Column F)) (cols : list string) :
  ColumnTransformer.select df cols = Ok (column_of df <$> cols)
  ∨ ColumnTransformer.select df cols = Raise (ValueError not_a_column).
Proof.
  destruct (decide (Forall (λ c, is_Some (df !! c)) cols)) as [Hall|Hex].
  - left. apply select_present. by apply Forall_forall.
  - right. apply not_Forall_Exists in Hex; [|apply _].
    apply Exists_exists in Hex as (c & Hc & Hnone).
    apply (select_absent _ _ c); [done|]. by apply eq_None_not_Some.
Qed.

Lemma has_features_delete (df : gmap string (Column F)) :
  has_features df → has_features (delete target_column_name df).
Proof.
  intros Hdf c Hc. rewrite lookup_delete_ne; [by apply Hdf|].
  intros <-. by apply (schema_not_target target_column_name).
Qed.

Lemma has_features_select (df : gmap string (Column F)) :
  has_features df →
  ColumnTransformer.select df numerical_columns = Ok (column_of df <$> numerical_columns) ∧
  ColumnTransformer.select df categorical_columns
    = Ok (column_of df <$> categorical_columns).
Proof.
  intros Hdf. split; apply select_present; intros c Hc; apply Hdf, elem_of_app; auto.
Qed.

(** The fit of the transformer on a frame that lacks a feature column. *)
Lemma ct_fit_transform_absent (df : gmap string (Column F)) (c : string) :
  c ∈ numerical_columns ++ categorical_columns → df !! c = None →
  ColumnTransformer.fit_transform new_preprocessor df = Raise (ValueError not_a_column).
Proof.
  intros Hc Hnone. unfold ColumnTransformer.fit_transform.
  cbn [new_preprocessor ColumnTransformer.numerical_columns
       ColumnTransformer.categorical_columns].
  destruct (select_cases df numerical_columns) as [Hn|Hn]; rewrite Hn; [|done].
  cbn [mbind result_bind]. apply elem_of_app in Hc as [Hc|Hc].
  - by rewrite (select_absent _ _ c Hc Hnone) in Hn.
  - by rewrite (select_absent _ _ c Hc Hnone).
Qed.

Lemma ct_transform_absent (p : num_params F) (q : cat_params F) (s : bool)
    (df : gmap string (Column F)) (c : string) :
  c ∈ numerical_columns ++ categorical_columns → df !! c = None →
  ColumnTransformer.transform (fitted_preprocessor p q s) df
    = Raise (ValueError not_a_column).
Proof.
  intros Hc Hnone. unfold ColumnTransformer.transform.
  cbn [fitted_preprocessor ColumnTransformer.fitted_ ColumnTransformer.numerical_columns
       ColumnTransformer.categorical_columns].
  destruct (select_cases df numerical_columns) as [Hn|Hn]; rewrite Hn; [|done].
  cbn [mbind result_bind]. apply elem_of_app in Hc as [Hc|Hc].
  - by rewrite (select_absent _ _ c Hc Hnone) in Hn.
  - by rewrite (select_absent _ _ c Hc Hnone).
Qed.

Lemma fitted_shape (df : gmap string (Column F)) (pre : preprocessor F) (X : features F) :
  ColumnTransformer.fit_transform new_preprocessor df = Ok (pre, X) →
  ∃ p q s, pre = fitted_preprocessor p q s.
Proof.
  intros Hfit. apply ct_fit_transform_inv in Hfit as (p & q & A & B & _ & _ & _ & _ & -> & _).
  by eexists _, _, _.
Qed.

(** A column without rows. *)
Lemma column_length_0 (c : Column F) :
  column_length c = 0 → c = NumCol [] ∨ c = ObjCol [].
Proof. destruct c as [[|x xs]|[|x xs]]; simpl; intros Hc; try done; auto. Qed.

Lemma column_of_length (n : nat) (df : gmap string (Column F)) (c : string) :
  has_rows n df → is_Some (df !! c) → column_length (column_of df c) = n.
Proof.
  intros Hn [col Hcol]. unfold column_of. rewrite Hcol. simpl.
  exact (map_Forall_lookup_1 _ _ _ _ Hn Hcol).
Qed.

(** The median imputer, which runs first, refuses columns without rows. *)
Lemma num_fit_no_rows (df : gmap string (Column F)) :
  has_rows 0 df → has_features df →
  fit_transform num_pipeline (column_of df <$> numerical_columns)
    = Raise (ValueError no_samples).
Proof.
  intros Hn Hdf. unfold numerical_columns. rewrite !fmap_cons, fmap_nil.
  destruct (column_length_0 (column_of df "writing_score")) as [-> | ->];
    [apply (column_of_length 0); [done | apply Hdf; repeat constructor]|..];
    (destruct (column_length_0 (column_of df "reading_score")) as [-> | ->];
      [apply (column_of_length 0); [done | apply Hdf; repeat constructor]|..]);
    reflexivity.
Qed.

Lemma num_transform_no_rows (p : num_params F) (df : gmap string (Column F)) :
  has_rows 0 df → has_features df →
  transform num_pipeline p (column_of df <$> numerical_columns)
    = Raise (ValueError no_samples).
Proof.
  intros Hn Hdf. unfold numerical_columns. rewrite !fmap_cons, fmap_nil.
  destruct (column_length_0 (column_of df "writing_score")) as [-> | ->];
    [apply (column_of_length 0); [done | apply Hdf; repeat constructor]|..];
    (destruct (column_length_0 (column_of df "reading_score")) as [-> | ->];
      [apply (column_of_length 0); [done | apply Hdf; repeat constructor]|..]);
    reflexivity.
Qed.

(** With no observed value in either numeric column the imputer discards
    both, and the scaler that follows it has nothing to fit. *)
Lemma num_fit_no_observation (n : nat) (a b : list (option F)) :
  0 < n → length a = n → length b = n → observed a = [] → observed b = [] →
  fit_transform num_pipeline [NumCol a; NumCol b] = Raise (ValueError no_features).
Proof.
  intros Hpos Ha Hb Hoa Hob.
  unfold fit_transform, num_pipeline, Pipeline. cbn [fit transform].
  unfold fit_transform. cbn [SimpleImputer.median fit transform mapR SimpleImputer.as_float
    mbind result_bind].
  unfold SimpleImputer.fit_cols.
  assert (check_array [a; b] = Ok ()) as Hchk.
  { apply (check_array_cols_len n); [done | by repeat constructor | done]. }
  rewrite Hchk. cbn [mbind result_bind].
  rewrite transform_cols_Ok by (by rewrite ?length_fmap).
  rewrite !fmap_cons, fmap_nil. unfold SimpleImputer.statistic. rewrite Hoa, Hob.
  reflexivity.
Qed.

(** X1. When the training file holds no table the call raises the wrapped
    read error of line 76, whatever the test file holds; when only the test
    file holds none, that of line 77.  Nothing is written. *)
Theorem missing_file_raises (train_path test_path : string) (w : world F) :
  csv_files w !! train_path = None ∨ csv_files w !! test_path = None →
  (csv_files w !! train_path = None ∧
   initiate_data_transformation train_path test_path w
     = (Raise (CustomException (FileNotFoundError train_path) 76), w))
  ∨ (is_Some (csv_files w !! train_path) ∧
     initiate_data_transformation train_path test_path w
       = (Raise (CustomException (FileNotFoundError test_path) 77), w)).
Proof.
  intros Hmiss. destruct (csv_files w !! train_path) as [train|] eqn:Htrain.
  - right. split; [by eexists|]. destruct Hmiss as [|Htest]; [done|].
    apply failure_run. by eapply fail_read_test.
  - left. split; [done|]. apply failure_run. by apply fail_read_train.
Qed.

(** X2. When both files are read and the training table has no [math_score]
    column, the call raises the wrapped [KeyError] of line 88, before the
    test table is looked at; when only the test table lacks the column, that
    of line 91.  No fit is attempted and nothing is written. *)
Theorem missing_target_raises
    (train_path test_path : string) (w : world F) (train test : gmap string (Column F)) :
  csv_files w !! train_path = Some train → csv_files w !! test_path = Some test →
  train !! "math_score" = None ∨ test !! "math_score" = None →
  (train !! "math_score" = None ∧
   initiate_data_transformation train_path test_path w
     = (Raise (CustomException (KeyError "math_score") 88), w))
  ∨ (is_Some (train !! "math_score") ∧
     initiate_data_transformation train_path test_path w
       = (Raise (CustomException (KeyError "math_score") 91), w)).
Proof.
  intros Htrain Htest Hmiss. destruct (train !! "math_score") as [ytr|] eqn:Hytr.
  - right. split; [by eexists|]. destruct Hmiss as [|Hyte]; [done|].
    apply failure_run. by eapply fail_target_test.
  - left. split; [done|]. apply failure_run. by eapply fail_target_train.
Qed.

(** X3. When the training table lacks one of the seven feature columns the
    fit on line 96 fails in the column selection of the transformer, and the
    call raises that error wrapped. *)
Theorem missing_training_feature_raises
    (train_path test_path : string) (w : world F) (train test : gmap string (Column F))
    (c : string) :
  csv_files w !! train_path = Some train → csv_files w !! test_path = Some test →
  is_Some (train !! "math_score") → is_Some (test !! "math_score") →
  c ∈ numerical_columns ++ categorical_columns → train !! c = None →
  initiate_data_transformation train_path test_path w
    = (Raise (CustomException
               (ValueError "A given column is not a column of the dataframe") 96), w).
Proof.
  intros Htrain Htest [ytr Hytr] [yte Hyte] Hc Hnone.
  apply failure_run. eapply fail_fit; try done.
  apply (ct_fit_transform_absent _ c); [done|].
  rewrite lookup_delete_ne; [done|]. intros <-. by apply (schema_not_target target_column_name).
Qed.

(** X4. When the fit on the training features has succeeded and the test
    table lacks one of the seven feature columns, the transform on line 97
    fails with a [ValueError] and the call raises it wrapped; the fitted
    object is not saved. *)
Theorem missing_test_feature_raises
    (train_path test_path : string) (w : world F) (train test : gmap string (Column F))
    (pre : preprocessor F) (Xtr : features F) (c : string) :
  csv_files w !! train_path = Some train → csv_files w !! test_path = Some test →
  is_Some (train !! "math_score") → is_Some (test !! "math_score") →
  ColumnTransformer.fit_transform new_preprocessor (delete "math_score" train)
    = Ok (pre, Xtr) →
  c ∈ numerical_columns ++ categorical_columns → test !! c = None →
  ∃ msg, initiate_data_transformation train_path test_path w
         = (Raise (CustomException (ValueError msg) 97), w).
Proof.
  intros Htrain Htest [ytr Hytr] [yte Hyte] Hfit Hc Hnone.
  exists not_a_column. apply failure_run. eapply fail_transform; try done.
  destruct (fitted_shape _ _ _ Hfit) as (p & q & s & ->).
  apply (ct_transform_absent _ _ _ _ c); [done|].
  rewrite lookup_delete_ne; [done|]. intros <-. by apply (schema_not_target target_column_name).
Qed.

(** X5. A training table with the columns of the schema but no rows cannot
    be fitted: the imputer of the numeric branch refuses it on line 96 and
    the call raises that error wrapped. *)
Theorem empty_training_table_raises
    (train_path test_path : string) (w : world F) (train test : gmap string (Column F)) :
  csv_files w !! train_path = Some train → csv_files w !! test_path = Some test →
  has_rows 0 train → has_features train →
  is_Some (train !! "math_score") → is_Some (test !! "math_score") →
  initiate_data_transformation train_path test_path w
    = (Raise (CustomException (ValueError "Found array with 0 sample(s)") 96), w).
Proof.
  intros Htrain Htest Hn Hdf [ytr Hytr] [yte Hyte].
  apply failure_run. eapply fail_fit; try done.
  apply has_features_delete in Hdf. apply (has_rows_delete _ _ target_column_name) in Hn.
  destruct (has_features_select _ Hdf) as [Hsn Hsc].
  unfold ColumnTransformer.fit_transform.
  cbn [new_preprocessor ColumnTransformer.numerical_columns
       ColumnTransformer.categorical_columns ColumnTransformer.num_pipeline].
  rewrite Hsn, Hsc. cbn [mbind result_bind]. by rewrite num_fit_no_rows.
Qed.

(** X6. When the fit on the training features has succeeded and the test
    table has the columns of the schema but no rows, the transform on line 97
    refuses it and the call raises that error wrapped; the fitted object is
    not saved. *)
Theorem empty_test_table_raises
    (train_path test_path : string) (w : world F) (train test : gmap string (Column F))
    (pre : preprocessor F) (Xtr : features F) :
  csv_files w !! train_path = Some train → csv_files w !! test_path = Some test →
  is_Some (train !! "math_score") → is_Some (test !! "math_score") →
  ColumnTransformer.fit_transform new_preprocessor (delete "math_score" train)
    = Ok (pre, Xtr) →
  has_rows 0 test → has_features test →
  initiate_data_transformation train_path test_path w
    = (Raise (CustomException (ValueError "Found array with 0 sample(s)") 97), w).
Proof.
  intros Htrain Htest [ytr Hytr] [yte Hyte] Hfit Hm Hdf.
  apply failure_run. eapply fail_transform; try done.
  destruct (fitted_shape _ _ _ Hfit) as (p & q & s & ->).
  apply has_features_delete in Hdf. apply (has_rows_delete _ _ target_column_name) in Hm.
  destruct (has_features_select _ Hdf) as [Hsn Hsc].
  unfold ColumnTransformer.transform.
  cbn [fitted_preprocessor ColumnTransformer.fitted_ ColumnTransformer.numerical_columns
       ColumnTransformer.categorical_columns ColumnTransformer.num_pipeline].
  rewrite Hsn, Hsc. cbn [mbind result_bind]. by rewrite num_transform_no_rows.
Qed.

(** X7. When neither [writing_score] nor [reading_score] has an observed
    value in a training table that conforms to the schema and has rows, the
    median imputer discards both columns, the scaler of the numeric branch is
    left without a feature, and the call raises that error of line 96
    wrapped. *)
Theorem unobserved_scores_raise
    (train_path test_path : string) (w : world F) (n : nat)
    (train test : gmap string (Column F)) :
  csv_files w !! train_path = Some train → csv_files w !! test_path = Some test →
  0 < n → has_rows n train → conforms train → is_Some (test !! "math_score") →
  (∀ c, c ∈ numerical_columns → ¬ has_observation (column_of train c)) →
  initiate_data_transformation train_path test_path w
    = (Raise (CustomException (ValueError "Found array with 0 feature(s)") 96), w).
Proof.
  intros Htrain Htest Hpos Hn Hconf [yte Hyte] Hnone.
  pose proof Hconf as (Hnum & _ & [ytr Hytr]).
  apply failure_run. eapply fail_fit; try done.
  pose proof (has_rows_delete n train target_column_name Hn) as Hn'.
  destruct (conforms_numeric train Hconf) as (Xf & HeqXf & HselXf & HlenXf).
  pose proof (conforms_categorical train Hconf) as HselXc.
  unfold ColumnTransformer.fit_transform.
  cbn [new_preprocessor ColumnTransformer.numerical_columns
       ColumnTransformer.categorical_columns ColumnTransformer.num_pipeline].
  rewrite HselXf, HselXc. cbn [mbind result_bind].
  assert (cols_len n Xf) as HnXf.
  { apply frame_cols_len_NumCol. by eapply select_cols_len. }
  assert (Forall (λ t, observed t = []) Xf) as Hobs.
  { assert (Forall (λ c, ¬ has_observation c) (NumCol <$> Xf)) as Hall.
    { rewrite <- HeqXf. apply Forall_column_of_delete.
      - intros c Hc. apply schema_not_target, elem_of_app. by left.
      - done. }
    rewrite Forall_fmap in Hall. eapply Forall_impl; [exact Hall|].
    intros xs Hxs. simpl in Hxs. rewrite has_observation_NumCol in Hxs.
    by destruct (observed xs); [|destruct Hxs]. }
  destruct Xf as [|a [|b [|? ?]]]; try done.
  apply Forall_cons in HnXf as [Ha HnXf]. apply Forall_cons in HnXf as [Hb _].
  apply Forall_cons in Hobs as [Hoa Hobs]. apply Forall_cons in Hobs as [Hob _].
  rewrite !fmap_cons, fmap_nil.
  by rewrite (num_fit_no_observation n a b Hpos Ha Hb Hoa Hob).
Qed.

End Rejected.

(** ** The kind of error the transformer raises *)






Section ErrorKinds.
Context `{Numeric F}.












End ErrorKinds.

(** ** What a call reads of its tables *)

Section Reads.
Context `{Numeric F}.

Lemma select_agree (cols : list string) (df1 df2 : gmap string (Column F)) :
  agree_on cols df1 df2 →
  ColumnTransformer.select df1 cols = ColumnTransformer.select df2 cols.
Proof.
  intros Hag. unfold ColumnTransformer.select.
  induction cols as [|c cols IH]; [done|]. cbn [mapR].
  rewrite (Hag c) by (by left). rewrite IH; [done|].
  intros c' Hc'. apply Hag. by right.
Qed.

Lemma agree_on_delete (cols : list string) (df1 df2 : gmap string (Column F)) (t : string) :
  agree_on cols df1 df2 → agree_on cols (delete t df1) (delete t df2).
Proof.
  intros Hag c Hc. destruct (decide (c = t)) as [->|Hne].
  - by rewrite !lookup_delete_eq.
  - rewrite !lookup_delete_ne by done. by apply Hag.
Qed.

Lemma agree_on_app_l (cols cols' : list string) (df1 df2 : gmap string (Column F)) :
  agree_on (cols ++ cols') df1 df2 → agree_on cols df1 df2.
Proof. intros Hag c Hc. apply Hag, elem_of_app. by left. Qed.

Lemma agree_on_app_r (cols cols' : list string) (df1 df2 : gmap string (Column F)) :
  agree_on (cols ++ cols') df1 df2 → agree_on cols' df1 df2.
Proof. intros Hag c Hc. apply Hag, elem_of_app. by right. Qed.

(** The fit reads the seven feature columns and nothing else. *)
Lemma ct_fit_transform_agree (df1 df2 : gmap string (Column F)) :
  agree_on (numerical_columns ++ categorical_columns) df1 df2 →
  ColumnTransformer.fit_transform new_preprocessor df1
  = ColumnTransformer.fit_transform new_preprocessor df2.
Proof.
  intros Hag. unfold ColumnTransformer.fit_transform.
  cbn [new_preprocessor ColumnTransformer.numerical_columns
       ColumnTransformer.categorical_columns].
  rewrite (select_agree numerical_columns df1 df2) by (by eapply agree_on_app_l).
  by rewrite (select_agree categorical_columns df1 df2) by (by eapply agree_on_app_r).
Qed.

(** So does the transform. *)
Lemma ct_transform_agree (pre : preprocessor F) (df1 df2 : gmap string (Column F)) :
  agree_on (ColumnTransformer.numerical_columns pre
            ++ ColumnTransformer.categorical_columns pre) df1 df2 →
  ColumnTransformer.transform pre df1 = ColumnTransformer.transform pre df2.
Proof.
  intros Hag. unfold ColumnTransformer.transform.
  destruct (ColumnTransformer.fitted_ pre) as [[[p q] s]|]; [|done].
  rewrite (select_agree (ColumnTransformer.numerical_columns pre) df1 df2)
    by (by eapply agree_on_app_l).
  by rewrite (select_agree (ColumnTransformer.categorical_columns pre) df1 df2)
    by (by eapply agree_on_app_r).
Qed.

Lemma fitted_columns (df : gmap string (Column F)) (pre : preprocessor F) (X : features F) :
  ColumnTransformer.fit_transform new_preprocessor df = Ok (pre, X) →
  ColumnTransformer.numerical_columns pre = numerical_columns ∧
  ColumnTransformer.categorical_columns pre = categorical_columns.
Proof. intros Hfit. by destruct (fitted_shape _ _ _ Hfit) as (p & q & s & ->). Qed.

(** X9. The outcome of a call is fixed by the eight columns of the schema:
    columns beyond them are dropped by the transformer and never read.  Two
    calls whose tables hold the same data in those eight columns return the
    same triple or raise the same exception, and after a return the same
    fitted object is stored. *)
Theorem other_columns_ignored
    (train_path1 test_path1 train_path2 test_path2 : string) (w1 w2 : world F)
    (train1 test1 train2 test2 : gmap string (Column F)) :
  csv_files w1 !! train_path1 = Some train1 → csv_files w1 !! test_path1 = Some test1 →
  csv_files w2 !! train_path2 = Some train2 → csv_files w2 !! test_path2 = Some test2 →
  agree_on (numerical_columns ++ categorical_columns ++ ["math_score"]) train1 train2 →
  agree_on (numerical_columns ++ categorical_columns ++ ["math_score"]) test1 test2 →
  read_only w1 = read_only w2 →
  (initiate_data_transformation train_path1 test_path1 w1).1
  = (initiate_data_transformation train_path2 test_path2 w2).1 ∧
  (is_Ok (initiate_data_transformation train_path1 test_path1 w1).1 = true →
   artifacts (initiate_data_transformation train_path1 test_path1 w1).2
     !! "artifacts/preprocessor.pkl"
   = artifacts (initiate_data_transformation train_path2 test_path2 w2).2
       !! "artifacts/preprocessor.pkl").
Proof.
  intros Htrain1 Htest1 Htrain2 Htest2 Htr Hte Hro.
  assert (agree_on (numerical_columns ++ categorical_columns) train1 train2) as Hftr.
  { intros c Hc. apply Htr. rewrite app_assoc. apply elem_of_app. by left. }
  assert (agree_on (numerical_columns ++ categorical_columns) test1 test2) as Hfte.
  { intros c Hc. apply Hte. rewrite app_assoc. apply elem_of_app. by left. }
  assert (train1 !! target_column_name = train2 !! target_column_name) as Hytr.
  { apply Htr. rewrite app_assoc. apply elem_of_app. right. by left. }
  assert (test1 !! target_column_name = test2 !! target_column_name) as Hyte.
  { apply Hte. rewrite app_assoc. apply elem_of_app. right. by left. }
  pose proof (ct_fit_transform_agree _ _ (agree_on_delete _ _ _ target_column_name Hftr))
    as Hfit.
  unfold initiate_data_transformation, try_except, mbind, body_mbind, body_bind,
    call_pure, call, read_csv, mret, body_mret, body_ret.
  rewrite Htrain1, Htest1, Htrain2, Htest2, !get_data_transformer_object_eq.
  unfold pd.drop, pd.getitem. rewrite <- Hytr, <- Hyte.
  destruct (train1 !! target_column_name) as [ytr|]; [|done].
  destruct (test1 !! target_column_name) as [yte|]; [|done].
  rewrite <- Hfit.
  destruct (ColumnTransformer.fit_transform new_preprocessor _) as [[pre Xtr]|e] eqn:Hfit1;
    [|done].
  destruct (fitted_columns _ _ _ Hfit1) as [Hnc Hcc].
  rewrite <- (ct_transform_agree pre (delete target_column_name test1)
                (delete target_column_name test2))
    by (rewrite Hnc, Hcc; by apply agree_on_delete).
  destruct (ColumnTransformer.transform pre _) as [Xte|e]; [|done].
  destruct (np.c_ Xtr _) as [train_arr|e]; [|done].
  destruct (np.c_ Xte _) as [test_arr|e]; [|done].
  unfold save_object. rewrite <- Hro.
  destruct (decide _) as [Hin|Hnot]; [done|]. cbn [fst snd artifacts].
  split; [done|]. intros _. by rewrite !lookup_insert_eq.
Qed.

(** X10. The target is not a feature: the fit and both transforms read the
    seven feature columns only.  Two calls that return, on tables that hold
    the same data in those seven columns, store the same fitted object and
    append their own [math_score] values to the same two feature matrices. *)
Theorem target_is_not_a_feature
    (train_path1 test_path1 train_path2 test_path2 : string) (w1 w2 w1' w2' : world F)
    (train1 test1 train2 test2 : gmap string (Column F))
    (r1 r2 : ndarray F * ndarray F * string) :
  csv_files w1 !! train_path1 = Some train1 → csv_files w1 !! test_path1 = Some test1 →
  csv_files w2 !! train_path2 = Some train2 → csv_files w2 !! test_path2 = Some test2 →
  agree_on (numerical_columns ++ categorical_columns) train1 train2 →
  agree_on (numerical_columns ++ categorical_columns) test1 test2 →
  initiate_data_transformation train_path1 test_path1 w1 = (Ok r1, w1') →
  initiate_data_transformation train_path2 test_path2 w2 = (Ok r2, w2') →
  artifacts w1' !! "artifacts/preprocessor.pkl"
    = artifacts w2' !! "artifacts/preprocessor.pkl" ∧
  ∃ Xtr Xte ytr1 ytr2 yte1 yte2,
    train1 !! "math_score" = Some ytr1 ∧ train2 !! "math_score" = Some ytr2 ∧
    test1 !! "math_score" = Some yte1 ∧ test2 !! "math_score" = Some yte2 ∧
    np.c_ Xtr (np.array ytr1) = Ok r1.1.1 ∧ np.c_ Xtr (np.array ytr2) = Ok r2.1.1 ∧
    np.c_ Xte (np.array yte1) = Ok r1.1.2 ∧ np.c_ Xte (np.array yte2) = Ok r2.1.2.
Proof.
  intros Htrain1 Htest1 Htrain2 Htest2 Hftr Hfte Hrun1 Hrun2.
  apply initiate_data_transformation_Ok in Hrun1
    as [train1' test1' ytr1 yte1 pre1 Xtr1 Xte1 Htrain1' Htest1' Hytr1 Hyte1 Hfit1 Htr1
        Hc1 Hc1' _ _ ->].
  apply initiate_data_transformation_Ok in Hrun2
    as [train2' test2' ytr2 yte2 pre2 Xtr2 Xte2 Htrain2' Htest2' Hytr2 Hyte2 Hfit2 Htr2
        Hc2 Hc2' _ _ ->].
  rewrite Htrain1 in Htrain1'. injection Htrain1' as <-.
  rewrite Htest1 in Htest1'. injection Htest1' as <-.
  rewrite Htrain2 in Htrain2'. injection Htrain2' as <-.
  rewrite Htest2 in Htest2'. injection Htest2' as <-.
  rewrite (ct_fit_transform_agree _ _ (agree_on_delete _ _ _ target_column_name Hftr))
    in Hfit1.
  rewrite Hfit1 in Hfit2. injection Hfit2 as <- <-.
  destruct (fitted_columns _ _ _ Hfit1) as [Hnc Hcc].
  rewrite (ct_transform_agree pre1 (delete target_column_name test1)
             (delete target_column_name test2)) in Htr1
    by (rewrite Hnc, Hcc; by apply agree_on_delete).
  rewrite Htr1 in Htr2. injection Htr2 as <-.
  split; [by rewrite <- artifact_path_eq, !saved_artifact|].
  by exists Xtr1, Xte1, ytr1, ytr2, yte1, yte2.
Qed.

End Reads.

(** ** The layout of the returned matrices *)

Section Layout.
Context `{Numeric F}.

Lemma rows_of_fold_lookup (n i : nat) (cols : list (list F)) :
  cols_len n cols → i < n →
  foldr (zip_with cons) (replicate n []) cols !! i = mapM (λ col, col !! i) cols.
Proof.
  intros Hn Hi. induction Hn as [|c cols Hc _ IH].
  - simpl. by rewrite lookup_replicate_2.
  - cbn [foldr]. rewrite lookup_zip_with, IH. cbn [mapM].
    destruct (c !! i) as [x|]; [|done]. simpl.
    by destruct (mapM (λ col, col !! i) cols).
Qed.

Lemma rows_of_lookup (n i : nat) (cols : list (list F)) (row : list F) :
  cols_len n cols → cols ≠ [] → i < n →
  Forall2 (λ col x, col !! i = Some x) cols row →
  ColumnTransformer.rows_of cols !! i = Some row.
Proof.
  intros Hn Hne Hi Hrow. unfold ColumnTransformer.rows_of.
  destruct cols as [|c cols]; [done|].
  assert (length c = n) as -> by (by apply Forall_cons in Hn as [? _]).
  rewrite rows_of_fold_lookup by done. by apply mapM_Some_2.
Qed.

Lemma Forall2_concat_blocks {A B} (P : A → B → Prop) (ls : list (list A)) (ks : list (list B)) :
  Forall2 (Forall2 P) ls ks → Forall2 P (concat ls) (concat ks).
Proof. induction 1; simpl; [constructor | by apply Forall2_app]. Qed.

Lemma entry_lookup {A} (col : list (option A)) (i : nat) :
  i < length col → col !! i = Some (entry col i).
Proof.
  intros Hi. unfold entry. destruct (col !! i) as [x|] eqn:Hx; [done|].
  apply lookup_ge_None in Hx. lia.
Qed.

Lemma fmap_entry_lookup {A B} (g : option A → B) (col : list (option A)) (i : nat) :
  i < length col → (g <$> col) !! i = Some (g (entry col i)).
Proof. intros Hi. by rewrite list_lookup_fmap, (entry_lookup col i Hi). Qed.

Lemma num_cells_NumCol (Xf : list (list (option F))) : num_cells <$> (NumCol <$> Xf) = Xf.
Proof. induction Xf as [|c Xf IH]; [done|]. by rewrite !fmap_cons, IH. Qed.

Lemma num_cells_length (c : Column F) : length (num_cells c) = column_length c.
Proof. destruct c; simpl; by rewrite ?length_fmap. Qed.

Lemma zip_with_fmap_same {A B C D} (f : B → C → D) (g : A → B) (h : A → C) (l : list A) :
  zip_with f (g <$> l) (h <$> l) = (λ x, f (g x) (h x)) <$> l.
Proof. induction l as [|x l IH]; [done|]. by rewrite !fmap_cons, <- IH. Qed.

(** The numeric columns of a conforming table, as the transformer selects
    them. *)
Lemma conforms_num_cells (df : gmap string (Column F)) :
  conforms df →
  column_of (delete target_column_name df) <$> numerical_columns
  = NumCol <$> (num_cells <$> (column_of df <$> numerical_columns)).
Proof.
  intros Hconf. destruct (conforms_numeric df Hconf) as (Xf & HeqXf & _ & _).
  rewrite HeqXf. f_equal.
  assert (column_of (delete target_column_name df) <$> numerical_columns
          = column_of df <$> numerical_columns) as Hdel.
  { apply list_fmap_ext. intros _ c Hc%list_elem_of_lookup_2.
    apply column_of_delete. apply schema_not_target, elem_of_app. by left. }
  by rewrite <- Hdel, HeqXf, num_cells_NumCol.
Qed.

Lemma categorical_delete (df : gmap string (Column F)) :
  column_of (delete target_column_name df) <$> categorical_columns
  = column_of df <$> categorical_columns.
Proof.
  apply list_fmap_ext. intros _ c Hc%list_elem_of_lookup_2.
  apply column_of_delete. apply schema_not_target, elem_of_app. by right.
Qed.

Lemma schema_column_length (n : nat) (df : gmap string (Column F)) (c : string) :
  has_rows n df → conforms df → c ∈ numerical_columns ++ categorical_columns →
  column_length (column_of df c) = n.
Proof.
  intros Hn (Hnum & Hcat & _) Hc. apply column_of_length; [done|].
  apply elem_of_app in Hc as [Hc|Hc]; [|by apply Hcat].
  destruct (Hnum c Hc) as [xs Hxs]. by eexists.
Qed.

Lemma numeric_block_shape (n : nat) (train df : gmap string (Column F)) :
  has_rows n df → conforms df →
  cols_len n (numeric_block train df) ∧ length (numeric_block train df) = 2.
Proof.
  intros Hn Hconf. split; [|done]. unfold numeric_block.
  apply Forall_fmap, Forall_forall. intros c Hc. simpl.
  rewrite length_fmap, num_cells_length.
  apply (schema_column_length n); [done..|]. apply elem_of_app. by left.
Qed.

Lemma encoded_block_cols_len (n : nat) (t c : list (option (scalar F))) :
  length c = n → cols_len n (encoded_block t c).
Proof.
  intros Hc. unfold encoded_block. apply Forall_fmap, Forall_forall.
  intros cat _. simpl. by rewrite length_fmap.
Qed.

Lemma categorical_block_shape (n : nat) (train df : gmap string (Column F)) :
  has_rows n df → conforms df → cols_len n (categorical_block train df).
Proof.
  intros Hn Hconf. unfold categorical_block, cols_len.
  apply Forall_concat, Forall_fmap, Forall_forall. intros c Hc. simpl.
  apply encoded_block_cols_len. rewrite column_cells_length.
  apply (schema_column_length n); [done..|]. apply elem_of_app. by right.
Qed.

(** Row [i] of the two blocks side by side is [feature_row]. *)
Lemma blocks_row (n i : nat) (train df : gmap string (Column F)) :
  has_rows n df → conforms df → i < n →
  ColumnTransformer.rows_of (numeric_block train df ++ categorical_block train df) !! i
  = Some (feature_row train df i).
Proof.
  intros Hn Hconf Hi.
  destruct (numeric_block_shape n train df Hn Hconf) as [Hnb Hlen].
  pose proof (categorical_block_shape n train df Hn Hconf) as Hcb.
  apply (rows_of_lookup n); [by apply Forall_app | | done |].
  { intros Hnil. apply (f_equal length) in Hnil. rewrite length_app, Hlen in Hnil.
    simpl in Hnil. lia. }
  unfold feature_row. apply Forall2_app.
  - unfold numeric_block. apply Forall2_fmap, Forall_Forall2_diag, Forall_forall.
    intros c Hc. simpl. apply fmap_entry_lookup.
    rewrite num_cells_length, (schema_column_length n); [done..|].
    apply elem_of_app. by left.
  - unfold categorical_block. apply Forall2_concat_blocks.
    apply Forall2_fmap, Forall_Forall2_diag, Forall_forall. intros c Hc. simpl.
    unfold encoded_block. apply Forall2_fmap, Forall_Forall2_diag, Forall_forall.
    intros cat _. simpl. apply fmap_entry_lookup.
    rewrite column_cells_length, (schema_column_length n); [done..|].
    apply elem_of_app. by right.
Qed.

Lemma fully_observed_numeric (train : gmap string (Column F)) :
  conforms train → fully_observed train →
  Forall (λ t, observed t ≠ []) (num_cells <$> (column_of train <$> numerical_columns)).
Proof.
  intros (Hnum & _ & _) Hobs. apply Forall_fmap, Forall_fmap, Forall_forall.
  intros c Hc. simpl.
  assert (has_observation (column_of train c)) as Hc'
    by (apply Hobs, elem_of_app; by left).
  destruct (Hnum c Hc) as [xs Hxs]. unfold column_of in *. rewrite Hxs in *.
  simpl in *. by apply has_observation_NumCol.
Qed.

Lemma fully_observed_categorical (train : gmap string (Column F)) :
  fully_observed train →
  Forall has_observation (column_of (delete target_column_name train) <$> categorical_columns).
Proof.
  intros Hobs. apply Forall_column_of_delete.
  - intros c Hc. apply schema_not_target, elem_of_app. by right.
  - intros c Hc. apply Hobs, elem_of_app. by right.
Qed.

(** What the two fitted branches return for a conforming table whose
    categories were all seen in training. *)
Lemma branch_outcomes (m : nat) (train test : gmap string (Column F))
    (p : num_params F) (q : cat_params F) :
  fit num_pipeline (column_of (delete target_column_name train) <$> numerical_columns)
    = Ok p →
  fit cat_pipeline (column_of (delete target_column_name train) <$> categorical_columns)
    = Ok q →
  conforms train → conforms test → fully_observed train → categories_seen train test →
  has_rows m test → 0 < m →
  transform num_pipeline p
    (column_of (delete target_column_name test) <$> numerical_columns)
    = Ok (Dense (numeric_block train test)) ∧
  ∃ B, transform cat_pipeline q
         (column_of (delete target_column_name test) <$> categorical_columns) = Ok B ∧
       StandardScaler.to_dense B = categorical_block train test.
Proof.
  intros Hp Hq Hctrain Hctest Hobs Hseen Hm Hpos.
  pose proof (has_rows_delete m test target_column_name Hm) as Hm'.
  rewrite (conforms_num_cells train Hctrain) in Hp.
  rewrite (conforms_num_cells test Hctest).
  destruct (conforms_numeric test Hctest) as (Xf' & HeqXf' & HselXf' & _).
  pose proof (conforms_categorical test Hctest) as HselXc'.
  split.
  - destruct (num_pipeline_entries _ (num_cells <$> (column_of test <$> numerical_columns))
                p Hp (fully_observed_numeric train Hctrain Hobs)) as [_ Hnum].
    + by rewrite !length_fmap.
    + apply (check_array_cols_len m); [done | | done].
      apply frame_cols_len_NumCol. rewrite <- (conforms_num_cells test Hctest), HeqXf'.
      by eapply select_cols_len.
    + rewrite Hnum. unfold numeric_block.
      by rewrite <- !list_fmap_compose, zip_with_fmap_same.
  - destruct (cat_pipeline_entries _
                (column_of (delete target_column_name test) <$> categorical_columns)
                q Hq (fully_observed_categorical train Hobs)) as (_ & _ & _ & B & HB & Hd).
    + apply (check_array_cols_len m); [done | | done].
      apply column_cells_cols_len. by eapply select_cols_len.
    + apply Forall2_fmap, Forall_Forall2_diag, Forall_forall. intros c Hc v Hv.
      assert (c ≠ target_column_name) as Hne
        by (apply schema_not_target, elem_of_app; by right).
      rewrite column_of_delete in Hv |- * by done. by apply Hseen.
    + exists B. split; [done|]. rewrite Hd, !categorical_delete.
      unfold categorical_block.
      by rewrite <- !list_fmap_compose, zip_with_fmap_same.
Qed.

Lemma hstack_rows (s : bool) (A B : array F) :
  ColumnTransformer.hstack s [A; B]
  = (if s then CsrMatrix else NdArray)
      (ColumnTransformer.rows_of (StandardScaler.to_dense A ++ StandardScaler.to_dense B)).
Proof.
  unfold ColumnTransformer.hstack. rewrite !fmap_cons, fmap_nil. cbn [concat].
  rewrite app_nil_r. by destruct s.
Qed.

(** The transform of a conforming table by the preprocessor fitted on
    [train]. *)
Lemma transform_outcome (m : nat) (train test : gmap string (Column F))
    (p : num_params F) (q : cat_params F) (s : bool) :
  fit num_pipeline (column_of (delete target_column_name train) <$> numerical_columns)
    = Ok p →
  fit cat_pipeline (column_of (delete target_column_name train) <$> categorical_columns)
    = Ok q →
  conforms train → conforms test → fully_observed train → categories_seen train test →
  has_rows m test → 0 < m →
  ColumnTransformer.transform (fitted_preprocessor p q s) (delete target_column_name test)
  = Ok ((if s then CsrMatrix else NdArray)
          (ColumnTransformer.rows_of (numeric_block train test ++ categorical_block train test))).
Proof.
  intros Hp Hq Hctrain Hctest Hobs Hseen Hm Hpos.
  destruct (branch_outcomes m train test p q Hp Hq Hctrain Hctest Hobs Hseen Hm Hpos)
    as (Hnum & B & Hcat & HB).
  destruct (conforms_numeric test Hctest) as (Xf' & HeqXf' & HselXf' & _).
  pose proof (conforms_categorical test Hctest) as HselXc'.
  rewrite <- HeqXf' in HselXf'.
  assert (ColumnTransformer.transform (fitted_preprocessor p q s)
            (delete target_column_name test)
          = Ok (ColumnTransformer.hstack s [Dense (numeric_block train test); B])) as ->.
  { apply ct_transform_inv. by exists (Dense (numeric_block train test)), B. }
  rewrite hstack_rows. cbn [StandardScaler.to_dense]. by rewrite HB.
Qed.

Lemma categories_seen_refl (train : gmap string (Column F)) : categories_seen train train.
Proof. by intros c v _ Hv. Qed.

Lemma fully_observed_kept (train : gmap string (Column F)) :
  conforms train → fully_observed train →
  numeric_kept (delete target_column_name train) = 2 ∧
  categorical_kept (delete target_column_name train) = 5.
Proof.
  intros Hconf Hobs. split.
  - unfold numeric_kept. rewrite filter_all; [done|].
    apply Forall_column_of_delete.
    + intros c Hc. apply schema_not_target, elem_of_app. by left.
    + intros c Hc. apply Hobs, elem_of_app. by left.
  - unfold categorical_kept. rewrite filter_all; [done|].
    by apply fully_observed_categorical.
Qed.

(** The fit on a conforming, fully observed training table with rows. *)
Lemma fit_outcome (n : nat) (train : gmap string (Column F)) :
  0 < n → has_rows n train → conforms train → fully_observed train →
  ∃ p q,
    fit num_pipeline (column_of (delete target_column_name train) <$> numerical_columns)
      = Ok p ∧
    fit cat_pipeline (column_of (delete target_column_name train) <$> categorical_columns)
      = Ok q ∧
    ColumnTransformer.fit_transform new_preprocessor (delete target_column_name train)
    = Ok (fitted_preprocessor p q (sparse_for n (distinct_total train)),
          (if sparse_for n (distinct_total train) then CsrMatrix else NdArray)
            (ColumnTransformer.rows_of
               (numeric_block train train ++ categorical_block train train))).
Proof.
  intros Hpos Hn Hconf Hobs.
  pose proof (has_rows_delete n train target_column_name Hn) as Hn'.
  destruct (conforms_numeric train Hconf) as (Xf & HeqXf & HselXf & HlenXf).
  pose proof (conforms_categorical train Hconf) as HselXc.
  pose proof (fully_observed_categorical train Hobs) as HobsXc.
  pose proof (fully_observed_numeric train Hconf Hobs) as HobsXf.
  assert (Xf = num_cells <$> (column_of train <$> numerical_columns)) as HXf.
  { pose proof (conforms_num_cells train Hconf) as Heq. rewrite HeqXf in Heq.
    apply (f_equal (fmap num_cells)) in Heq. by rewrite !num_cells_NumCol in Heq. }
  rewrite <- HXf in HobsXf.
  assert (cols_len n Xf) as HnXf.
  { apply frame_cols_len_NumCol. by eapply select_cols_len. }
  destruct (num_fit_Ok n Xf) as [p Hp]; [done | done | by destruct Xf | done |].
  destruct (cat_fit_Ok n (column_of (delete target_column_name train) <$> categorical_columns))
    as [q Hq]; [done | by eapply select_cols_len | done | done |].
  rewrite <- HeqXf in Hp. exists p, q. split; [done|]. split; [done|].
  destruct (branch_outcomes n train train p q Hp Hq Hconf Hconf Hobs
              (categories_seen_refl train) Hn Hpos) as (Hnum & B & Hcat & HB).
  assert (ColumnTransformer.fit_transform new_preprocessor (delete target_column_name train)
          = Ok (fitted_preprocessor p q
                  (ColumnTransformer.sparse_output [Dense (numeric_block train train); B]),
                ColumnTransformer.hstack
                  (ColumnTransformer.sparse_output [Dense (numeric_block train train); B])
                  [Dense (numeric_block train train); B])) as Hfit.
  { apply ct_fit_transform_inv. exists p, q, (Dense (numeric_block train train)), B.
    rewrite <- HeqXf in HselXf.
    split; [done|]. split; [done|]. split; [|split; [|done]];
      by apply fit_transform_Ok_inv. }
  pose proof Hfit as Hshape.
  apply (ct_fit_transform_shape n) in Hshape
    as (p' & q' & s & Heq & _ & _ & _ & _ & _ & _ & _ & _ & Hdens); [|done].
  destruct (fully_observed_kept train Hconf Hobs) as [Hnk Hck].
  rewrite Hnk, Hck, distinct_total_delete in Hdens. fold (sparse_for n (distinct_total train)) in Hdens.
  injection Heq as _ _ Hsp. rewrite Hfit, Hsp, Hdens, hstack_rows.
  cbn [StandardScaler.to_dense]. by rewrite HB.
Qed.

(** X11. The layout of the returned matrices.  For tables that conform to
    the schema, with every feature column observed in training and every
    test category seen in training, a call that returns gives matrices whose
    row [i] is made of the two standardized scores of row [i], then the
    encodings of its five categorical entries against the training
    categories, then its raw [math_score]: each output row is computed from
    the input row at the same position and the training table alone. *)
Theorem returned_rows
    (train_path test_path : string) (w w' : world F) (n m : nat)
    (train test : gmap string (Column F)) (r : ndarray F * ndarray F * string) :
  csv_files w !! train_path = Some train → csv_files w !! test_path = Some test →
  has_rows n train → has_rows m test → conforms train → conforms test →
  fully_observed train → categories_seen train test →
  initiate_data_transformation train_path test_path w = (Ok r, w') →
  ∃ tr te ytr yte,
    r.1.1 = Array2D tr ∧ r.1.2 = Array2D te ∧
    train !! "math_score" = Some ytr ∧ test !! "math_score" = Some yte ∧
    (∀ i, i < n →
       tr !! i = Some (((λ x, Some (Num x)) <$> feature_row train train i)
                       ++ [entry (column_cells ytr) i])) ∧
    (∀ i, i < m →
       te !! i = Some (((λ x, Some (Num x)) <$> feature_row train test i)
                       ++ [entry (column_cells yte) i])).
Proof.
  intros Htrain Htest Hn Hm Hctrain Hctest Hobs Hseen Hrun.
  apply initiate_data_transformation_Ok in Hrun
    as [train' test' ytr yte pre Xtr Xte Htrain' Htest' Hytr Hyte Hfit Htr Hctr Hcte _ _ _].
  rewrite Htrain in Htrain'. injection Htrain' as <-.
  rewrite Htest in Htest'. injection Htest' as <-.
  destruct (returned_dense n train ytr pre Xtr _ Hn Hytr Hfit Hctr)
    as (p0 & q0 & rows & -> & -> & Hpos & _ & _ & _ & _ & Htrarr).
  destruct (fit_outcome n train Hpos Hn Hctrain Hobs) as (p & q & Hp & Hq & Hfit').
  remember (ColumnTransformer.rows_of (numeric_block train train ++ categorical_block train train))
    as R eqn:HR.
  destruct (sparse_for n (distinct_total train)); rewrite Hfit in Hfit';
    [discriminate Hfit'|].
  injection Hfit' as -> -> ->. subst R.
  pose proof Htr as Htr'.
  apply (ct_transform_shape m) in Htr' as (Hmpos & _ & _ & _); [|by apply has_rows_delete].
  rewrite (transform_outcome m train test p q false Hp Hq Hctrain Hctest Hobs Hseen Hm Hmpos)
    in Htr.
  injection Htr as <-.
  assert (length (column_cells ytr) = n) as Hly.
  { rewrite column_cells_length. exact (map_Forall_lookup_1 _ _ _ _ Hn Hytr). }
  assert (length (column_cells yte) = m) as Hly'.
  { rewrite column_cells_length. exact (map_Forall_lookup_1 _ _ _ _ Hm Hyte). }
  assert (r.1.2 = Array2D (with_target
            (ColumnTransformer.rows_of
               (numeric_block train test ++ categorical_block train test))
            (column_cells yte))) as Htearr.
  { unfold np.c_, np.array in Hcte. destruct (decide _) as [Hlen|]; [|done].
    injection Hcte as Hcte. symmetry. exact Hcte. }
  eexists _, _, ytr, yte. split; [exact Htrarr|]. split; [exact Htearr|].
  split; [done|]. split; [done|]. split.
  - intros i Hi. apply with_target_lookup.
    + by apply (blocks_row n).
    + apply entry_lookup. lia.
  - intros i Hi. apply with_target_lookup.
    + by apply (blocks_row m).
    + apply entry_lookup. lia.
Qed.

(** X12. A successful call never returns wide matrices: the transformer
    gives a dense array only while at least three in ten of its entries are
    stored, and a sparse result cannot be concatenated with the target on
    line 99, so the training table of a call that returns has at most 21
    distinct categories in all and both matrices have at most 24 columns. *)
Theorem returned_width_bounded
    (train_path test_path : string) (w w' : world F) (n m : nat)
    (train test : gmap string (Column F)) (r : ndarray F * ndarray F * string) :
  csv_files w !! train_path = Some train → csv_files w !! test_path = Some test →
  has_rows n train → has_rows m test →
  initiate_data_transformation train_path test_path w = (Ok r, w') →
  distinct_total train ≤ 21 ∧
  ∃ tr te, r.1.1 = Array2D tr ∧ r.1.2 = Array2D te ∧
    Forall (λ row, length row ≤ 24) tr ∧ Forall (λ row, length row ≤ 24) te.
Proof.
  intros Htrain Htest Hn Hm Hrun.
  apply initiate_data_transformation_Ok in Hrun
    as [train' test' ytr yte pre Xtr Xte Htrain' Htest' Hytr Hyte Hfit Htr Hctr Hcte _ _ _].
  rewrite Htrain in Htrain'. injection Htrain' as <-.
  rewrite Htest in Htest'. injection Htest' as <-.
  pose proof (has_rows_delete n train target_column_name Hn) as Hn'.
  destruct (returned_dense n train ytr pre Xtr _ Hn Hytr Hfit Hctr)
    as (p & q & rows & Hpre & -> & Hpos & _ & Hk & Hsum & Hw & Htrarr).
  pose proof Hfit as Hshape.
  apply (ct_fit_transform_shape n) in Hshape
    as (p' & q' & s & Heq & _ & _ & _ & _ & _ & _ & _ & _ & Hdens); [|done].
  rewrite Hpre in Heq. injection Heq as _ _ <-.
  symmetry in Hdens. apply Nat.ltb_ge in Hdens.
  rewrite numeric_kept_delete, categorical_kept_delete, distinct_total_delete in Hdens.
  assert (numeric_kept train ≤ 2) as Hnk.
  { unfold numeric_kept. etrans; [apply length_filter|]. by rewrite length_fmap. }
  assert (categorical_kept train ≤ 5) as Hck.
  { unfold categorical_kept. etrans; [apply length_filter|]. by rewrite length_fmap. }
  assert (distinct_total train ≤ 21) as Hd by nia.
  split; [done|].
  rewrite Hpre in Htr.
  apply (ct_transform_shape m) in Htr as (_ & Hs & _ & Hw'); [|by apply has_rows_delete].
  destruct Xte as [rows'|?]; [|done]. cbn [features_rows] in Hw'. simpl in Hcte.
  destruct (decide _); [|done]. injection Hcte as Hcte.
  rewrite Hk, Hsum in Hw'.
  eexists _, _. split; [exact Htrarr|]. split; [by rewrite <- Hcte|].
  split.
  - eapply Forall_impl; [apply (with_target_width _ _ _ Hw)|]. intros row Hrow. simpl in *. lia.
  - eapply Forall_impl; [apply (with_target_width _ _ _ Hw')|]. intros row Hrow. simpl in *. lia.
Qed.

(** X13. With 22 or more distinct categories in a conforming, fully observed
    training table the transformer returns a sparse matrix, which [np.c_]
    cannot put beside the target: the fit and the transform succeed, the
    concatenation of line 99 fails, and the call raises that error
    wrapped. *)
Theorem many_categories_raise
    (train_path test_path : string) (w : world F) (n m : nat)
    (train test : gmap string (Column F)) :
  csv_files w !! train_path = Some train → csv_files w !! test_path = Some test →
  has_rows n train → has_rows m test → 0 < m → conforms train → conforms test →
  fully_observed train → categories_seen train test →
  22 ≤ distinct_total train →
  initiate_data_transformation train_path test_path w
    = (Raise (CustomException
               (ValueError "all the input array dimensions except for the concatenation axis must match exactly")
               99), w).
Proof.
  intros Htrain Htest Hn Hm Hmpos Hctrain Hctest Hobs Hseen Hmany.
  pose proof (has_rows_delete n train target_column_name Hn) as Hn'.
  assert (5 ≤ n) as Hn5.
  { pose proof (n_distinct_le n (column_of train <$> categorical_columns)) as Hle.
    fold (distinct_total train) in Hle.
    assert (length (filter has_observation (column_of train <$> categorical_columns)) ≤ 5)
      as Hck by (etrans; [apply length_filter|]; by rewrite length_fmap).
    assert (frame_cols_len n (column_of train <$> categorical_columns)) as Hfl.
    { rewrite <- categorical_delete.
      eapply select_cols_len; [by apply conforms_categorical | done]. }
    specialize (Hle Hfl). nia. }
  destruct (fit_outcome n train) as (p & q & Hp & Hq & Hfit); [lia | done..|].
  assert (sparse_for n (distinct_total train) = true) as Hs.
  { unfold sparse_for. apply Nat.ltb_lt. nia. }
  rewrite Hs in Hfit.
  pose proof (transform_outcome m train test p q true Hp Hq Hctrain Hctest Hobs Hseen Hm Hmpos)
    as Htr.
  pose proof Hctrain as (_ & _ & [ytr Hytr]). pose proof Hctest as (_ & _ & [yte Hyte]).
  apply failure_run. eapply fail_concat_train; try done.
  assert (length (column_cells ytr) = n) as Hly.
  { rewrite column_cells_length. exact (map_Forall_lookup_1 _ _ _ _ Hn Hytr). }
  unfold np.c_, np.array. destruct (column_cells ytr) as [|t [|t' cells]]; simpl in *;
    [done | lia | done].
Qed.

(** X14. A call returns for tables of any sizes: for a training table and a
    test table with at least one row each that conform to the schema, with
    every feature column observed in training, every test category seen in
    training, at most 21 distinct training categories and a writable
    artifact path, the call raises nothing, returns matrices with as many
    rows as the tables and leaves the fitted preprocessor at the artifact
    path. *)
Theorem call_returns
    (train_path test_path : string) (w : world F) (n m : nat)
    (train test : gmap string (Column F)) :
  csv_files w !! train_path = Some train → csv_files w !! test_path = Some test →
  has_rows n train → has_rows m test → 0 < n → 0 < m →
  conforms train → conforms test → fully_observed train → categories_seen train test →
  distinct_total train ≤ 21 →
  "artifacts/preprocessor.pkl" ∉ read_only w →
  ∃ tr te w',
    initiate_data_transformation train_path test_path w
      = (Ok (Array2D tr, Array2D te, "artifacts/preprocessor.pkl"), w') ∧
    length tr = n ∧ length te = m ∧
    is_Some (artifacts w' !! "artifacts/preprocessor.pkl").
Proof.
  intros Htrain Htest Hn Hm Hnpos Hmpos Hctrain Hctest Hobs Hseen Hfew Hw.
  destruct (fit_outcome n train Hnpos Hn Hctrain Hobs) as (p & q & Hp & Hq & Hfit).
  assert (sparse_for n (distinct_total train) = false) as Hs.
  { unfold sparse_for. apply Nat.ltb_ge. nia. }
  rewrite Hs in Hfit.
  pose proof (transform_outcome m train test p q false Hp Hq Hctrain Hctest Hobs Hseen Hm Hmpos)
    as Htr.
  pose proof Hctrain as (_ & _ & [ytr Hytr]). pose proof Hctest as (_ & _ & [yte Hyte]).
  assert (length (column_cells ytr) = n) as Hly.
  { rewrite column_cells_length. exact (map_Forall_lookup_1 _ _ _ _ Hn Hytr). }
  assert (length (column_cells yte) = m) as Hly'.
  { rewrite column_cells_length. exact (map_Forall_lookup_1 _ _ _ _ Hm Hyte). }
  assert (∀ k df, has_rows k df → conforms df →
            length (ColumnTransformer.rows_of
                      (numeric_block train df ++ categorical_block train df)) = k) as Hrows.
  { intros k df Hk Hdf. destruct (numeric_block_shape k train df Hk Hdf) as [Hnb Hlen].
    apply rows_of_length; [|apply Forall_app; split; [done|by apply categorical_block_shape]].
    intros Hnil. apply (f_equal length) in Hnil. rewrite length_app, Hlen in Hnil.
    simpl in Hnil. lia. }
  eexists (with_target _ (column_cells ytr)), (with_target _ (column_cells yte)), _.
  split; [|split; [|split]].
  - apply success_run. eapply success_intro; try done; cbn [fst snd].
    + unfold np.c_, np.array. rewrite decide_True; [done|]. by rewrite (Hrows n train Hn Hctrain), Hly.
    + unfold np.c_, np.array. rewrite decide_True; [done|]. by rewrite (Hrows m test Hm Hctest), Hly'.
  - unfold with_target. rewrite length_zip_with, (Hrows n train Hn Hctrain). lia.
  - unfold with_target. rewrite length_zip_with, (Hrows m test Hm Hctest). lia.
  - rewrite <- artifact_path_eq, saved_artifact. by eexists.
Qed.

End Layout.

(** ** Columns that training never observed *)

Section Dropped.
Context `{Numeric F}.

(** The imputer does not look into a column whose statistic is undefined:
    two inputs of the same shape that differ in such columns only are
    imputed alike. *)
Lemma transform_cols_dropped {A K} (strategy : list A → A)
    (g f1 f2 : K → list (option A)) (cols : list K) :
  (∀ c, c ∈ cols → length (f1 c) = length (f2 c)) →
  (∀ c, c ∈ cols → observed (g c) ≠ [] → f1 c = f2 c) →
  SimpleImputer.transform_cols (SimpleImputer.statistic strategy <$> (g <$> cols)) (f1 <$> cols)
  = SimpleImputer.transform_cols (SimpleImputer.statistic strategy <$> (g <$> cols))
      (f2 <$> cols).
Proof.
  intros Hlen Hsame. unfold SimpleImputer.transform_cols.
  assert (check_array (f1 <$> cols) = check_array (f2 <$> cols)) as ->.
  { destruct cols as [|c cols]; [done|]. rewrite !fmap_cons.
    specialize (Hlen c (list_elem_of_here _ _)).
    destruct (f1 c), (f2 c); simpl in *; done. }
  destruct (check_array (f2 <$> cols)); [|done]. cbn [mbind result_bind].
  rewrite !length_fmap. destruct (decide _); [|done]. do 2 f_equal.
  clear -Hsame. induction cols as [|c cols IH]; [done|].
  rewrite !fmap_cons. cbn [zip_with omap list_omap].
  rewrite IH by (intros c' Hc'; apply Hsame; by right).
  destruct (SimpleImputer.statistic strategy (g c)) as [v|] eqn:Hst; [|done].
  rewrite (Hsame c); [done | by left|]. apply (statistic_Some strategy). by rewrite Hst.
Qed.

Lemma conforms_NumCol (df : gmap string (Column F)) (c : string) :
  conforms df → c ∈ numerical_columns → column_of df c = NumCol (num_cells (column_of df c)).
Proof.
  intros (Hnum & _ & _) Hc. destruct (Hnum c Hc) as [xs Hxs].
  unfold column_of. by rewrite Hxs.
Qed.

(** The transform of a fitted preprocessor does not depend on what a table
    holds in the feature columns without an observed training value. *)
Lemma ct_transform_dropped (m : nat) (train test1 test2 : gmap string (Column F))
    (pre : preprocessor F) (Xtr : features F) :
  ColumnTransformer.fit_transform new_preprocessor (delete target_column_name train)
    = Ok (pre, Xtr) →
  conforms train → conforms test1 → conforms test2 →
  has_rows m test1 → has_rows m test2 →
  (∀ c, c ∈ numerical_columns ++ categorical_columns →
     has_observation (column_of train c) → test1 !! c = test2 !! c) →
  ColumnTransformer.transform pre (delete target_column_name test1)
  = ColumnTransformer.transform pre (delete target_column_name test2).
Proof.
  intros Hfit Hctrain Hc1 Hc2 Hm1 Hm2 Hsame.
  apply ct_fit_transform_inv in Hfit as (p & q & A & B & _ & _ & Hnum & Hcat & -> & _).
  apply fit_transform_Ok_inv in Hnum as [Hp _]. apply fit_transform_Ok_inv in Hcat as [Hq _].
  rewrite (conforms_num_cells train Hctrain) in Hp.
  apply num_fit_inv in Hp as (Xf & HXf & _ & Hst & _).
  rewrite as_float_NumCol in HXf. injection HXf as <-.
  apply cat_fit_full in Hq as (_ & Hstq & _). rewrite categorical_delete in Hstq.
  assert (p.1 = SimpleImputer.statistic np.median
                  <$> (num_cells ∘ column_of train <$> numerical_columns)) as Hst'
    by (by rewrite Hst).
  assert (q.1 = SimpleImputer.statistic SimpleImputer.mode
                  <$> (column_cells ∘ column_of train <$> categorical_columns)) as Hstq'
    by (by rewrite Hstq).
  clear Hst Hstq.
  destruct (conforms_numeric test1 Hc1) as (Xf1 & Heq1 & Hsel1 & _).
  destruct (conforms_numeric test2 Hc2) as (Xf2 & Heq2 & Hsel2 & _).
  rewrite <- Heq1 in Hsel1. rewrite <- Heq2 in Hsel2.
  unfold ColumnTransformer.transform.
  cbn [fitted_preprocessor ColumnTransformer.fitted_ ColumnTransformer.numerical_columns
       ColumnTransformer.categorical_columns ColumnTransformer.num_pipeline
       ColumnTransformer.cat_pipeline].
  rewrite Hsel1, Hsel2, (conforms_categorical test1 Hc1), (conforms_categorical test2 Hc2).
  cbn [mbind result_bind].
  assert (transform num_pipeline p
            (column_of (delete target_column_name test1) <$> numerical_columns)
          = transform num_pipeline p
              (column_of (delete target_column_name test2) <$> numerical_columns)) as ->.
  { rewrite (conforms_num_cells test1 Hc1), (conforms_num_cells test2 Hc2).
    unfold num_pipeline, Pipeline. cbn [transform SimpleImputer.median].
    rewrite !as_float_NumCol. cbn [mbind result_bind]. rewrite Hst'.
    rewrite <- (list_fmap_compose (column_of test1) num_cells),
      <- (list_fmap_compose (column_of test2) num_cells).
    rewrite (transform_cols_dropped np.median (num_cells ∘ column_of train)
               (num_cells ∘ column_of test1) (num_cells ∘ column_of test2)); [done|..].
    - intros c Hc. cbn [compose]. rewrite !num_cells_length.
      rewrite (schema_column_length m test1), (schema_column_length m test2);
        try done; apply elem_of_app; by left.
    - intros c Hc Hobs. cbn [compose] in *. unfold column_of.
      rewrite (Hsame c); [done | apply elem_of_app; by left|].
      rewrite (conforms_NumCol train c Hctrain Hc). by apply has_observation_NumCol. }
  assert (transform cat_pipeline q
            (column_of (delete target_column_name test1) <$> categorical_columns)
          = transform cat_pipeline q
              (column_of (delete target_column_name test2) <$> categorical_columns)) as ->;
    [|done].
  rewrite !categorical_delete.
  unfold cat_pipeline, Pipeline. cbn [transform SimpleImputer.most_frequent].
  rewrite Hstq'.
  rewrite <- (list_fmap_compose (column_of test1) column_cells),
    <- (list_fmap_compose (column_of test2) column_cells).
  rewrite (transform_cols_dropped SimpleImputer.mode (column_cells ∘ column_of train)
             (column_cells ∘ column_of test1) (column_cells ∘ column_of test2)); [done|..].
  - intros c Hc. cbn [compose]. rewrite !column_cells_length.
    rewrite (schema_column_length m test1), (schema_column_length m test2);
      try done; apply elem_of_app; by right.
  - intros c Hc Hobs. cbn [compose] in *. unfold column_of.
    rewrite (Hsame c); [done | apply elem_of_app; by right | done].
Qed.

(** X15. A feature column without any observed value in training is dropped
    by its imputer, at fit and at every transform: what the test table holds
    in such a column never reaches the output.  Two calls on the same
    training table, with conforming test tables of the same size that agree
    on [math_score] and on every feature column training observed, return the
    same triple or raise the same exception. *)
Theorem unobserved_columns_ignored
    (train_path test_path1 test_path2 : string) (w : world F) (m : nat)
    (train test1 test2 : gmap string (Column F)) :
  csv_files w !! train_path = Some train →
  csv_files w !! test_path1 = Some test1 → csv_files w !! test_path2 = Some test2 →
  conforms train → conforms test1 → conforms test2 →
  has_rows m test1 → has_rows m test2 →
  test1 !! "math_score" = test2 !! "math_score" →
  (∀ c, c ∈ numerical_columns ++ categorical_columns →
     has_observation (column_of train c) → test1 !! c = test2 !! c) →
  (initiate_data_transformation train_path test_path1 w).1
  = (initiate_data_transformation train_path test_path2 w).1.
Proof.
  intros Htrain Htest1 Htest2 Hctrain Hc1 Hc2 Hm1 Hm2 Hyte Hsame.
  unfold initiate_data_transformation, try_except, mbind, body_mbind, body_bind,
    call_pure, call, read_csv, mret, body_mret, body_ret.
  rewrite Htrain, Htest1, Htest2, !get_data_transformer_object_eq.
  unfold pd.drop, pd.getitem. fold target_column_name in Hyte. rewrite <- Hyte.
  destruct (train !! target_column_name) as [ytr|]; [|done].
  destruct (test1 !! target_column_name) as [yte|]; [|done].
  destruct (ColumnTransformer.fit_transform new_preprocessor _) as [[pre Xtr]|e] eqn:Hfit;
    [|done].
  rewrite <- (ct_transform_dropped m train test1 test2 pre Xtr Hfit Hctrain Hc1 Hc2
                Hm1 Hm2 Hsame).
  destruct (ColumnTransformer.transform pre _) as [Xte|e]; [|done].
  destruct (np.c_ Xtr _) as [train_arr|e]; [|done].
  destruct (np.c_ Xte _) as [test_arr|e]; [|done].
  unfold save_object. by destruct (decide _).
Qed.

End Dropped.

(** ** The branches on columns that training did not observe *)

Section Kept.
Context `{Numeric F}.

Lemma kept_with_cons {A B} (f : list (option A) → list (option A) → B)
    (t c : list (option A)) (trains inputs : list (list (option A))) :
  kept_with f (t :: trains) (c :: inputs)
  = match observed t with
    | [] => kept_with f trains inputs
    | _ :: _ => f t c :: kept_with f trains inputs
    end.
Proof. unfold kept_with. cbn [zip_with]. by destruct (observed t). Qed.

Lemma kept_with_nil_r {A B} (f : list (option A) → list (option A) → B)
    (trains : list (list (option A))) :
  kept_with f trains [] = [].
Proof. by destruct trains. Qed.

Lemma impute_kept {A} (strategy : list A → A) (trains inputs : list (list (option A))) :
  omap id (zip_with SimpleImputer.impute (SimpleImputer.statistic strategy <$> trains) inputs)
  = kept_with (filled_by strategy) trains inputs.
Proof.
  revert inputs. induction trains as [|t trains IH]; intros [|c inputs]; try done.
  rewrite kept_with_cons, fmap_cons. cbn [zip_with]. unfold SimpleImputer.statistic at 1.
  destruct (observed t) eqn:Hot; cbn [SimpleImputer.impute omap list_omap id];
    rewrite IH; [done|]. unfold filled_by. by rewrite Hot.
Qed.

Lemma kept_with_fmap {A B C} (g : B → C) (f : list (option A) → list (option A) → B)
    (trains inputs : list (list (option A))) :
  g <$> kept_with f trains inputs = kept_with (λ t c, g (f t c)) trains inputs.
Proof.
  revert inputs. induction trains as [|t trains IH]; intros [|c inputs]; try done.
  rewrite !kept_with_cons. destruct (observed t); [done|]. by rewrite fmap_cons, IH.
Qed.

Lemma kept_with_length {A B C} (f : list (option A) → list (option A) → B)
    (g : list (option A) → list (option A) → C)
    (trains inputs inputs' : list (list (option A))) :
  length inputs = length inputs' →
  length (kept_with f trains inputs) = length (kept_with g trains inputs').
Proof.
  revert inputs inputs'.
  induction trains as [|t trains IH]; intros [|c inputs] [|c' inputs'] Hlen; try done.
  rewrite !kept_with_cons. destruct (observed t); simpl; rewrite (IH inputs inputs');
    simpl in *; lia.
Qed.

Lemma kept_with_count {A B} (f : list (option A) → list (option A) → B)
    (trains inputs : list (list (option A))) :
  length inputs = length trains →
  length (kept_with f trains inputs) = length (filter (λ t, observed t ≠ []) trains).
Proof.
  revert inputs. induction trains as [|t trains IH]; intros [|c inputs] Hlen; try done.
  rewrite kept_with_cons. destruct (observed t) eqn:Hot.
  - rewrite filter_cons_False by (rewrite Hot; intros Hx; by apply Hx).
    apply IH. simpl in *. lia.
  - rewrite filter_cons_True by (by rewrite Hot). simpl. f_equal. apply IH. simpl in *. lia.
Qed.

Lemma kept_with_cols_len {A B} (n : nat) (f : list (option A) → list (option A) → list B)
    (trains inputs : list (list (option A))) :
  (∀ t c, length (f t c) = length c) → cols_len n inputs →
  cols_len n (kept_with f trains inputs).
Proof.
  intros Hf. revert inputs. induction trains as [|t trains IH]; intros [|c inputs] Hn;
    try constructor.
  apply Forall_cons in Hn as [Hc Hn]. rewrite kept_with_cons.
  destruct (observed t); [by apply IH|]. constructor; [by rewrite Hf | by apply IH].
Qed.

Lemma kept_with_ext {A B} (f g : list (option A) → list (option A) → B)
    (trains inputs : list (list (option A))) :
  Forall2 (λ t c, f t c = g t c) trains inputs →
  kept_with f trains inputs = kept_with g trains inputs.
Proof.
  induction 1 as [|t c trains inputs Hfg _ IH]; [done|].
  rewrite !kept_with_cons, IH, Hfg. done.
Qed.

Lemma filled_by_length {A} (strategy : list A → A) (t c : list (option A)) :
  length (filled_by strategy t c) = length c.
Proof. unfold filled_by. by rewrite length_fmap. Qed.

(** *** The numeric branch *)

Lemma zip_with_standardize_kept (trains inputs : list (list (option F))) :
  zip_with (λ '(m, s) col, (λ x, Fdiv (Fsub x m) s) <$> col)
    ((λ col, (np.mean col, StandardScaler.scale_of col))
       <$> kept_with (filled_by np.median) trains trains)
    (kept_with (filled_by np.median) trains inputs)
  = kept_with (λ t c, standardized t <$> c) trains inputs.
Proof.
  revert inputs. induction trains as [|t trains IH]; intros [|c inputs]; try done.
  - rewrite !kept_with_nil_r. apply zip_with_nil_r.
  - rewrite !kept_with_cons. destruct (observed t) eqn:Hot; [apply IH|].
    rewrite fmap_cons. cbn [zip_with]. rewrite IH. f_equal.
    unfold filled_by, standardized. rewrite <- list_fmap_compose, Hot. done.
Qed.

(** The fitted numeric branch, column by column: a column that training
    observed is standardized entry by entry, the others are discarded. *)
Lemma num_pipeline_kept (m : nat) (trains inputs : list (list (option F)))
    (p : num_params F) :
  fit num_pipeline (NumCol <$> trains) = Ok p →
  length inputs = length trains → cols_len m inputs → 0 < m →
  p.1 = SimpleImputer.statistic np.median <$> trains ∧
  kept_with (λ t c, standardized t <$> c) trains inputs ≠ [] ∧
  transform num_pipeline p (NumCol <$> inputs)
    = Ok (Dense (kept_with (λ t c, standardized t <$> c) trains inputs)).
Proof.
  intros Hfit Hlen Hm Hpos.
  apply num_fit_inv in Hfit as (Xf & HXf & Hchk & Hst & Hchk2 & Hsc).
  rewrite as_float_NumCol in HXf. injection HXf as <-.
  destruct p as [st sc]. cbn [fst snd] in *. subst st.
  rewrite impute_kept in Hchk2, Hsc.
  assert (length (kept_with (filled_by np.median) trains inputs)
          = length (kept_with (filled_by np.median) trains trains)) as Hk
    by (by apply kept_with_length).
  assert (kept_with (filled_by np.median) trains inputs ≠ []) as Hne.
  { intros Hnil. rewrite Hnil in Hk. apply check_array_Ok in Hchk2 as (c & X' & HX' & _).
    rewrite HX' in Hk. done. }
  assert (inputs ≠ []) as Hin.
  { intros ->. by rewrite kept_with_nil_r in Hne. }
  split; [done|]. split.
  { intros Hnil. apply Hne. apply (f_equal length) in Hnil.
    rewrite (kept_with_length _ (filled_by np.median) trains inputs inputs) in Hnil by done.
    by destruct (kept_with (filled_by np.median) trains inputs). }
  unfold num_pipeline. apply Pipeline_transform. cbn [fst snd].
  exists (Dense (kept_with (filled_by np.median) trains inputs)). split.
  - simpl. rewrite as_float_NumCol. simpl.
    rewrite transform_cols_Ok; [|by apply (check_array_cols_len m) | by rewrite length_fmap].
    simpl. by rewrite impute_kept.
  - simpl. unfold StandardScaler.transform_array. cbn [StandardScaler.to_dense].
    rewrite (check_array_cols_len m); [|done| |done].
    + simpl. rewrite decide_True by (subst sc; rewrite length_fmap; lia).
      subst sc. by rewrite zip_with_standardize_kept.
    + apply kept_with_cols_len; [apply filled_by_length | done].
Qed.

(** The fit of the numeric branch succeeds as soon as one column has an
    observed value. *)
Lemma num_fit_Ok_kept (n : nat) (Xf : list (list (option F))) :
  0 < n → cols_len n Xf → Exists (λ t, observed t ≠ []) Xf →
  ∃ p, fit num_pipeline (NumCol <$> Xf) = Ok p.
Proof.
  intros Hpos Hn Hex. eexists (_, _). apply Pipeline_fit. cbn [fst snd].
  assert (Xf ≠ []) as Hne by (intros ->; by apply Exists_nil in Hex).
  assert (check_array Xf = Ok ()) as Hchk by (by apply (check_array_cols_len n)).
  eexists. split; [|split].
  - simpl. rewrite as_float_NumCol. simpl. unfold SimpleImputer.fit_cols. by rewrite Hchk.
  - simpl. rewrite as_float_NumCol. simpl.
    rewrite transform_cols_Ok by (by rewrite ?length_fmap). done.
  - simpl. unfold StandardScaler.fit_array. cbn [StandardScaler.to_dense].
    rewrite impute_kept. rewrite (check_array_cols_len n); [done| | |done].
    + intros Hnil. apply (f_equal length) in Hnil.
      rewrite kept_with_count in Hnil by done.
      apply Exists_exists in Hex as (t & Ht & Hot).
      assert (t ∈ filter (λ t, observed t ≠ []) Xf) as Hin by (by apply list_elem_of_filter).
      destruct (filter _ Xf); [by apply elem_of_nil in Hin | done].
    + apply kept_with_cols_len; [apply filled_by_length | done].
Qed.

End Kept.

Section KeptCategories.
Context `{Numeric F}.

(** *** The categorical branch *)

Lemma imputed_kept (cells : list (list (option (scalar F)))) :
  imputed cells = kept_with (filled_by SimpleImputer.mode) cells cells.
Proof. unfold imputed. apply impute_kept. Qed.

Lemma known_kept (cells cells' : list (list (option (scalar F)))) :
  seen_where_observed cells cells' →
  Forall2 (λ c col, ∀ v, v ∈ col → v ∈ c)
    (OneHotEncoder.categories <$> kept_with (filled_by SimpleImputer.mode) cells cells)
    (kept_with (filled_by SimpleImputer.mode) cells cells').
Proof.
  induction 1 as [|t c cells cells' Htc _ IH]; [constructor|].
  rewrite !kept_with_cons. destruct (observed t) as [|x xs] eqn:Hot; [done|].
  rewrite fmap_cons. constructor; [|done].
  assert (observed t ≠ []) as Hne by (by rewrite Hot).
  intros v Hv. apply elem_of_categories. unfold filled_by in Hv |- *.
  apply elem_of_imputed. left.
  apply elem_of_imputed in Hv as [Hv | [-> _]]; [|by apply mode_elem_of].
  rewrite Hot. by apply Htc.
Qed.

Lemma categories_kept_nonempty (cells : list (list (option (scalar F)))) :
  Forall (λ c, c ≠ [])
    (OneHotEncoder.categories <$> kept_with (filled_by SimpleImputer.mode) cells cells).
Proof.
  induction cells as [|t cells IH]; [constructor|].
  rewrite kept_with_cons. destruct (observed t) as [|x xs] eqn:Hot; [done|].
  rewrite fmap_cons. constructor; [|done]. intros Hnil.
  assert (observed t ≠ []) as Hne by (by rewrite Hot).
  assert (SimpleImputer.mode (observed t) ∈ OneHotEncoder.categories
            (filled_by SimpleImputer.mode t t)) as Hm.
  { apply elem_of_categories. unfold filled_by. apply elem_of_imputed. left.
    by apply mode_elem_of. }
  rewrite Hnil in Hm. by apply elem_of_nil in Hm.
Qed.

Lemma blocks_kept (cells cells' : list (list (option (scalar F)))) :
  concat (zip_with (λ '(c, f) f',
            (λ cat, (λ v, if decide (v = cat)
               then Fmul np.F1 (Fdiv np.F1 (StandardScaler.scale_of (indicator cat f)))
               else np.F0) <$> f') <$> c)
            (zip (OneHotEncoder.categories
                    <$> kept_with (filled_by SimpleImputer.mode) cells cells)
                 (kept_with (filled_by SimpleImputer.mode) cells cells))
            (kept_with (filled_by SimpleImputer.mode) cells cells'))
  = concat (kept_with encoded_block cells cells').
Proof.
  revert cells'. induction cells as [|t cells IH]; intros [|c cells']; try done.
  - rewrite !kept_with_nil_r. by rewrite zip_with_nil_r.
  - rewrite !kept_with_cons. destruct (observed t) as [|x xs] eqn:Hot; [apply IH|].
    rewrite fmap_cons. cbn [zip zip_with concat]. rewrite IH. f_equal.
    unfold encoded_block, filled_with_mode, filled_by. rewrite Hot.
    apply list_fmap_ext. intros _ cat _. simpl.
    rewrite <- list_fmap_compose. apply list_fmap_ext. intros _ y _. simpl.
    unfold encoded, filled_with_mode. by rewrite Hot.
Qed.

Lemma kept_nonempty_iff {B} (f : list (option (scalar F)) → list (option (scalar F)) → B)
    (cells cells' : list (list (option (scalar F)))) :
  length cells' = length cells →
  kept_with f cells cells' ≠ [] ↔ Exists (λ t, observed t ≠ []) cells.
Proof.
  intros Hlen. split.
  - intros Hne. apply Exists_exists.
    assert (length (filter (λ t, observed t ≠ []) cells) ≠ 0) as Hf.
    { rewrite <- (kept_with_count f cells cells') by done.
      by destruct (kept_with f cells cells'). }
    destruct (filter (λ t, observed t ≠ []) cells) as [|t l] eqn:Heq; [done|].
    exists t.
    assert (t ∈ filter (λ t, observed t ≠ []) cells) as Hin by (rewrite Heq; by left).
    apply list_elem_of_filter in Hin as [? ?]. done.
  - intros Hex Hnil. apply (f_equal length) in Hnil. rewrite kept_with_count in Hnil by done.
    apply Exists_exists in Hex as (t & Ht & Hot).
    assert (t ∈ filter (λ t, observed t ≠ []) cells) as Hin by (by apply list_elem_of_filter).
    destruct (filter _ cells); [by apply elem_of_nil in Hin | done].
Qed.

(** The fitted categorical branch, column by column: a column that training
    observed gives one output column per training category, the others are
    discarded. *)
Lemma cat_pipeline_kept (m : nat) (trains inputs : list (Column F)) (q : cat_params F) :
  fit cat_pipeline trains = Ok q →
  length inputs = length trains → frame_cols_len m inputs → 0 < m →
  seen_where_observed (column_cells <$> trains) (column_cells <$> inputs) →
  q.1 = SimpleImputer.statistic SimpleImputer.mode <$> (column_cells <$> trains) ∧
  q.2.1 = kept_with (λ t _, OneHotEncoder.categories (filled_with_mode t))
            (column_cells <$> trains) (column_cells <$> trains) ∧
  ∃ B, transform cat_pipeline q inputs = Ok B ∧
       StandardScaler.to_dense B
       = concat (kept_with encoded_block (column_cells <$> trains) (column_cells <$> inputs)).
Proof.
  intros Hfit Hlen Hm Hpos Hseen.
  apply cat_fit_full in Hfit as (Hchk0 & Hst & Hchk1 & Hcats & Hsc).
  destruct q as [st [cats sc]]. cbn [fst snd] in *.
  rewrite imputed_kept in Hchk1, Hcats, Hsc.
  set (cells := column_cells <$> trains) in *.
  set (cells' := column_cells <$> inputs) in *.
  set (fills := kept_with (filled_by SimpleImputer.mode) cells cells) in *.
  set (fills' := kept_with (filled_by SimpleImputer.mode) cells cells').
  assert (length cells' = length cells) as Hlc by (unfold cells, cells'; by rewrite !length_fmap).
  assert (cols_len m cells') as Hmc by (by apply column_cells_cols_len).
  assert (length fills' = length fills) as Hlf by (by apply kept_with_length).
  assert (cols_len m fills') as Hmf.
  { apply kept_with_cols_len; [apply filled_by_length | done]. }
  assert (fills' ≠ []) as Hne.
  { intros Hnil. rewrite Hnil in Hlf. apply check_array_Ok in Hchk1 as (c & X' & HX' & _).
    rewrite HX' in Hlf. done. }
  assert (cells' ≠ []) as Hin.
  { intros Hnil. unfold fills' in Hne. rewrite Hnil in Hne. by rewrite kept_with_nil_r in Hne. }
  assert (check_array fills' = Ok ()) as Hchk2 by (by apply (check_array_cols_len m)).
  split; [done|]. split.
  { rewrite Hcats. unfold fills. rewrite kept_with_fmap. by apply kept_with_ext, Forall_Forall2_diag,
      Forall_forall. }
  assert (transform SimpleImputer.most_frequent st inputs = Ok fills') as Himp.
  { simpl. fold cells'. rewrite transform_cols_Ok;
      [|by apply (check_array_cols_len m) | subst st; by rewrite length_fmap].
    subst st. by rewrite impute_kept. }
  assert (length cats = length fills) as Hlcats by (subst cats; by rewrite length_fmap).
  eexists. split.
  - unfold cat_pipeline. apply Pipeline_transform. exists fills'. split; [done|].
    apply Pipeline_transform. cbn [fst snd]. eexists. split.
    + simpl. apply encoder_transform_Ok; [done | lia |]. subst cats. by apply known_kept.
    + simpl. unfold StandardScaler.transform_array. cbn [StandardScaler.to_dense].
      rewrite check_array_encoded; [|done | lia | subst cats; apply categories_kept_nonempty].
      simpl. rewrite decide_True; [done|]. subst sc. unfold learn. rewrite !length_fmap.
      apply one_hot_concat_length. lia.
  - cbn [StandardScaler.to_dense]. subst sc.
    fold (scale_sparse
      (learn (map (default np.F0) <$> concat (zip_with OneHotEncoder.one_hot cats fills)))
      (concat (zip_with OneHotEncoder.one_hot cats fills'))).
    rewrite scale_blocks by lia. subst cats. apply blocks_kept.
Qed.

(** An input with an observed value that training did not observe, in a
    column training observed, is refused by the encoder. *)
Lemma cat_pipeline_unseen (m : nat) (trains inputs : list (Column F)) (q : cat_params F) :
  fit cat_pipeline trains = Ok q →
  length inputs = length trains → frame_cols_len m inputs → 0 < m →
  ¬ seen_where_observed (column_cells <$> trains) (column_cells <$> inputs) →
  transform cat_pipeline q inputs = Raise (ValueError "Found unknown categories").
Proof.
  intros Hfit Hlen Hm Hpos Hunseen.
  apply cat_fit_full in Hfit as (Hchk0 & Hst & Hchk1 & Hcats & Hsc).
  destruct q as [st [cats sc]]. cbn [fst snd] in *.
  pose proof Hcats as Hcats0.
  rewrite imputed_kept in Hchk1, Hcats, Hsc.
  set (cells := column_cells <$> trains) in *.
  set (cells' := column_cells <$> inputs) in *.
  set (fills := kept_with (filled_by SimpleImputer.mode) cells cells) in *.
  set (fills' := kept_with (filled_by SimpleImputer.mode) cells cells').
  assert (length cells' = length cells) as Hlc by (unfold cells, cells'; by rewrite !length_fmap).
  assert (cols_len m cells') as Hmc by (by apply column_cells_cols_len).
  assert (length fills' = length fills) as Hlf by (by apply kept_with_length).
  assert (cols_len m fills') as Hmf.
  { apply kept_with_cols_len; [apply filled_by_length | done]. }
  assert (fills' ≠ []) as Hne.
  { intros Hnil. rewrite Hnil in Hlf. apply check_array_Ok in Hchk1 as (c & X' & HX' & _).
    rewrite HX' in Hlf. done. }
  assert (cells' ≠ []) as Hin.
  { intros Hnil. unfold fills' in Hne. rewrite Hnil in Hne. by rewrite kept_with_nil_r in Hne. }
  assert (transform SimpleImputer.most_frequent st inputs = Ok fills') as Himp.
  { simpl. fold cells'. rewrite transform_cols_Ok;
      [|by apply (check_array_cols_len m) | subst st; by rewrite length_fmap].
    subst st. by rewrite impute_kept. }
  assert (length cats = length fills') as Hlcats by (subst cats; rewrite length_fmap; lia).
  destruct (OneHotEncoder.transform_cols cats fills') as [Z|e] eqn:Hte.
  { exfalso. apply (encoder_transform_shape m) in Hte as (_ & Hk & _); [|done].
    apply Hunseen, known_seen; [done|]. rewrite impute_kept. fold fills'.
    by rewrite <- Hcats0. }
  assert (e = ValueError "Found unknown categories") as ->.
  { revert Hte. unfold OneHotEncoder.transform_cols.
    rewrite (check_array_cols_len m) by done. cbn [mbind result_bind].
    rewrite decide_True by done. destruct (forallb id _); [done|]. by intros [= <-]. }
  unfold cat_pipeline, Pipeline. cbn [transform fst snd].
  rewrite Himp. cbn [mbind result_bind]. cbn [transform OneHotEncoder.make].
  by rewrite Hte.
Qed.

(** The fit of the categorical branch succeeds as soon as one column has an
    observed value. *)
Lemma cat_fit_Ok_kept (n : nat) (X : list (Column F)) :
  0 < n → frame_cols_len n X → Exists has_observation X →
  ∃ q, fit cat_pipeline X = Ok q.
Proof.
  intros Hpos Hn Hex. eexists (_, (_, _)). apply Pipeline_fit. cbn [fst snd].
  assert (X ≠ []) as HX by (intros ->; by apply Exists_nil in Hex).
  set (cells := column_cells <$> X).
  assert (cols_len n cells) as Hnc by (by apply column_cells_cols_len).
  assert (check_array cells = Ok ()) as Hchk.
  { apply (check_array_cols_len n); [by destruct X | done | done]. }
  set (fills := kept_with (filled_by SimpleImputer.mode) cells cells).
  assert (fills ≠ []) as Hne.
  { apply kept_nonempty_iff; [done|]. unfold cells. apply Exists_fmap.
    eapply Exists_impl; [exact Hex|]. done. }
  assert (cols_len n fills) as Hnf.
  { apply kept_with_cols_len; [apply filled_by_length | done]. }
  assert (check_array fills = Ok ()) as Hchk2 by (by apply (check_array_cols_len n)).
  eexists. split; [|split].
  - simpl. unfold SimpleImputer.fit_cols. fold cells. by rewrite Hchk.
  - simpl. fold cells. rewrite transform_cols_Ok by (by rewrite ?length_fmap).
    by rewrite impute_kept.
  - apply Pipeline_fit. cbn [fst snd]. eexists. split; [|split].
    + simpl. unfold OneHotEncoder.fit_cols. fold fills. by rewrite Hchk2.
    + simpl. fold fills. apply encoder_transform_Ok; [done | by rewrite length_fmap |].
      apply Forall2_fmap_l, Forall_Forall2_diag, Forall_forall. intros col _ v Hv.
      by apply elem_of_categories.
    + simpl. unfold StandardScaler.fit_array. cbn [StandardScaler.to_dense].
      rewrite check_array_encoded; [done | done | by rewrite length_fmap |].
      apply categories_kept_nonempty.
Qed.

End KeptCategories.

Section Branches.
Context `{Numeric F}.

(** C3, as the code has it.  The numeric branch of the preprocessor that
    [get_data_transformer_object] returns is the median imputer followed by the
    standard scaler, on [writing_score] and [reading_score].  Fitted on
    training columns, it keeps of an input with at least one row the columns
    that have an observed training value and discards the others; in a column
    it keeps it sends every entry to its standardized value, a missing entry
    being first replaced by the training median of the column. *)
Theorem numeric_branch (m : nat) (trains inputs : list (list (option F)))
    (p : num_params F) :
  fit num_pipeline (NumCol <$> trains) = Ok p →
  length inputs = length trains → cols_len m inputs → 0 < m →
  (∀ w, ∃ pre, get_data_transformer_object w = (Ok pre, w) ∧
     ColumnTransformer.num_pipeline pre
       = Pipeline SimpleImputer.median (StandardScaler.make true) ∧
     ColumnTransformer.numerical_columns pre = ["writing_score"; "reading_score"]) ∧
  p.1 = (λ t, match observed t with
              | [] => None
              | xs => Some (np.median xs)
              end) <$> trains ∧
  transform num_pipeline p (NumCol <$> inputs)
    = Ok (Dense (kept_with (λ t c, standardized t <$> c) trains inputs)) ∧
  ∀ t, standardized t None = standardized t (Some (np.median (observed t))).
Proof.
  intros Hfit Hlen Hm Hpos. split; [intros w; by eexists|].
  destruct (num_pipeline_kept m trains inputs p Hfit Hlen Hm Hpos) as (Hst & _ & Ht).
  done.
Qed.

(** C4, as the code has it.  The categorical branch of the preprocessor that
    [get_data_transformer_object] returns is the most-frequent imputer, the
    one-hot encoder and the scaler without centring, on the five categorical
    columns.  Fitted on training columns, it keeps of an input with at least
    one row the columns that have an observed training value and discards the
    others.  A column it keeps gets one output column per distinct observed
    training value.  When the observed values of the kept input columns were
    all observed in training, every entry is sent to its scaled 0/1 encoding,
    a missing entry being first replaced by the training mode of the column;
    otherwise the encoder refuses the input. *)
Theorem categorical_branch (m : nat) (trains inputs : list (Column F)) (q : cat_params F) :
  fit cat_pipeline trains = Ok q →
  length inputs = length trains → frame_cols_len m inputs → 0 < m →
  (∀ w, ∃ pre, get_data_transformer_object w = (Ok pre, w) ∧
     ColumnTransformer.cat_pipeline pre
       = Pipeline SimpleImputer.most_frequent
           (Pipeline OneHotEncoder.make (StandardScaler.make false)) ∧
     ColumnTransformer.categorical_columns pre
       = ["gender"; "race_ethnicity"; "parental_level_of_education"; "lunch";
          "test_preparation_course"]) ∧
  q.1 = (λ t, match observed (column_cells t) with
              | [] => None
              | xs => Some (SimpleImputer.mode xs)
              end) <$> trains ∧
  q.2.1 = kept_with (λ t _, OneHotEncoder.categories (filled_with_mode t))
            (column_cells <$> trains) (column_cells <$> trains) ∧
  Forall (λ t, has_observation t →
               length (OneHotEncoder.categories (filled_with_mode (column_cells t)))
               = n_distinct t) trains ∧
  (seen_where_observed (column_cells <$> trains) (column_cells <$> inputs) →
   ∃ B, transform cat_pipeline q inputs = Ok B ∧
        StandardScaler.to_dense B
        = concat (kept_with encoded_block (column_cells <$> trains)
                    (column_cells <$> inputs))) ∧
  (¬ seen_where_observed (column_cells <$> trains) (column_cells <$> inputs) →
   transform cat_pipeline q inputs = Raise (ValueError "Found unknown categories")) ∧
  ∀ t c, encoded t c None = encoded t c (Some (SimpleImputer.mode (observed t))).
Proof.
  intros Hfit Hlen Hm Hpos. split; [intros w; by eexists|].
  pose proof Hfit as Hfull. apply cat_fit_full in Hfull as (_ & Hst & _ & Hcats & _).
  split; [by rewrite Hst, <- list_fmap_compose|]. split.
  { rewrite Hcats, imputed_kept, kept_with_fmap.
    by apply kept_with_ext, Forall_Forall2_diag, Forall_forall. }
  split.
  { apply Forall_forall. intros t _ Ht.
    unfold filled_with_mode, n_distinct. apply categories_imputed.
    unfold SimpleImputer.statistic. unfold has_observation in Ht.
    by destruct (observed (column_cells t)). }
  split; [|split; [|done]].
  - intros Hseen.
    by destruct (cat_pipeline_kept m trains inputs q Hfit Hlen Hm Hpos Hseen) as (_ & _ & HB).
  - intros Hunseen. by apply (cat_pipeline_unseen m trains inputs q).
Qed.

End Branches.

(** ** Rows of the tables and rows of the matrices *)

Section RowSelection.
Context `{Numeric F}.

Lemma pick_cons {A} (i : nat) (idx : list nat) (l : list A) :
  pick (i :: idx) l = match l !! i with
                      | Some x => x :: pick idx l
                      | None => pick idx l
                      end.
Proof. unfold pick. simpl. by destruct (l !! i). Qed.

Lemma pick_nil {A} (idx : list nat) : pick idx (@nil A) = [].
Proof. induction idx as [|i idx IH]; [done|]. by rewrite pick_cons. Qed.

Lemma pick_fmap {A B} (f : A → B) (idx : list nat) (l : list A) :
  pick idx (f <$> l) = f <$> pick idx l.
Proof.
  induction idx as [|i idx IH]; [done|]. rewrite !pick_cons, list_lookup_fmap.
  destruct (l !! i); simpl; by rewrite IH.
Qed.

Lemma pick_map {A B} (f : A → B) (idx : list nat) (l : list A) :
  pick idx (map f l) = map f (pick idx l).
Proof. apply pick_fmap. Qed.

Lemma pick_length {A} (idx : list nat) (l : list A) :
  Forall (λ i, i < length l) idx → length (pick idx l) = length idx.
Proof.
  induction 1 as [|i idx Hi _ IH]; [done|]. rewrite pick_cons.
  destruct (l !! i) eqn:Hl; [simpl; by f_equal|]. apply lookup_ge_None in Hl. lia.
Qed.

Lemma pick_elem_of {A} (x : A) (idx : list nat) (l : list A) :
  x ∈ pick idx l → x ∈ l.
Proof.
  unfold pick. rewrite list_elem_of_omap. intros (i & _ & Hi).
  by apply list_elem_of_lookup_2 in Hi.
Qed.

Lemma pick_zip_with {A B C} (f : A → B → C) (idx : list nat) (l : list A) (k : list B) :
  length l = length k →
  pick idx (zip_with f l k) = zip_with f (pick idx l) (pick idx k).
Proof.
  intros Hlen. induction idx as [|i idx IH]; [done|].
  rewrite !pick_cons, lookup_zip_with.
  destruct (l !! i) as [x|] eqn:Hl; destruct (k !! i) as [y|] eqn:Hk; simpl; try by rewrite IH.
  - apply lookup_lt_Some in Hl. apply lookup_ge_None in Hk. lia.
  - apply lookup_lt_Some in Hk. apply lookup_ge_None in Hl. lia.
Qed.

Lemma pick_cols_len {A} (n : nat) (idx : list nat) (cols : list (list A)) :
  cols_len n cols → Forall (λ i, i < n) idx →
  cols_len (length idx) (pick idx <$> cols).
Proof.
  intros Hn Hidx. unfold cols_len. rewrite Forall_fmap.
  eapply Forall_impl; [exact Hn|]. intros c Hc. simpl. apply pick_length. by rewrite Hc.
Qed.

Lemma check_array_pick {A} (n : nat) (idx : list nat) (X : list (list A)) :
  check_array X = Ok () → cols_len n X → idx ≠ [] → Forall (λ i, i < n) idx →
  check_array (pick idx <$> X) = Ok ().
Proof.
  intros Hchk Hn Hne Hidx. apply (check_array_cols_len (length idx)).
  - apply check_array_Ok in Hchk as (c & X' & -> & _). done.
  - by apply (pick_cols_len n).
  - destruct idx; [done | simpl; lia].
Qed.

Lemma fold_rows_length (n : nat) (cols : list (list F)) :
  cols_len n cols → length (foldr (zip_with cons) (replicate n []) cols) = n.
Proof.
  induction 1 as [|c cols Hc _ IH]; simpl; [by rewrite length_replicate|].
  rewrite length_zip_with, Hc, IH. lia.
Qed.

Lemma pick_replicate {A} (n : nat) (idx : list nat) (x : A) :
  Forall (λ i, i < n) idx → pick idx (replicate n x) = replicate (length idx) x.
Proof.
  induction 1 as [|i idx Hi _ IH]; [done|].
  rewrite pick_cons, lookup_replicate_2 by done. simpl. by rewrite IH.
Qed.

Lemma pick_fold_rows (n : nat) (idx : list nat) (cols : list (list F)) :
  cols_len n cols → Forall (λ i, i < n) idx →
  foldr (zip_with cons) (replicate (length idx) []) (pick idx <$> cols)
  = pick idx (foldr (zip_with cons) (replicate n []) cols).
Proof.
  intros Hn Hidx. induction Hn as [|c cols Hc Hn IH].
  - simpl. by rewrite pick_replicate.
  - rewrite fmap_cons. cbn [foldr]. rewrite IH.
    rewrite pick_zip_with; [done|]. by rewrite fold_rows_length.
Qed.

(** Rows are put together entry by entry: the rows [idx] of the matrix of
    some columns are the rows of the matrix of the columns restricted to
    [idx]. *)
Lemma pick_rows_of (n : nat) (idx : list nat) (cols : list (list F)) :
  cols_len n cols → Forall (λ i, i < n) idx →
  ColumnTransformer.rows_of (pick idx <$> cols) = pick idx (ColumnTransformer.rows_of cols).
Proof.
  intros Hn Hidx. destruct cols as [|c0 cols0]; [simpl; by rewrite pick_nil|].
  assert (length c0 = n) as Hc0 by (by apply Forall_cons in Hn as [? _]).
  unfold ColumnTransformer.rows_of. rewrite fmap_cons.
  rewrite pick_length by (by rewrite Hc0). rewrite Hc0.
  exact (pick_fold_rows n idx (c0 :: cols0) Hn Hidx).
Qed.

Lemma column_cells_pick (idx : list nat) (c : Column F) :
  column_cells (pick_column idx c) = pick idx (column_cells c).
Proof. destruct c; simpl; by rewrite pick_map. Qed.

Lemma select_pick (idx : list nat) (df : gmap string (Column F)) (cols : list string)
    (X : list (Column F)) :
  ColumnTransformer.select df cols = Ok X →
  ColumnTransformer.select (pick_rows idx df) cols = Ok (pick_column idx <$> X).
Proof.
  rewrite !select_Ok. induction 1 as [|c col cols X Hc _ IH]; [constructor|].
  rewrite fmap_cons. constructor; [|done]. unfold pick_rows. by rewrite lookup_fmap, Hc.
Qed.

Lemma as_float_pick (idx : list nat) (c : Column F) (xs : list (option F)) :
  SimpleImputer.as_float c = Ok xs →
  SimpleImputer.as_float (pick_column idx c) = Ok (pick idx xs).
Proof.
  destruct c as [ys|ys]; simpl; [by intros [= ->]|].
  destruct (forallb _ ys) eqn:Hall; [|done]. intros [= <-].
  assert (forallb (λ x, bool_decide (x = None)) (pick idx ys) = true) as ->.
  { apply forallb_forall. intros x Hx%list_elem_of_In%pick_elem_of.
    rewrite forallb_forall in Hall. by apply Hall, list_elem_of_In. }
  by rewrite pick_fmap.
Qed.

Lemma mapR_as_float_pick (idx : list nat) (X : list (Column F)) (Xf : list (list (option F))) :
  mapR SimpleImputer.as_float X = Ok Xf →
  mapR SimpleImputer.as_float (pick_column idx <$> X) = Ok (pick idx <$> Xf).
Proof.
  rewrite !mapR_Ok_Forall2. induction 1 as [|c xs X Xf Hc _ IH]; [constructor|].
  rewrite !fmap_cons. constructor; [by apply as_float_pick | done].
Qed.

Lemma impute_pick {A} (idx : list nat) (st : list (option A)) (X : list (list (option A))) :
  omap id (zip_with SimpleImputer.impute st (pick idx <$> X))
  = pick idx <$> omap id (zip_with SimpleImputer.impute st X).
Proof.
  revert X. induction st as [|s st IH]; intros [|c X]; try done.
  rewrite fmap_cons. cbn [zip_with]. destruct s as [v|]; simpl; rewrite IH; [|done].
  by rewrite pick_fmap.
Qed.

Lemma transform_cols_pick {A} (n : nat) (idx : list nat) (st : list (option A))
    (X : list (list (option A))) (Y : list (list A)) :
  SimpleImputer.transform_cols st X = Ok Y →
  cols_len n X → idx ≠ [] → Forall (λ i, i < n) idx →
  SimpleImputer.transform_cols st (pick idx <$> X) = Ok (pick idx <$> Y).
Proof.
  unfold SimpleImputer.transform_cols. intros Ht Hn Hne Hidx.
  apply bind_Ok_inv in Ht as ([] & Hchk & Ht).
  destruct (decide _) as [Hlen|]; [|done]. injection Ht as <-.
  rewrite (check_array_pick n) by done. cbn [mbind result_bind].
  rewrite decide_True by (by rewrite length_fmap). by rewrite impute_pick.
Qed.

Lemma to_dense_pick (idx : list nat) (X : array F) :
  StandardScaler.to_dense (pick_array idx X) = pick idx <$> StandardScaler.to_dense X.
Proof.
  destruct X as [cols|cols]; simpl; [done|]. rewrite <- !list_fmap_compose.
  apply list_fmap_ext. intros _ c _. simpl. by rewrite pick_map.
Qed.

Lemma zip_with_pick {A B C} (f : A → list B → list C) (idx : list nat)
    (params : list A) (cols : list (list B)) :
  (∀ p c, f p (pick idx c) = pick idx (f p c)) →
  zip_with f params (pick idx <$> cols) = pick idx <$> zip_with f params cols.
Proof.
  intros Hf. revert cols. induction params as [|p params IH]; intros [|c cols]; try done.
  rewrite !fmap_cons. cbn [zip_with]. by rewrite fmap_cons, IH, Hf.
Qed.

Lemma scaler_pick (n : nat) (idx : list nat) (with_mean : bool) (params : list (F * F))
    (X Z : array F) :
  StandardScaler.transform_array with_mean params X = Ok Z →
  cols_len n (StandardScaler.to_dense X) → idx ≠ [] → Forall (λ i, i < n) idx →
  StandardScaler.transform_array with_mean params (pick_array idx X) = Ok (pick_array idx Z).
Proof.
  unfold StandardScaler.transform_array. intros Ht Hn Hne Hidx.
  apply bind_Ok_inv in Ht as ([] & Hchk & Ht).
  destruct (decide _) as [Hlen|]; [|done].
  rewrite to_dense_pick, (check_array_pick n) by done. cbn [mbind result_bind].
  rewrite decide_True by (by rewrite length_fmap).
  destruct X as [cols|cols]; cbn [pick_array].
  - injection Ht as <-. cbn [pick_array]. do 2 f_equal. apply zip_with_pick.
    intros [m s] c. by rewrite pick_fmap.
  - destruct with_mean; [done|]. injection Ht as <-. cbn [pick_array]. do 2 f_equal.
    apply zip_with_pick. intros [m s] c. by rewrite pick_fmap.
Qed.

Lemma one_hot_pick (idx : list nat) (cats col : list (scalar F)) :
  OneHotEncoder.one_hot cats (pick idx col) = pick idx <$> OneHotEncoder.one_hot cats col.
Proof.
  unfold OneHotEncoder.one_hot. rewrite <- list_fmap_compose.
  apply list_fmap_ext. intros _ c _. simpl. by rewrite pick_fmap.
Qed.

Lemma one_hot_all_pick (idx : list nat) (cats X : list (list (scalar F))) :
  concat (zip_with OneHotEncoder.one_hot cats (pick idx <$> X))
  = pick idx <$> concat (zip_with OneHotEncoder.one_hot cats X).
Proof.
  revert X. induction cats as [|c cats IH]; intros [|col X]; try done.
  rewrite fmap_cons. cbn [zip_with concat]. by rewrite fmap_app, IH, one_hot_pick.
Qed.

Lemma encoder_pick (n : nat) (idx : list nat) (cats X : list (list (scalar F))) (Z : array F) :
  OneHotEncoder.transform_cols cats X = Ok Z →
  cols_len n X → idx ≠ [] → Forall (λ i, i < n) idx →
  OneHotEncoder.transform_cols cats (pick idx <$> X) = Ok (pick_array idx Z).
Proof.
  intros Ht Hn Hne Hidx. pose proof Ht as Hchk.
  unfold OneHotEncoder.transform_cols in Hchk. apply bind_Ok_inv in Hchk as ([] & Hchk & _).
  apply (encoder_transform_shape n) in Ht as (Hlen & Hk & -> & _); [|done].
  rewrite encoder_transform_Ok.
  - cbn [pick_array]. by rewrite one_hot_all_pick.
  - by apply (check_array_pick n).
  - by rewrite length_fmap.
  - apply Forall2_fmap_r. eapply Forall2_impl; [exact Hk|].
    intros c col Hc v Hv. by apply Hc, (pick_elem_of _ idx).
Qed.

Lemma num_pipeline_pick (n : nat) (idx : list nat) (p : num_params F)
    (X : list (Column F)) (A : array F) :
  transform num_pipeline p X = Ok A →
  frame_cols_len n X → idx ≠ [] → Forall (λ i, i < n) idx →
  transform num_pipeline p (pick_column idx <$> X) = Ok (pick_array idx A).
Proof.
  intros Ht Hn Hne Hidx. apply Pipeline_transform in Ht as (Y & Htr & Hstr).
  destruct p as [st sc]. cbn [fst snd] in *. simpl in Htr.
  apply bind_Ok_inv in Htr as (Xf & HXf & Htr).
  apply bind_Ok_inv in Htr as (Yc & Htr & [= <-]).
  destruct (as_float_all n X Xf) as (HXn & _ & _); [done..|].
  pose proof Htr as HY. apply (transform_cols_shape n) in HY as (_ & _ & HY); [|done].
  unfold num_pipeline. apply Pipeline_transform. cbn [fst snd].
  exists (pick_array idx (Dense Yc)). split.
  - simpl. rewrite (mapR_as_float_pick idx X Xf) by done. simpl.
    by rewrite (transform_cols_pick n idx st Xf Yc).
  - by apply (scaler_pick n).
Qed.

Lemma cat_pipeline_pick (n : nat) (idx : list nat) (q : cat_params F)
    (X : list (Column F)) (B : array F) :
  transform cat_pipeline q X = Ok B →
  frame_cols_len n X → idx ≠ [] → Forall (λ i, i < n) idx →
  transform cat_pipeline q (pick_column idx <$> X) = Ok (pick_array idx B).
Proof.
  intros Ht Hn Hne Hidx. apply Pipeline_transform in Ht as (Y & Hty & Ht).
  apply Pipeline_transform in Ht as (Z & Hte & Hts).
  destruct q as [st [cats sc]]. cbn [fst snd] in *. simpl in Hty, Hte, Hts.
  assert (cols_len n (column_cells <$> X)) as Hcells by (by apply column_cells_cols_len).
  pose proof (imputer_transform_length n _ _ _ Hty Hcells) as HY.
  pose proof Hte as HZ. apply (encoder_transform_shape n) in HZ as (_ & _ & _ & _ & HZ); [|done].
  unfold cat_pipeline. apply Pipeline_transform. cbn [fst snd]. exists (pick idx <$> Y). split.
  - simpl. rewrite <- list_fmap_compose.
    rewrite (list_fmap_ext (column_cells ∘ pick_column idx) (pick idx ∘ column_cells) X)
      by (intros _ c _; apply column_cells_pick).
    rewrite list_fmap_compose. by apply (transform_cols_pick n).
  - apply Pipeline_transform. cbn [fst snd]. exists (pick_array idx Z). split; simpl.
    + by apply (encoder_pick n).
    + by apply (scaler_pick n).
Qed.

Lemma hstack_pick (n : nat) (idx : list nat) (s : bool) (A B : array F) :
  cols_len n (StandardScaler.to_dense A) → cols_len n (StandardScaler.to_dense B) →
  Forall (λ i, i < n) idx →
  ColumnTransformer.hstack s [pick_array idx A; pick_array idx B]
  = pick_features idx (ColumnTransformer.hstack s [A; B]).
Proof.
  intros HA HB Hidx. unfold ColumnTransformer.hstack.
  rewrite !fmap_cons, !fmap_nil. cbn [concat]. rewrite !app_nil_r, !to_dense_pick.
  rewrite <- fmap_app, (pick_rows_of n) by (by try apply Forall_app). by destruct s.
Qed.

(** The fitted transformer works row by row: on the rows [idx] of a table
    it gives the rows [idx] of what it gives on the table. *)
Lemma ct_transform_pick (n : nat) (idx : list nat) (p : num_params F) (q : cat_params F)
    (s : bool) (df : gmap string (Column F)) (X : features F) :
  ColumnTransformer.transform (fitted_preprocessor p q s) df = Ok X →
  has_rows n df → idx ≠ [] → Forall (λ i, i < n) idx →
  ColumnTransformer.transform (fitted_preprocessor p q s) (pick_rows idx df)
  = Ok (pick_features idx X).
Proof.
  intros Ht Hn Hne Hidx. apply ct_transform_inv in Ht as (A & B & HXn & HXc & Hnum & Hcat & ->).
  pose proof (select_cols_len n _ _ _ HXn Hn) as Hln.
  pose proof (select_cols_len n _ _ _ HXc Hn) as Hlc.
  pose proof (select_pick idx _ _ _ HXn) as HXn'.
  pose proof (select_pick idx _ _ _ HXc) as HXc'.
  pose proof (select_column_of _ _ _ HXn') as Heqn.
  pose proof (select_column_of _ _ _ HXc') as Heqc.
  apply ct_transform_inv. exists (pick_array idx A), (pick_array idx B).
  rewrite <- Heqn, <- Heqc. split; [done|]. split; [done|].
  split; [by apply (num_pipeline_pick n)|]. split; [by apply (cat_pipeline_pick n)|].
  symmetry. apply (hstack_pick n); [| |done].
  - by apply (num_transform_shape n) in Hnum as (_ & _ & _ & _ & ?).
  - by apply (cat_transform_shape n) in Hcat as (_ & ?).
Qed.

(** The object that [fit_transform] leaves gives, on the table it was fitted
    on, the matrix [fit_transform] returned. *)
Lemma transform_after_fit (df : gmap string (Column F)) (pre : preprocessor F)
    (X : features F) :
  ColumnTransformer.fit_transform new_preprocessor df = Ok (pre, X) →
  ColumnTransformer.transform pre df = Ok X.
Proof.
  intros Hfit.
  apply ct_fit_transform_inv in Hfit as (p & q & A & B & HXc & HXn & Hnum & Hcat & -> & ->).
  apply ct_transform_inv. exists A, B.
  apply fit_transform_Ok_inv in Hnum as [_ Hnum].
  apply fit_transform_Ok_inv in Hcat as [_ Hcat]. done.
Qed.

Lemma pick_rows_delete (idx : list nat) (df : gmap string (Column F)) (c : string) :
  delete c (pick_rows idx df) = pick_rows idx (delete c df).
Proof. unfold pick_rows. by rewrite fmap_delete. Qed.

Lemma pick_with_target (idx : list nat) (rows : list (list F)) (y : list (option (scalar F))) :
  length rows = length y →
  pick idx (with_target rows y) = with_target (pick idx rows) (pick idx y).
Proof. intros Hlen. unfold with_target. by apply pick_zip_with. Qed.

(** What the driver makes of one table with the fitted preprocessor, for the
    rows [idx] of the table: the rows [idx] of the matrix it makes of the
    table. *)
Lemma returned_pick (n : nat) (idx : list nat) (pre : preprocessor F)
    (df : gmap string (Column F)) (y : Column F) (rows : list (list F)) :
  is_Some (ColumnTransformer.fitted_ pre) →
  ColumnTransformer.num_pipeline pre = num_pipeline →
  ColumnTransformer.cat_pipeline pre = cat_pipeline →
  ColumnTransformer.numerical_columns pre = numerical_columns →
  ColumnTransformer.categorical_columns pre = categorical_columns →
  has_rows n df → df !! "math_score" = Some y →
  ColumnTransformer.transform pre (delete "math_score" df) = Ok (NdArray rows) →
  length rows = n →
  idx ≠ [] → Forall (λ i, i < n) idx →
  pick_rows idx df !! "math_score" = Some (pick_column idx y) ∧
  ColumnTransformer.transform pre (delete "math_score" (pick_rows idx df))
    = Ok (NdArray (pick idx rows)) ∧
  np.c_ (NdArray (pick idx rows)) (np.array (pick_column idx y))
    = Ok (Array2D (pick idx (with_target rows (column_cells y)))).
Proof.
  intros [[[p q] s] Hfit] Hnp Hcp Hnc Hcc Hn Hy Ht Hl Hne Hidx.
  assert (pre = fitted_preprocessor p q s) as ->.
  { destruct pre. simpl in *. by subst. }
  assert (length (column_cells y) = n) as Hly.
  { rewrite column_cells_length. exact (map_Forall_lookup_1 _ _ _ _ Hn Hy). }
  split; [|split].
  - unfold pick_rows. by rewrite lookup_fmap, Hy.
  - rewrite pick_rows_delete.
    apply (ct_transform_pick n idx) in Ht; [done | by apply has_rows_delete | done..].
  - unfold np.array. rewrite column_cells_pick. simpl.
    rewrite decide_True by (rewrite !pick_length; [done | by rewrite Hly | by rewrite Hl]).
    rewrite pick_with_target by lia. done.
Qed.

(** C5. Each table is split into its features, which are all its columns but
    [math_score], and the column [math_score]; the matrix returned for the
    table is the transformed feature matrix with the raw entries of
    [math_score] as the last column, and it has as many rows as the table.
    Rows keep their place: row [i] of the returned matrix is row [i] of the
    feature matrix followed by entry [i] of [math_score], and for any
    positions [idx] the preprocessor makes of the rows [idx] of the table
    the rows [idx] of the returned matrix, so that row [i] of the returned
    matrix is made from row [i] of the table. *)
Theorem target_appended_last
    (train_path test_path : string) (w w' : world F) (n m : nat)
    (train test : gmap string (Column F)) (r : ndarray F * ndarray F * string) :
  csv_files w !! train_path = Some train → csv_files w !! test_path = Some test →
  has_rows n train → has_rows m test →
  initiate_data_transformation train_path test_path w = (Ok r, w') →
  ∃ pre Xtr Xte ytr yte,
    train !! "math_score" = Some ytr ∧ test !! "math_score" = Some yte ∧
    ColumnTransformer.fit_transform new_preprocessor (delete "math_score" train)
      = Ok (pre, NdArray Xtr) ∧
    ColumnTransformer.transform pre (delete "math_score" test) = Ok (NdArray Xte) ∧
    r.1.1 = Array2D (with_target Xtr (column_cells ytr)) ∧
    r.1.2 = Array2D (with_target Xte (column_cells yte)) ∧
    length Xtr = n ∧ length (column_cells ytr) = n ∧
    length (with_target Xtr (column_cells ytr)) = n ∧
    length Xte = m ∧ length (column_cells yte) = m ∧
    length (with_target Xte (column_cells yte)) = m ∧
    (∀ i, i < n → ∃ x t, Xtr !! i = Some x ∧ column_cells ytr !! i = Some t ∧
       with_target Xtr (column_cells ytr) !! i = Some (((λ v, Some (Num v)) <$> x) ++ [t])) ∧
    (∀ i, i < m → ∃ x t, Xte !! i = Some x ∧ column_cells yte !! i = Some t ∧
       with_target Xte (column_cells yte) !! i = Some (((λ v, Some (Num v)) <$> x) ++ [t])) ∧
    (∀ idx, idx ≠ [] → Forall (λ i, i < n) idx →
       pick_rows idx train !! "math_score" = Some (pick_column idx ytr) ∧
       ColumnTransformer.transform pre (delete "math_score" (pick_rows idx train))
         = Ok (NdArray (pick idx Xtr)) ∧
       np.c_ (NdArray (pick idx Xtr)) (np.array (pick_column idx ytr))
         = Ok (Array2D (pick idx (with_target Xtr (column_cells ytr))))) ∧
    (∀ idx, idx ≠ [] → Forall (λ i, i < m) idx →
       pick_rows idx test !! "math_score" = Some (pick_column idx yte) ∧
       ColumnTransformer.transform pre (delete "math_score" (pick_rows idx test))
         = Ok (NdArray (pick idx Xte)) ∧
       np.c_ (NdArray (pick idx Xte)) (np.array (pick_column idx yte))
         = Ok (Array2D (pick idx (with_target Xte (column_cells yte))))).
Proof.
  intros Htrain Htest Hn Hm Hrun.
  apply initiate_data_transformation_Ok in Hrun
    as [train' test' ytr yte pre Xtr Xte Htrain' Htest' Hytr Hyte Hfit Htr Hctr Hcte _ _ _].
  rewrite Htrain in Htrain'. injection Htrain' as <-.
  rewrite Htest in Htest'. injection Htest' as <-.
  destruct (returned_dense n train ytr pre Xtr _ Hn Hytr Hfit Hctr)
    as (p & q & rows & -> & -> & _ & Hl & _ & _ & _ & Htrarr).
  pose proof Htr as Htr'.
  apply (ct_transform_shape m) in Htr' as (_ & Hs & Hl' & _); [|by apply has_rows_delete].
  destruct Xte as [rows'|?]; [|done]. simpl in Hl', Hcte.
  destruct (decide _) as [Hlen|]; [|done]. injection Hcte as Hcte.
  assert (length (column_cells ytr) = n) as Hly.
  { rewrite column_cells_length. exact (map_Forall_lookup_1 _ _ _ _ Hn Hytr). }
  assert (length (column_cells yte) = m) as Hly'.
  { rewrite column_cells_length. exact (map_Forall_lookup_1 _ _ _ _ Hm Hyte). }
  pose proof (transform_after_fit _ _ _ Hfit) as Htrn.
  exists (fitted_preprocessor p q false), rows, rows', ytr, yte.
  split; [done|]. split; [done|]. split; [done|]. split; [done|].
  split; [done|]. split; [done|].
  unfold with_target at 1 2. rewrite !length_zip_with.
  split; [done|]. split; [done|]. split; [lia|].
  split; [done|]. split; [done|]. split; [lia|].
  split; [|split; [|split]].
  - intros i Hi.
    destruct (lookup_lt_is_Some_2 rows i) as [x Hx]; [lia|].
    destruct (lookup_lt_is_Some_2 (column_cells ytr) i) as [t Ht]; [lia|].
    exists x, t. split; [done|]. split; [done|]. by apply with_target_lookup.
  - intros i Hi.
    destruct (lookup_lt_is_Some_2 rows' i) as [x Hx]; [lia|].
    destruct (lookup_lt_is_Some_2 (column_cells yte) i) as [t Ht]; [lia|].
    exists x, t. split; [done|]. split; [done|]. by apply with_target_lookup.
  - intros idx Hne Hidx. by apply (returned_pick n); try done; eexists.
  - intros idx Hne Hidx. by apply (returned_pick m); try done; eexists.
Qed.

End RowSelection.

(** ** Failures of the driver *)

Section Wrapping.
Context `{Numeric F}.

(** C7. A statement of [initiate_data_transformation] that fails makes the
    call raise: the call raises [CustomException] carrying the exception of
    the first statement that fails and the line of that statement, nothing
    after that statement runs, and unless the failing statement is the save
    itself the files are left as they were.  Conversely a call that raises
    raises exactly that, and a call that does not raise has completed every
    statement and returns the triple.  [get_data_transformer_object] has no
    statement that can fail and returns its object. *)
Theorem failures_are_wrapped (train_path test_path : string) (w : world F) :
  (∀ cause lineno, failure train_path test_path w cause lineno →
     ∃ w', initiate_data_transformation train_path test_path w
           = (Raise (CustomException cause lineno), w') ∧
           (lineno ≠ 107 → w' = w)) ∧
  (∀ e w', initiate_data_transformation train_path test_path w = (Raise e, w') →
     ∃ cause lineno, e = CustomException cause lineno ∧
       failure train_path test_path w cause lineno) ∧
  (∀ r w', initiate_data_transformation train_path test_path w = (Ok r, w') →
     success train_path test_path w r w' ∧ r.2 = "artifacts/preprocessor.pkl" ∧
     ∀ cause lineno, ¬ failure train_path test_path w cause lineno) ∧
  get_data_transformer_object w = (Ok new_preprocessor, w).
Proof.
  split; [|split; [|split; [|done]]].
  - intros cause lineno Hfail. exists w. split; [by apply failure_run | done].
  - intros e w' Hrun.
    destruct (initiate_data_transformation_cases train_path test_path w)
      as [(r & w'' & Hrun' & _) | (cause & lineno & Hrun' & Hfail)];
      rewrite Hrun' in Hrun; [discriminate Hrun|].
    injection Hrun as <- <-. by exists cause, lineno.
  - intros r w' Hrun. pose proof (initiate_data_transformation_Ok _ _ _ _ _ Hrun) as Hs.
    split; [done|]. split.
    + destruct Hs as [? ? ? ? ? ? ? _ _ _ _ _ _ _ _ Hp _ _]. by rewrite Hp.
    + intros cause lineno Hfail. apply failure_run in Hfail. rewrite Hfail in Hrun.
      discriminate Hrun.
Qed.

End Wrapping.

(** ** Calls on the transformer object *)

Section Calls.
Context `{Numeric F}.



End Calls.

(** ** When the call returns *)

Section Returns.
Context `{Numeric F}.

Lemma filter_Exists {A} (P : A → Prop) `{∀ x, Decision (P x)} (l : list A) :
  0 < length (filter P l) ↔ Exists P l.
Proof.
  split.
  - intros Hpos. destruct (filter P l) as [|x k] eqn:Hf; [simpl in Hpos; lia|].
    assert (x ∈ filter P l) as Hx by (rewrite Hf; by left).
    apply list_elem_of_filter in Hx as [HP Hx]. apply Exists_exists. eauto.
  - intros (x & Hx & HP)%Exists_exists.
    assert (x ∈ filter P l) as Hin by (by apply list_elem_of_filter).
    destruct (filter P l); [by apply elem_of_nil in Hin | simpl; lia].
Qed.

Lemma seen_where_observed_refl (cells : list (list (option (scalar F)))) :
  seen_where_observed cells cells.
Proof. apply Forall_Forall2_diag, Forall_forall. by intros. Qed.

(** The condition on the tables, on the columns as the transformer selects
    them. *)
Lemma seen_in_training_columns (train test : gmap string (Column F)) :
  seen_in_training train test ↔
  seen_where_observed
    (column_cells <$> (column_of (delete target_column_name train) <$> categorical_columns))
    (column_cells <$> (column_of (delete target_column_name test) <$> categorical_columns)).
Proof.
  unfold seen_where_observed. rewrite Forall2_fmap, Forall2_fmap. split.
  - intros Hseen. apply Forall_Forall2_diag, Forall_forall. intros c Hc Hobs v Hv.
    assert (c ≠ target_column_name) as Hne
      by (apply schema_not_target, elem_of_app; by right).
    rewrite column_of_delete in Hobs, Hv |- * by done. by apply Hseen.
  - intros Hseen c Hc Hobs v Hv.
    assert (c ≠ target_column_name) as Hne
      by (apply schema_not_target, elem_of_app; by right).
    pose proof (Forall2_same_elem _ _ Hseen c Hc) as Hcc. simpl in Hcc.
    rewrite !column_of_delete in Hcc by done. by apply Hcc.
Qed.

(** A table that the fitted categorical branch transforms holds, in the
    columns training observed, values of training only. *)
Lemma cat_transform_seen (m : nat) (trains inputs : list (Column F)) (q : cat_params F)
    (B : array F) :
  fit cat_pipeline trains = Ok q → transform cat_pipeline q inputs = Ok B →
  length inputs = length trains → frame_cols_len m inputs →
  seen_where_observed (column_cells <$> trains) (column_cells <$> inputs).
Proof.
  intros Hfit Ht Hlen Hm.
  apply cat_fit_full in Hfit as (_ & Hst & _ & Hcats & _).
  apply Pipeline_transform in Ht as (Y & Hty & Ht).
  apply Pipeline_transform in Ht as (Z & Hte & _).
  destruct q as [st [cats sc]]. cbn [fst snd] in *. simpl in Hty, Hte.
  assert (cols_len m (column_cells <$> inputs)) as Hcells by (by apply column_cells_cols_len).
  pose proof (imputer_transform_length m _ _ _ Hty Hcells) as HY.
  apply (encoder_transform_shape m) in Hte as (_ & Hk & _); [|done].
  unfold SimpleImputer.transform_cols in Hty. apply bind_Ok_inv in Hty as ([] & _ & Hty).
  destruct (decide _); [|done]. injection Hty as <-.
  apply known_seen; [by rewrite !length_fmap|]. by rewrite <- Hst, <- Hcats.
Qed.

(** A categorical branch that could be fitted has kept a column. *)
Lemma cat_fit_kept (X : list (Column F)) (q : cat_params F) :
  fit cat_pipeline X = Ok q → Exists has_observation X.
Proof.
  intros Hfit. apply cat_fit_full in Hfit as (_ & _ & Hchk & _).
  rewrite imputed_kept in Hchk.
  assert (kept_with (filled_by SimpleImputer.mode) (column_cells <$> X) (column_cells <$> X) ≠ [])
    as Hne by (intros Hnil; by rewrite Hnil in Hchk).
  apply kept_nonempty_iff in Hne; [|done]. apply Exists_exists in Hne as (t & Ht & Hobs).
  apply list_elem_of_fmap in Ht as (c & -> & Hc). apply Exists_exists. by exists c.
Qed.

(** The transformer can be fitted on a conforming table in which a score
    column and a categorical column have an observed value, and it then
    transforms every conforming table whose categorical values were seen. *)
Lemma fit_and_transform (n m : nat) (train test : gmap string (Column F)) :
  0 < n → 0 < m → has_rows n train → has_rows m test → conforms train → conforms test →
  0 < numeric_kept train → 0 < categorical_kept train → seen_in_training train test →
  ∃ pre Xtr Xte,
    ColumnTransformer.fit_transform new_preprocessor (delete target_column_name train)
      = Ok (pre, Xtr) ∧
    ColumnTransformer.transform pre (delete target_column_name test) = Ok Xte.
Proof.
  intros Hnpos Hmpos Hn Hm Hctrain Hctest Hnk Hck Hseen.
  pose proof (has_rows_delete n train target_column_name Hn) as Hn'.
  pose proof (has_rows_delete m test target_column_name Hm) as Hm'.
  destruct (conforms_numeric train Hctrain) as (Xf & HeqXf & HselXf & HlenXf).
  destruct (conforms_numeric test Hctest) as (Xf' & HeqXf' & HselXf' & HlenXf').
  pose proof (conforms_categorical train Hctrain) as HselXc.
  pose proof (conforms_categorical test Hctest) as HselXc'.
  apply seen_in_training_columns in Hseen.
  rewrite <- numeric_kept_delete in Hnk. rewrite <- categorical_kept_delete in Hck.
  unfold numeric_kept in Hnk. unfold categorical_kept in Hck. rewrite HeqXf in Hnk.
  set (Xc := column_of (delete target_column_name train) <$> categorical_columns) in *.
  set (Xc' := column_of (delete target_column_name test) <$> categorical_columns) in *.
  assert (Exists (λ t, observed t ≠ []) Xf) as HobsXf.
  { apply filter_Exists, Exists_exists in Hnk as (c & Hc & Hobs).
    apply list_elem_of_fmap in Hc as (xs & -> & Hxs). apply Exists_exists. exists xs.
    split; [done|]. by apply has_observation_NumCol. }
  assert (Exists has_observation Xc) as HobsXc by (by apply filter_Exists in Hck).
  assert (cols_len n Xf) as HnXf by (apply frame_cols_len_NumCol; by eapply select_cols_len).
  assert (cols_len m Xf') as HmXf' by (apply frame_cols_len_NumCol; by eapply select_cols_len).
  assert (frame_cols_len n Xc) as HnXc by (by eapply select_cols_len).
  assert (frame_cols_len m Xc') as HmXc' by (by eapply select_cols_len).
  destruct (num_fit_Ok_kept n Xf Hnpos HnXf HobsXf) as [p Hp].
  destruct (cat_fit_Ok_kept n Xc Hnpos HnXc HobsXc) as [q Hq].
  destruct (num_pipeline_kept n Xf Xf p Hp eq_refl HnXf Hnpos) as (_ & _ & Hnum).
  destruct (num_pipeline_kept m Xf Xf' p Hp) as (_ & _ & Hnum'); [lia | done..|].
  destruct (cat_pipeline_kept n Xc Xc q Hq eq_refl HnXc Hnpos) as (_ & _ & B & Hcat & _);
    [apply seen_where_observed_refl|].
  destruct (cat_pipeline_kept m Xc Xc' q Hq) as (_ & _ & B' & Hcat' & _);
    [unfold Xc, Xc'; by rewrite !length_fmap | done..|].
  eexists _, _, _. split.
  - apply ct_fit_transform_inv. eexists p, q, _, B. rewrite HeqXf. fold Xc.
    split; [done|]. split; [done|]. split; [|split; [|done]].
    + by apply fit_transform_Ok_inv.
    + by apply fit_transform_Ok_inv.
  - apply ct_transform_inv. eexists _, B'. rewrite HeqXf'. fold Xc'. done.
Qed.

(** C9, as the code has it.  For a training table of 100 rows and a test
    table of 20 rows, both with the columns of the schema, the call raises
    nothing, returns matrices of 100 and 20 rows and leaves the fitted
    preprocessor at the artifact path when: a score column and a categorical
    column of the training table have an observed value, every observed value
    of a categorical column of the test table was observed in training if
    training observed that column at all, the result is dense, and the
    artifact path can be written.  In every other case the call raises
    [CustomException]; no call returns without these conditions. *)
Theorem end_to_end_100_20
    (train_path test_path : string) (w : world F) (train test : gmap string (Column F)) :
  csv_files w !! train_path = Some train → csv_files w !! test_path = Some test →
  has_rows 100 train → has_rows 20 test →
  conforms train → conforms test →
  (transformable train test ∧ "artifacts/preprocessor.pkl" ∉ read_only w →
   ∃ tr te w',
     initiate_data_transformation train_path test_path w
       = (Ok (Array2D tr, Array2D te, "artifacts/preprocessor.pkl"), w') ∧
     length tr = 100 ∧ length te = 20 ∧
     is_Some (artifacts w' !! "artifacts/preprocessor.pkl")) ∧
  (∀ r w', initiate_data_transformation train_path test_path w = (Ok r, w') →
     transformable train test ∧ "artifacts/preprocessor.pkl" ∉ read_only w) ∧
  (¬ (transformable train test ∧ "artifacts/preprocessor.pkl" ∉ read_only w) →
   ∃ cause lineno,
     initiate_data_transformation train_path test_path w
       = (Raise (CustomException cause lineno), w)).
Proof.
  intros Htrain Htest Hn Hm Hctrain Hctest.
  pose proof (has_rows_delete 100 train target_column_name Hn) as Hn'.
  pose proof (has_rows_delete 20 test target_column_name Hm) as Hm'.
  assert (∀ r w', initiate_data_transformation train_path test_path w = (Ok r, w') →
            transformable train test ∧ "artifacts/preprocessor.pkl" ∉ read_only w) as Honly.
  { intros r w' Hrun. apply initiate_data_transformation_Ok in Hrun
      as [train' test' ytr yte pre Xtr Xte Htrain' Htest' Hytr Hyte Hfit Htr Hctr Hcte _ Hw _].
    rewrite Htrain in Htrain'. injection Htrain' as <-.
    rewrite Htest in Htest'. injection Htest' as <-.
    split; [|done].
    destruct (returned_dense 100 train ytr pre Xtr _ Hn Hytr Hfit Hctr)
      as (p & q & rows & -> & -> & _).
    pose proof Hfit as Hshape.
    apply (ct_fit_transform_shape 100) in Hshape
      as (p' & q' & s & Heq & _ & Hnk & _ & _ & _ & _ & _ & _ & Hdens); [|done].
    injection Heq as _ _ <-.
    rewrite numeric_kept_delete, categorical_kept_delete, distinct_total_delete in *.
    symmetry in Hdens. apply Nat.ltb_ge in Hdens.
    apply ct_fit_transform_inv in Hfit as (p0 & q0 & A & B & _ & _ & _ & Hcat & Heq & _).
    injection Heq as <- <- _.
    apply fit_transform_Ok_inv in Hcat as [Hq _].
    apply ct_transform_inv in Htr as (A' & B' & _ & HXc' & _ & Hcat' & _).
    split; [done|]. split; [|split; [|lia]].
    - rewrite <- categorical_kept_delete. unfold categorical_kept.
      apply filter_Exists. by apply (cat_fit_kept _ q).
    - apply seen_in_training_columns.
      apply (cat_transform_seen 20 _ _ q B'); [done | done | by rewrite !length_fmap|].
      by eapply select_cols_len. }
  split; [|split; [done|]].
  - intros [(Hnk & Hck & Hseen & Hdense) Hw].
    destruct (fit_and_transform 100 20 train test) as (pre & Xtr & Xte & Hfit & Htr);
      [lia | lia | done..|].
    pose proof Hfit as Hshape.
    apply (ct_fit_transform_shape 100) in Hshape
      as (p & q & s & -> & _ & _ & _ & _ & _ & Hs & Hl & _ & Hdens); [|done].
    rewrite numeric_kept_delete, categorical_kept_delete, distinct_total_delete in Hdens.
    assert (s = false) as -> by (rewrite Hdens; apply Nat.ltb_ge; lia).
    pose proof Htr as Hshape'.
    apply (ct_transform_shape 20) in Hshape' as (_ & Hs' & Hl' & _); [|done].
    destruct Xtr as [rows|?]; [|done]. destruct Xte as [rows'|?]; [|done].
    cbn [features_rows] in Hl, Hl'.
    destruct Hctrain as (_ & _ & [ytr Hytr]). destruct Hctest as (_ & _ & [yte Hyte]).
    assert (length (column_cells ytr) = 100) as Hly.
    { rewrite column_cells_length. exact (map_Forall_lookup_1 _ _ _ _ Hn Hytr). }
    assert (length (column_cells yte) = 20) as Hly'.
    { rewrite column_cells_length. exact (map_Forall_lookup_1 _ _ _ _ Hm Hyte). }
    exists (with_target rows (column_cells ytr)), (with_target rows' (column_cells yte)).
    eexists. split; [|split; [|split]].
    + apply success_run. eapply success_intro; try done; cbn [fst snd].
      * unfold np.c_, np.array. rewrite decide_True by lia. done.
      * unfold np.c_, np.array. rewrite decide_True by lia. done.
    + unfold with_target. rewrite length_zip_with. lia.
    + unfold with_target. rewrite length_zip_with. lia.
    + rewrite <- artifact_path_eq, saved_artifact. by eexists.
  - intros Hnot.
    destruct (initiate_data_transformation_cases train_path test_path w)
      as [(r & w' & Hrun & _) | (cause & lineno & Hrun & _)].
    + exfalso. by apply Hnot, (Honly r w').
    + by exists cause, lineno.
Qed.

End Returns.

(** ** The further properties on sample tables *)

Section EdgeRuns.
Import Sample Edge.
#[local] Existing Instance Q_numeric.

Lemma train3_fully_observed : fully_observed train3.
Proof.
  intros c Hc. unfold numerical_columns, categorical_columns in Hc. simpl in Hc.
  repeat (apply elem_of_cons in Hc as [->|Hc];
          [apply has_observation_decide; vm_compute; reflexivity|]).
  by apply elem_of_nil in Hc.
Qed.

Lemma test2_categories_seen : categories_seen train3 test2.
Proof.
  intros c v Hc. unfold categorical_columns in Hc.
  repeat (apply elem_of_cons in Hc as [->|Hc];
          [revert v; apply seen_decide; vm_compute; reflexivity|]).
  by apply elem_of_nil in Hc.
Qed.

Lemma train5_fully_observed : fully_observed train5_distinct.
Proof.
  intros c Hc. unfold numerical_columns, categorical_columns in Hc. simpl in Hc.
  repeat (apply elem_of_cons in Hc as [->|Hc];
          [apply has_observation_decide; vm_compute; reflexivity|]).
  by apply elem_of_nil in Hc.
Qed.

Lemma test1_categories_seen : categories_seen train5_distinct test1.
Proof.
  intros c v Hc. unfold categorical_columns in Hc.
  repeat (apply elem_of_cons in Hc as [->|Hc];
          [revert v; apply seen_decide; vm_compute; reflexivity|]).
  by apply elem_of_nil in Hc.
Qed.

Lemma table_has_features (g r p l t : list (option string)) (ws rs ms : list (option Q)) :
  has_features (table g r p l t ws rs ms).
Proof.
  intros c Hc. unfold numerical_columns, categorical_columns in Hc. simpl in Hc.
  repeat (apply elem_of_cons in Hc as [->|Hc]; [by eexists|]). by apply elem_of_nil in Hc.
Qed.

(** Two concrete tables agree on listed columns. *)
Ltac agree_on_columns :=
  let c := fresh "c" in let Hc := fresh "Hc" in
  intros c Hc; unfold numerical_columns, categorical_columns in Hc; simpl in Hc;
  repeat (apply elem_of_cons in Hc as [->|Hc]; [vm_compute; reflexivity|]);
  apply elem_of_nil in Hc; destruct Hc.

Lemma missing_file_raises_witness :
  initiate_data_transformation "nowhere.csv" "test.csv" (files train3 test2)
  = (Raise (CustomException (FileNotFoundError "nowhere.csv") 76), files train3 test2).
Proof.
  destruct (missing_file_raises "nowhere.csv" "test.csv" (files train3 test2))
    as [[_ Hrun]|[[x Hx] _]].
  - left. reflexivity.
  - exact Hrun.
  - discriminate Hx.
Defined.

Lemma missing_target_raises_witness :
  initiate_data_transformation "train.csv" "test.csv" (files train_no_target test2)
  = (Raise (CustomException (KeyError "math_score") 88), files train_no_target test2).
Proof.
  destruct (missing_target_raises "train.csv" "test.csv" (files train_no_target test2)
              train_no_target test2 (lookup_train _ _) (lookup_test _ _))
    as [[_ Hrun]|[[x Hx] _]].
  - left. reflexivity.
  - exact Hrun.
  - discriminate Hx.
Defined.

Lemma missing_training_feature_raises_witness :
  initiate_data_transformation "train.csv" "test.csv" (files train_no_lunch test2)
  = (Raise (CustomException
             (ValueError "A given column is not a column of the dataframe") 96),
     files train_no_lunch test2).
Proof.
  apply (missing_training_feature_raises "train.csv" "test.csv" (files train_no_lunch test2)
           train_no_lunch test2 "lunch" (lookup_train _ _) (lookup_test _ _)).
  - by eexists.
  - by eexists.
  - repeat constructor.
  - reflexivity.
Defined.

Lemma missing_test_feature_raises_witness :
  ∃ msg, initiate_data_transformation "train.csv" "test.csv" (files train3 test_no_lunch)
         = (Raise (CustomException (ValueError msg) 97), files train3 test_no_lunch).
Proof.
  assert (is_Ok (ColumnTransformer.fit_transform new_preprocessor
                   (delete "math_score" train3)) = true) as Hok
    by (vm_compute; reflexivity).
  destruct (ColumnTransformer.fit_transform new_preprocessor (delete "math_score" train3))
    as [[pre Xtr]|e] eqn:Hfit; [|discriminate Hok].
  apply (missing_test_feature_raises "train.csv" "test.csv" (files train3 test_no_lunch)
           train3 test_no_lunch pre Xtr "lunch" (lookup_train _ _) (lookup_test _ _)).
  - by eexists.
  - by eexists.
  - exact Hfit.
  - repeat constructor.
  - reflexivity.
Defined.

Lemma empty_training_table_raises_witness :
  initiate_data_transformation "train.csv" "test.csv" (files no_rows test2)
  = (Raise (CustomException (ValueError "Found array with 0 sample(s)") 96),
     files no_rows test2).
Proof.
  apply (empty_training_table_raises "train.csv" "test.csv" (files no_rows test2)
           no_rows test2 (lookup_train _ _) (lookup_test _ _)).
  - apply has_rows_decide. vm_compute. reflexivity.
  - apply table_has_features.
  - by eexists.
  - by eexists.
Defined.

Lemma empty_test_table_raises_witness :
  initiate_data_transformation "train.csv" "test.csv" (files train3 no_rows)
  = (Raise (CustomException (ValueError "Found array with 0 sample(s)") 97),
     files train3 no_rows).
Proof.
  assert (is_Ok (ColumnTransformer.fit_transform new_preprocessor
                   (delete "math_score" train3)) = true) as Hok
    by (vm_compute; reflexivity).
  destruct (ColumnTransformer.fit_transform new_preprocessor (delete "math_score" train3))
    as [[pre Xtr]|e] eqn:Hfit; [|discriminate Hok].
  apply (empty_test_table_raises "train.csv" "test.csv" (files train3 no_rows)
           train3 no_rows pre Xtr (lookup_train _ _) (lookup_test _ _)).
  - by eexists.
  - by eexists.
  - exact Hfit.
  - apply has_rows_decide. vm_compute. reflexivity.
  - apply table_has_features.
Defined.

Lemma unobserved_scores_raise_witness :
  initiate_data_transformation "train.csv" "test.csv" (files train_no_scores test2)
  = (Raise (CustomException (ValueError "Found array with 0 feature(s)") 96),
     files train_no_scores test2).
Proof.
  apply (unobserved_scores_raise "train.csv" "test.csv" (files train_no_scores test2) 3
           train_no_scores test2 (lookup_train _ _) (lookup_test _ _)).
  - lia.
  - apply has_rows_decide. vm_compute. reflexivity.
  - apply table_conforms.
  - by eexists.
  - intros c Hc. unfold numerical_columns in Hc.
    repeat (apply elem_of_cons in Hc as [->|Hc]; [intros Hobs; by apply Hobs|]).
    by apply elem_of_nil in Hc.
Defined.

Lemma other_columns_ignored_witness :
  (initiate_data_transformation "train.csv" "test.csv" (files train3 test2)).1
  = (initiate_data_transformation "train.csv" "test.csv"
       (files train3_with_id test2_with_id)).1.
Proof.
  apply (other_columns_ignored "train.csv" "test.csv" "train.csv" "test.csv"
           (files train3 test2) (files train3_with_id test2_with_id)
           train3 test2 train3_with_id test2_with_id
           (lookup_train _ _) (lookup_test _ _) (lookup_train _ _) (lookup_test _ _)).
  - agree_on_columns.
  - agree_on_columns.
  - reflexivity.
Defined.

Lemma target_is_not_a_feature_witness :
  ∃ r1 r2 Xtr Xte,
    (run train3 test2).1 = Ok r1 ∧
    (run train3_other_target test2_other_target).1 = Ok r2 ∧
    np.c_ Xtr [Some (Num 1); Some (Num 2); Some (Num 3)]%Q = Ok r1.1.1 ∧
    np.c_ Xtr [Some (Num 9%Q); None; Some (Num 7%Q)] = Ok r2.1.1 ∧
    np.c_ Xte [Some (Num 1%Q); None] = Ok r1.1.2 ∧
    np.c_ Xte [Some (Str "pass"); Some (Str "fail")] = Ok r2.1.2.
Proof.
  assert (∃ r1, (run train3 test2).1 = Ok r1) as [r1 H1]
    by (eexists; vm_compute; reflexivity).
  assert (∃ r2, (run train3_other_target test2_other_target).1 = Ok r2) as [r2 H2]
    by (eexists; vm_compute; reflexivity).
  assert (agree_on (numerical_columns ++ categorical_columns)
            train3 train3_other_target) as Htr by agree_on_columns.
  assert (agree_on (numerical_columns ++ categorical_columns)
            test2 test2_other_target) as Hte by agree_on_columns.
  destruct (target_is_not_a_feature "train.csv" "test.csv" "train.csv" "test.csv"
              (files train3 test2) (files train3_other_target test2_other_target) _ _
              train3 test2 train3_other_target test2_other_target r1 r2
              (lookup_train _ _) (lookup_test _ _) (lookup_train _ _) (lookup_test _ _)
              Htr Hte (run_result _ _ _ H1) (run_result _ _ _ H2))
    as (_ & Xtr & Xte & ytr1 & ytr2 & yte1 & yte2 & Hy1 & Hy2 & Hy3 & Hy4 & Hc1 & Hc2 & Hc3 & Hc4).
  - assert (train3 !! "math_score" = Some (NumCol [Some 1; Some 2; Some 3]%Q)) as E1
      by (vm_compute; reflexivity).
    assert (train3_other_target !! "math_score"
            = Some (NumCol [Some 9%Q; None; Some 7%Q])) as E2 by (vm_compute; reflexivity).
    assert (test2 !! "math_score" = Some (NumCol [Some 1%Q; None])) as E3
      by (vm_compute; reflexivity).
    assert (test2_other_target !! "math_score"
            = Some (ObjCol [Some "pass"; Some "fail"])) as E4 by (vm_compute; reflexivity).
    rewrite E1 in Hy1. injection Hy1 as <-. rewrite E2 in Hy2. injection Hy2 as <-.
    rewrite E3 in Hy3. injection Hy3 as <-. rewrite E4 in Hy4. injection Hy4 as <-.
    exists r1, r2, Xtr, Xte. split; [exact H1|]. split; [exact H2|].
    split; [exact Hc1|]. split; [exact Hc2|]. split; [exact Hc3 | exact Hc4].
Defined.

Lemma returned_rows_witness :
  ∃ r te,
    (run train3 test2).1 = Ok r ∧ r.1.2 = Array2D te ∧
    te !! 1 = Some (((λ x, Some (Num x)) <$> feature_row train3 test2 1) ++ [None]) ∧
    length (feature_row train3 test2 1) = 12.
Proof.
  assert (∃ r, (run train3 test2).1 = Ok r) as [r Hrun]
    by (eexists; vm_compute; reflexivity).
  assert (has_rows 3 train3) as Hn by (apply has_rows_decide; vm_compute; reflexivity).
  assert (has_rows 2 test2) as Hm by (apply has_rows_decide; vm_compute; reflexivity).
  destruct (returned_rows "train.csv" "test.csv" (files train3 test2) _ 3 2 train3 test2 r
              (lookup_train _ _) (lookup_test _ _) Hn Hm
              (table_conforms _ _ _ _ _ _ _ _) (table_conforms _ _ _ _ _ _ _ _)
              train3_fully_observed test2_categories_seen (run_result _ _ _ Hrun))
    as (tr & te & ytr & yte & _ & Hte & _ & Hyte & _ & Hrows).
  assert (test2 !! "math_score" = Some (NumCol [Some 1%Q; None])) as E
    by (vm_compute; reflexivity).
  rewrite E in Hyte. injection Hyte as <-.
  exists r, te. split; [exact Hrun|]. split; [exact Hte|].
  split; [apply (Hrows 1); lia | vm_compute; reflexivity].
Defined.

Lemma returned_width_bounded_witness :
  ∃ tr te,
    (run train3 test2).1 = Ok (Array2D tr, Array2D te, "artifacts/preprocessor.pkl") ∧
    Forall (λ row, length row ≤ 24) tr ∧ Forall (λ row, length row ≤ 24) te.
Proof.
  assert (∃ tr te, (run train3 test2).1
                   = Ok (Array2D tr, Array2D te, "artifacts/preprocessor.pkl"))
    as (tr & te & Hrun) by (eexists _, _; vm_compute; reflexivity).
  assert (has_rows 3 train3) as Hn by (apply has_rows_decide; vm_compute; reflexivity).
  assert (has_rows 2 test2) as Hm by (apply has_rows_decide; vm_compute; reflexivity).
  destruct (returned_width_bounded "train.csv" "test.csv" (files train3 test2) _ 3 2
              train3 test2 _ (lookup_train _ _) (lookup_test _ _) Hn Hm
              (run_result _ _ _ Hrun))
    as (_ & tr' & te' & Htr & Hte & Hw & Hw').
  injection Htr as <-. injection Hte as <-.
  exists tr, te. split; [exact Hrun|]. split; [exact Hw | exact Hw'].
Defined.

Lemma many_categories_raise_witness :
  distinct_total train5_distinct = 25 ∧
  initiate_data_transformation "train.csv" "test.csv" (files train5_distinct test1)
  = (Raise (CustomException
             (ValueError "all the input array dimensions except for the concatenation axis must match exactly")
             99), files train5_distinct test1).
Proof.
  assert (distinct_total train5_distinct = 25) as Hd by (vm_compute; reflexivity).
  split; [exact Hd|].
  apply (many_categories_raise "train.csv" "test.csv" (files train5_distinct test1) 5 1
           train5_distinct test1 (lookup_train _ _) (lookup_test _ _)).
  - apply has_rows_decide. vm_compute. reflexivity.
  - apply has_rows_decide. vm_compute. reflexivity.
  - lia.
  - apply table_conforms.
  - apply table_conforms.
  - apply train5_fully_observed.
  - apply test1_categories_seen.
  - rewrite Hd. lia.
Defined.

Lemma call_returns_witness :
  ∃ tr te,
    (run train3 test2).1 = Ok (Array2D tr, Array2D te, "artifacts/preprocessor.pkl") ∧
    length tr = 3 ∧ length te = 2 ∧
    is_Some (artifacts (run train3 test2).2 !! "artifacts/preprocessor.pkl").
Proof.
  assert (has_rows 3 train3) as Hn by (apply has_rows_decide; vm_compute; reflexivity).
  assert (has_rows 2 test2) as Hm by (apply has_rows_decide; vm_compute; reflexivity).
  assert (distinct_total train3 ≤ 21) as Hfew by (vm_compute; lia).
  assert ("artifacts/preprocessor.pkl" ∉ read_only (files train3 test2)) as Hw
    by (apply not_elem_of_empty).
  destruct (call_returns "train.csv" "test.csv" (files train3 test2) 3 2 train3 test2
              (lookup_train _ _) (lookup_test _ _) Hn Hm)
    as (tr & te & w' & Hrun & Hl & Hl' & Ha);
    [lia | lia | apply table_conforms | apply table_conforms | apply train3_fully_observed
    | apply test2_categories_seen | exact Hfew | exact Hw |].
  exists tr, te. unfold run. rewrite Hrun.
  split; [reflexivity|]. split; [exact Hl|]. split; [exact Hl' | exact Ha].
Defined.

Lemma train_no_gender_conforms : conforms train_no_gender.
Proof.
  split; [|split].
  - intros c Hc. unfold numerical_columns in Hc.
    repeat (apply elem_of_cons in Hc as [->|Hc]; [eexists; vm_compute; reflexivity|]).
    apply elem_of_nil in Hc. destruct Hc.
  - intros c Hc. unfold categorical_columns in Hc.
    repeat (apply elem_of_cons in Hc as [->|Hc]; [eexists; vm_compute; reflexivity|]).
    apply elem_of_nil in Hc. destruct Hc.
  - eexists. vm_compute. reflexivity.
Qed.

Lemma unobserved_columns_ignored_witness :
  test2 !! "gender" ≠ test2_other_gender !! "gender" ∧
  (initiate_data_transformation "train.csv" "test.csv"
     (files3 train_no_gender test2 test2_other_gender)).1
  = (initiate_data_transformation "train.csv" "other.csv"
       (files3 train_no_gender test2 test2_other_gender)).1.
Proof.
  split; [vm_compute; discriminate|].
  apply (unobserved_columns_ignored "train.csv" "test.csv" "other.csv"
           (files3 train_no_gender test2 test2_other_gender) 2
           train_no_gender test2 test2_other_gender).
  - reflexivity.
  - reflexivity.
  - reflexivity.
  - apply train_no_gender_conforms.
  - apply table_conforms.
  - apply table_conforms.
  - apply has_rows_decide. vm_compute. reflexivity.
  - apply has_rows_decide. vm_compute. reflexivity.
  - vm_compute. reflexivity.
  - intros c Hc. unfold numerical_columns, categorical_columns in Hc. simpl in Hc.
    repeat (apply elem_of_cons in Hc as [->|Hc];
            [first [ intros _; vm_compute; reflexivity
                   | intros Hobs; exfalso; apply Hobs; vm_compute; reflexivity ]|]).
    apply elem_of_nil in Hc. destruct Hc.
Defined.

End EdgeRuns.

(** ** The branches and the driver on sample tables *)

Section BranchRuns.
Import Sample Edge.
#[local] Existing Instance Q_numeric.

(** C3 as stated fails: a score column without a recorded training value
    has no median, and the fitted branch discards it; of two input columns
    one output column is left, and the missing entry of the first input
    column is replaced by nothing. *)
Lemma numeric_branch_counterexample :
  ∃ p,
    fit num_pipeline (NumCol <$> score_trains_unobserved) = Ok p ∧
    p.1 = [None; Some 10%Q] ∧
    transform num_pipeline p (NumCol <$> score_inputs) = Ok (Dense [[1; -1 # 2]]%Q) ∧
    transform num_pipeline p (NumCol <$> score_inputs)
      ≠ Ok (Dense (zip_with (λ t c, standardized t <$> c) score_trains_unobserved score_inputs)).
Proof.
  assert (∃ p, fit num_pipeline (NumCol <$> score_trains_unobserved) = Ok p) as [p Hp]
    by (eexists; vm_compute; reflexivity).
  exists p. split; [exact Hp|].
  assert (fit num_pipeline (NumCol <$> score_trains_unobserved)
          = Ok ([None; Some 10%Q], [(20, 20)]%Q)) as Hp' by (vm_compute; reflexivity).
  rewrite Hp' in Hp. injection Hp as <-.
  split; [reflexivity|].
  assert (transform num_pipeline ([None; Some 10%Q], [(20, 20)]%Q) (NumCol <$> score_inputs)
          = Ok (Dense [[1; -1 # 2]]%Q)) as Ht by (vm_compute; reflexivity).
  split; [exact Ht|]. rewrite Ht. intros Heq.
  apply (f_equal (λ r, match r with Ok (Dense cols) => length cols | _ => 0 end)) in Heq.
  vm_compute in Heq. discriminate Heq.
Qed.

Lemma numeric_branch_witness :
  (∃ p A,
     fit num_pipeline (NumCol <$> score_trains) = Ok p ∧
     p.1 = [Some 2; Some 10]%Q ∧
     transform num_pipeline p (NumCol <$> score_inputs)
       = Ok (Dense [[-1 # 2; 2]; [1; -1 # 2]]%Q) ∧
     transform num_pipeline p (NumCol <$> score_trains) = Ok (Dense A) ∧
     Forall (λ col, np.mean col = 0%Q ∧ np.var col = 1%Q) A) ∧
  (∃ p,
     fit num_pipeline (NumCol <$> score_trains_unobserved) = Ok p ∧
     p.1 = [None; Some 10%Q] ∧
     transform num_pipeline p (NumCol <$> score_inputs) = Ok (Dense [[1; -1 # 2]]%Q)).
Proof.
  assert (cols_len 2 score_inputs) as Hm by (repeat constructor).
  split.
  - assert (∃ p, fit num_pipeline (NumCol <$> score_trains) = Ok p) as [p Hp]
      by (eexists; vm_compute; reflexivity).
    destruct (numeric_branch 2 score_trains score_inputs p Hp eq_refl Hm)
      as (_ & Hst & Ht & _); [lia|].
    destruct (numeric_branch 5 score_trains score_trains p Hp eq_refl)
      as (_ & _ & Ht' & _); [repeat constructor | lia|].
    eexists p, _. split; [exact Hp|]. split; [exact Hst|]. split; [exact Ht|].
    split; [exact Ht'|]. repeat constructor.
  - assert (∃ p, fit num_pipeline (NumCol <$> score_trains_unobserved) = Ok p) as [p Hp]
      by (eexists; vm_compute; reflexivity).
    exists p. split; [exact Hp|].
    destruct (numeric_branch 2 score_trains_unobserved score_inputs p Hp eq_refl Hm)
      as (_ & Hst & Ht & _); [lia|].
    split; [exact Hst | exact Ht].
Defined.

(** C4 as stated fails: a categorical column without a recorded training
    value has no mode and no category; the fitted branch discards it, so an
    input gets output columns for the second column only, its missing entry
    in the first column is replaced by nothing, and its value [male], which
    training never saw, raises nothing.  And where training recorded values
    in both columns, an input with a value that training never saw is not
    encoded at all. *)
Lemma categorical_branch_counterexample :
  (∃ q B,
     fit cat_pipeline cat_trains_unobserved = Ok q ∧
     q.1 = [None; Some (Str "standard")] ∧
     q.2.1 = [[Str "free"; Str "standard"]] ∧
     transform cat_pipeline q cat_inputs = Ok B ∧
     StandardScaler.to_dense B = [[5 # 2; 0]; [0; 5 # 2]]%Q ∧
     StandardScaler.to_dense B
       ≠ concat (zip_with encoded_block (column_cells <$> cat_trains_unobserved)
                   (column_cells <$> cat_inputs))) ∧
  fit cat_pipeline cat_trains ≫= (λ q, transform cat_pipeline q cat_inputs_unseen)
    = Raise (ValueError "Found unknown categories").
Proof.
  split; [|vm_compute; reflexivity].
  assert (fit cat_pipeline cat_trains_unobserved
          = Ok ([None; Some (Str "standard")],
                ([[Str "free"; Str "standard"]], [(1 # 5, 2 # 5); (4 # 5, 2 # 5)]%Q))) as Hq
    by (vm_compute; reflexivity).
  assert (transform cat_pipeline
            ([None; Some (Str "standard")],
             ([[Str "free"; Str "standard"]], [(1 # 5, 2 # 5); (4 # 5, 2 # 5)]%Q)) cat_inputs
          = Ok (Sparse [[Some (5 # 2); None]; [None; Some (5 # 2)]]%Q)) as HB
    by (vm_compute; reflexivity).
  eexists _, _. split; [exact Hq|]. split; [reflexivity|]. split; [reflexivity|].
  split; [exact HB|]. split; [vm_compute; reflexivity|]. intros Heq.
  apply (f_equal length) in Heq. vm_compute in Heq. discriminate Heq.
Qed.

Lemma categorical_branch_witness :
  (∃ q B,
     fit cat_pipeline cat_trains = Ok q ∧
     q.1 = [Some (Str "female"); Some (Str "standard")] ∧
     q.2.1 = [[Str "female"; Str "male"]; [Str "free"; Str "standard"]] ∧
     transform cat_pipeline q cat_inputs = Ok B ∧
     StandardScaler.to_dense B = [[5 # 2; 0]; [0; 5 # 2]; [5 # 2; 0]; [0; 5 # 2]]%Q ∧
     transform cat_pipeline q cat_inputs_unseen
       = Raise (ValueError "Found unknown categories")) ∧
  (∃ q B,
     fit cat_pipeline cat_trains_unobserved = Ok q ∧
     q.1 = [None; Some (Str "standard")] ∧
     q.2.1 = [[Str "free"; Str "standard"]] ∧
     transform cat_pipeline q cat_inputs = Ok B ∧
     StandardScaler.to_dense B = [[5 # 2; 0]; [0; 5 # 2]]%Q).
Proof.
  assert (frame_cols_len 2 cat_inputs) as Hm by (repeat constructor).
  assert (frame_cols_len 2 cat_inputs_unseen) as Hm' by (repeat constructor).
  split.
  - assert (∃ q, fit cat_pipeline cat_trains = Ok q) as [q Hq]
      by (eexists; vm_compute; reflexivity).
    destruct (categorical_branch 2 cat_trains cat_inputs q Hq eq_refl Hm)
      as (_ & Hst & Hcats & _ & Hseen & _); [lia|].
    destruct (categorical_branch 2 cat_trains cat_inputs_unseen q Hq eq_refl Hm')
      as (_ & _ & _ & _ & _ & Hunseen & _); [lia|].
    destruct Hseen as (B & Ht & HB).
    { apply Forall2_cons. split; [intros _; apply seen_decide; vm_compute; reflexivity|].
      apply Forall2_cons. split; [intros _; apply seen_decide; vm_compute; reflexivity|].
      apply Forall2_nil_2. }
    exists q, B. split; [exact Hq|]. split; [exact Hst|]. split; [exact Hcats|].
    split; [exact Ht|]. split; [rewrite HB; vm_compute; reflexivity|].
    apply Hunseen. intros Hall. apply Forall2_cons in Hall as [_ Hall].
    apply Forall2_cons in Hall as [Hlunch _].
    specialize (Hlunch ltac:(discriminate) (Str "reduced")).
    assert (Str "reduced" ∉ observed (column_cells
              (ObjCol [Some "free"; Some "standard"; Some "standard"; Some "standard";
                       Some "standard"] : Column Q))) as Hnot
      by (apply not_elem_of_decide; vm_compute; reflexivity).
    apply Hnot, Hlunch. apply elem_of_decide. vm_compute. reflexivity.
  - assert (∃ q, fit cat_pipeline cat_trains_unobserved = Ok q) as [q Hq]
      by (eexists; vm_compute; reflexivity).
    destruct (categorical_branch 2 cat_trains_unobserved cat_inputs q Hq eq_refl Hm)
      as (_ & Hst & Hcats & _ & Hseen & _); [lia|].
    destruct Hseen as (B & Ht & HB).
    { apply Forall2_cons. split; [intros Hobs; by destruct Hobs|].
      apply Forall2_cons. split; [intros _; apply seen_decide; vm_compute; reflexivity|].
      apply Forall2_nil_2. }
    exists q, B. split; [exact Hq|]. split; [exact Hst|]. split; [exact Hcats|].
    split; [exact Ht|]. rewrite HB. vm_compute. reflexivity.
Defined.

Lemma target_appended_last_witness :
  ∃ r pre Xtr Xte,
    (run train3 test2).1 = Ok r ∧
    ColumnTransformer.fit_transform new_preprocessor (delete "math_score" train3)
      = Ok (pre, NdArray Xtr) ∧
    ColumnTransformer.transform pre (delete "math_score" test2) = Ok (NdArray Xte) ∧
    r.1.1 = Array2D (with_target Xtr [Some (Num 1); Some (Num 2); Some (Num 3)]%Q) ∧
    r.1.2 = Array2D (with_target Xte [Some (Num 1%Q); None]) ∧
    length Xtr = 3 ∧ length Xte = 2 ∧
    ColumnTransformer.transform pre (delete "math_score" (pick_rows [1; 0] test2))
      = Ok (NdArray (pick [1; 0] Xte)) ∧
    np.c_ (NdArray (pick [1; 0] Xte)) [None; Some (Num 1%Q)]
      = Ok (Array2D (pick [1; 0] (with_target Xte [Some (Num 1%Q); None]))) ∧
    ColumnTransformer.transform pre (delete "math_score" (pick_rows [2] train3))
      = Ok (NdArray (pick [2] Xtr)).
Proof.
  assert (∃ r, (run train3 test2).1 = Ok r) as [r Hrun]
    by (eexists; vm_compute; reflexivity).
  assert (has_rows 3 train3) as Hn by (apply has_rows_decide; vm_compute; reflexivity).
  assert (has_rows 2 test2) as Hm by (apply has_rows_decide; vm_compute; reflexivity).
  destruct (target_appended_last "train.csv" "test.csv" (files train3 test2) _ 3 2
              train3 test2 r (lookup_train _ _) (lookup_test _ _) Hn Hm
              (run_result _ _ _ Hrun))
    as (pre & Xtr & Xte & ytr & yte & Hytr & Hyte & Hfit & Htr & Hr1 & Hr2 & Hl & _ & _ & Hl'
        & _ & _ & _ & _ & Hpick & Hpick').
  assert (ytr = NumCol [Some 1; Some 2; Some 3]%Q) as ->.
  { assert (train3 !! "math_score" = Some (NumCol [Some 1; Some 2; Some 3]%Q)) as Heq
      by (vm_compute; reflexivity).
    rewrite Heq in Hytr. by injection Hytr as <-. }
  assert (yte = NumCol [Some 1%Q; None]) as ->.
  { assert (test2 !! "math_score" = Some (NumCol [Some 1%Q; None])) as Heq
      by (vm_compute; reflexivity).
    rewrite Heq in Hyte. by injection Hyte as <-. }
  destruct (Hpick' [1; 0]) as (_ & Hrows & Hc); [discriminate | repeat constructor|].
  destruct (Hpick [2]) as (_ & Hrow & _); [discriminate | repeat constructor|].
  exists r, pre, Xtr, Xte. split; [exact Hrun|]. split; [exact Hfit|]. split; [exact Htr|].
  split; [exact Hr1|]. split; [exact Hr2|]. split; [exact Hl|]. split; [exact Hl'|].
  split; [exact Hrows|]. split; [exact Hc | exact Hrow].
Defined.


(** C9 as stated fails: a test table of 20 rows with one category that the
    100 training rows never show makes the call raise. *)
Lemma end_to_end_counterexample :
  has_rows 100 train100 ∧ has_rows 20 test20_unseen ∧
  conforms train100 ∧ conforms test20_unseen ∧
  (run train100 test20_unseen).1
    = Raise (CustomException (ValueError "Found unknown categories") 97).
Proof.
  split; [apply has_rows_decide; vm_compute; reflexivity|].
  split; [apply has_rows_decide; vm_compute; reflexivity|].
  split; [apply table_conforms|]. split; [apply table_conforms|].
  vm_compute. reflexivity.
Qed.

Lemma train100_no_writing_conforms : conforms train100_no_writing.
Proof.
  split; [|split].
  - intros c Hc. unfold numerical_columns in Hc.
    repeat (apply elem_of_cons in Hc as [->|Hc]; [by eexists|]). by apply elem_of_nil in Hc.
  - intros c Hc. unfold categorical_columns in Hc.
    repeat (apply elem_of_cons in Hc as [->|Hc]; [by eexists|]). by apply elem_of_nil in Hc.
  - by eexists.
Qed.

Lemma seen_in_training_decide (train test : gmap string (Column Q)) :
  forallb (λ c, forallb (λ v, bool_decide (v ∈ observed (column_cells (column_of train c))))
                  (observed (column_cells (column_of test c))))
    categorical_columns = true →
  seen_in_training train test.
Proof.
  intros Hall c Hc _. rewrite forallb_forall in Hall.
  apply list_elem_of_In, Hall in Hc. by apply seen_decide.
Qed.

Lemma end_to_end_100_20_witness :
  (∃ tr te,
     (run train100 test20).1 = Ok (Array2D tr, Array2D te, "artifacts/preprocessor.pkl") ∧
     length tr = 100 ∧ length te = 20 ∧
     is_Some (artifacts (run train100 test20).2 !! "artifacts/preprocessor.pkl")) ∧
  (∃ tr te,
     (run train100_no_writing test20).1
       = Ok (Array2D tr, Array2D te, "artifacts/preprocessor.pkl") ∧
     length tr = 100 ∧ length te = 20 ∧
     is_Some (artifacts (run train100_no_writing test20).2 !! "artifacts/preprocessor.pkl")) ∧
  ¬ transformable train100 test20_unseen.
Proof.
  assert (has_rows 100 train100) as Hn by (apply has_rows_decide; vm_compute; reflexivity).
  assert (has_rows 100 train100_no_writing) as Hn'
    by (apply has_rows_decide; vm_compute; reflexivity).
  assert (has_rows 20 test20) as Hm by (apply has_rows_decide; vm_compute; reflexivity).
  assert (has_rows 20 test20_unseen) as Hm'
    by (apply has_rows_decide; vm_compute; reflexivity).
  assert (transformable train100 test20) as Hcan.
  { split; [vm_compute; lia|]. split; [vm_compute; lia|].
    split; [apply seen_in_training_decide; vm_compute; reflexivity | vm_compute; lia]. }
  assert (transformable train100_no_writing test20) as Hcan'.
  { split; [vm_compute; lia|]. split; [vm_compute; lia|].
    split; [apply seen_in_training_decide; vm_compute; reflexivity | vm_compute; lia]. }
  split; [|split].
  - destruct (end_to_end_100_20 "train.csv" "test.csv" (files train100 test20)
                train100 test20 (lookup_train _ _) (lookup_test _ _) Hn Hm
                (table_conforms _ _ _ _ _ _ _ _) (table_conforms _ _ _ _ _ _ _ _))
      as (Hreturns & _).
    destruct Hreturns as (tr & te & w' & Hrun & Hl & Hl' & Ha);
      [split; [exact Hcan | apply not_elem_of_empty]|].
    exists tr, te. unfold run. rewrite Hrun.
    split; [reflexivity|]. split; [exact Hl|]. split; [exact Hl' | exact Ha].
  - destruct (end_to_end_100_20 "train.csv" "test.csv" (files train100_no_writing test20)
                train100_no_writing test20 (lookup_train _ _) (lookup_test _ _) Hn' Hm
                train100_no_writing_conforms (table_conforms _ _ _ _ _ _ _ _))
      as (Hreturns & _).
    destruct Hreturns as (tr & te & w' & Hrun & Hl & Hl' & Ha);
      [split; [exact Hcan' | apply not_elem_of_empty]|].
    exists tr, te. unfold run. rewrite Hrun.
    split; [reflexivity|]. split; [exact Hl|]. split; [exact Hl' | exact Ha].
  - intros Hcan''.
    assert (is_Ok (run train100 test20_unseen).1 = false) as Hraise
      by (vm_compute; reflexivity).
    destruct (run train100 test20_unseen) as [[r|e] w'] eqn:Hrun; [|clear Hraise].
    + discriminate Hraise.
    + destruct (end_to_end_100_20 "train.csv" "test.csv" (files train100 test20_unseen)
                  train100 test20_unseen (lookup_train _ _) (lookup_test _ _) Hn Hm'
                  (table_conforms _ _ _ _ _ _ _ _) (table_conforms _ _ _ _ _ _ _ _))
        as (Hreturns & _).
      destruct Hreturns as (tr & te & w'' & Hrun' & _);
        [split; [exact Hcan'' | apply not_elem_of_empty]|].
      unfold run in Hrun. rewrite Hrun' in Hrun. discriminate Hrun.
Defined.

End BranchRuns.
